(** * MRI platform: the analysis pipeline, its voting classifier and volumetrics

    A shallow embedding of the Python back end (src/backend):
    - [ml/predictor.py]        majority voting over per-slice predictions,
    - [ml/nifti_slicer.py]     percentile-clip intensity normalisation,
    - [volumetric_analyzer.py] tissue volumes from probability maps,
    - [ml_runner.py]           the three-step model runner and the
                               normative comparison,
    - [routes/predict_api.py]  the background orchestrator.

    Python floats are idealised as exact rationals ([Q]); [round(x, n)] is
    rounding to [n] decimals, ties to even.  External collaborators (the
    network, the random generator, the data base, the object store, the file
    system) are oracles collected in environment records. *)

From Stdlib Require Import List String Ascii Bool Arith ZArith QArith Qround Qabs Qminmax.
From Stdlib Require Import DecimalString.
From Stdlib Require Import Lia Lqa Permutation Sorted.
Import ListNotations.

Local Open Scope string_scope.
Local Open Scope Q_scope.

(** ** Python numerics over [Q] *)

Module PyNum.

(** Nearest integer, ties to the even neighbour. *)
Definition round_half_even (q : Q) : Z :=
  let f := Qfloor q in
  match Qcompare (q - inject_Z f) (1 # 2) with
  | Lt => f
  | Gt => (f + 1)%Z
  | Eq => if Z.even f then f else (f + 1)%Z
  end.

Definition pow10 (ndigits : nat) : Q := inject_Z (10 ^ Z.of_nat ndigits).

(** [round(x, ndigits)] of Python, for [ndigits >= 0]. *)
Definition py_round (x : Q) (ndigits : nat) : Q :=
  inject_Z (round_half_even (x * pow10 ndigits)) / pow10 ndigits.

(** [sum(xs)] and [np.sum]. *)
Definition qsum (xs : list Q) : Q := fold_right Qplus 0 xs.

(** [np.mean(xs)]. *)
Definition np_mean (xs : list Q) : Q :=
  qsum xs / inject_Z (Z.of_nat (List.length xs)).

(** [max(xs)] over a non-empty list; [0] stands for the empty one. *)
Definition qmax_list (xs : list Q) : Q :=
  match xs with
  | [] => 0
  | x :: r => fold_left (fun m y => if Qle_bool y m then m else y) r x
  end.

Definition of_nat (n : nat) : Q := inject_Z (Z.of_nat n).

End PyNum.
Import PyNum.

(** ** collections.Counter, as an insertion-ordered association list *)

Module Counter.

Definition t := list (string * nat).

(** [c[k] += 1]: an existing key keeps its place, a new key goes last. *)
Fixpoint incr (k : string) (c : t) : t :=
  match c with
  | [] => [(k, 1%nat)]
  | (k', n) :: rest =>
      if String.eqb k k' then (k', S n) :: rest else (k', n) :: incr k rest
  end.

(** [Counter(iterable)]. *)
Definition of_list (l : list string) : t :=
  fold_left (fun c k => incr k c) l [].

(** [c.get(k, 0)], which is also [c[k]]. *)
Fixpoint get (c : t) (k : string) : nat :=
  match c with
  | [] => 0%nat
  | (k', n) :: rest => if String.eqb k k' then n else get rest k
  end.

(** [max(items, key=itemgetter(1))]: a later item replaces the best one only
    when its count is strictly larger. *)
Fixpoint max_from (best : string * nat) (rest : t) : string * nat :=
  match rest with
  | [] => best
  | x :: r => if (snd best <? snd x)%nat then max_from x r else max_from best r
  end.

(** [c.most_common(1)], which is [heapq.nlargest(1, c.items(), key=count)]
    and hence the [max] above; the empty counter gives the empty list. *)
Definition most_common_1 (c : t) : list (string * nat) :=
  match c with
  | [] => []
  | x :: r => [max_from x r]
  end.

End Counter.

(** ** Exceptions and results *)

Inductive exn : Type :=
| ValueError (msg : string)
| IndexError (msg : string)
| ZeroDivisionError (msg : string)
| Exception (msg : string).

(** [str(e)]. *)
Definition exn_msg (e : exn) : string :=
  match e with
  | ValueError m | IndexError m | ZeroDivisionError m | Exception m => m
  end.

Inductive result (A : Type) : Type :=
| Ok (a : A)
| Raised (e : exn).
Arguments Ok {A} a.
Arguments Raised {A} e.

(** ** ml/predictor.py *)

Module Predictor.

(** The dictionary returned for one slice. *)
Record Prediction : Type := {
  predicted_class : string;
  confidence : Q;
  probabilities : list (string * Q)
}.

(** Which implementation produced a prediction.  The Python dictionaries do
    not record it; it is ghost information of the model. *)
Inductive Source : Type := RealModel | StandIn.

Definition Source_eqb (a b : Source) : bool :=
  match a, b with
  | RealModel, RealModel | StandIn, StandIn => true
  | _, _ => false
  end.

(** [self.class_names], fixed by [__init__]. *)
Definition class_names : list string := ["AD"; "CN"; "MCI"].

Definition CLASS_LABELS : list (string * string) :=
  [("AD", "Alzheimer's Disease"); ("CN", "Cognitively Normal");
   ("MCI", "Mild Cognitive Impairment")].

Fixpoint dict_get {V : Type} (d : list (string * V)) (k : string) (default : V) : V :=
  match d with
  | [] => default
  | (k', v) :: rest => if String.eqb k k' then v else dict_get rest k default
  end.

(** The state [__init__] leaves behind. *)
Record MRIPredictor : Type := {
  initialized : bool;   (* self._initialized *)
  model_loaded : bool   (* self.model is not None *)
}.

Definition is_available (self : MRIPredictor) : bool :=
  initialized self && model_loaded self.

(** What the network answers for one image: [probabilities.max(1)] and the
    soft-max row. *)
Record ModelOutput : Type := {
  top_class : nat;
  top_prob : Q;
  softmax : list Q
}.

(** The collaborators of the classifier.  [forward path] is [None] when
    opening the image or the forward pass raises; [mock_sample i] is the
    random draw of the [i]-th call ([random.choice] as an index and the
    Dirichlet sample, one entry per class), [None] when the stand-in
    generator itself raises. *)
Record Oracle : Type := {
  forward : string -> option ModelOutput;
  mock_sample : nat -> option (nat * list Q)
}.

Definition scale2 (p : Q) : Q := py_round (p * 100) 2.

(** [_mock_prediction]. *)
Definition mock_prediction (o : Oracle) (i : nat) : option Prediction :=
  match mock_sample o i with
  | None => None
  | Some (r, probs) =>
      Some {| predicted_class := nth (r mod List.length class_names) class_names "";
              confidence := py_round (qmax_list probs * 100) 2;
              probabilities := combine class_names (map scale2 probs) |}
  end.

(** The body of the [try] in [predict_single_image]; [None] is an exception
    (here also the [IndexError] of [class_names[top_class]]). *)
Definition real_prediction (o : Oracle) (image_path : string) : option Prediction :=
  match forward o image_path with
  | None => None
  | Some out =>
      match nth_error class_names (top_class out) with
      | None => None
      | Some cls =>
          Some {| predicted_class := cls;
                  confidence := py_round (top_prob out * 100) 2;
                  probabilities := combine class_names (map scale2 (softmax out)) |}
      end
  end.

Definition tagged (s : Source) (p : option Prediction) : option (Source * Prediction) :=
  option_map (fun x => (s, x)) p.

(** [predict_single_image]: the stand-in when the model is unavailable, and
    also when the real inference of this one image raises. *)
Definition predict_single_image (self : MRIPredictor) (o : Oracle)
    (i : nat) (image_path : string) : option (Source * Prediction) :=
  if negb (is_available self) then tagged StandIn (mock_prediction o i)
  else
    match real_prediction o image_path with
    | Some p => Some (RealModel, p)
    | None => tagged StandIn (mock_prediction o i)
    end.

(** One entry of [individual_predictions]. *)
Record IndividualPrediction : Type := {
  image_index : nat;
  image_path : string;
  source : Source;
  prediction : Prediction
}.

(** [os.path.basename], for [/]-separated paths. *)
Fixpoint basename_from (acc : string) (s : string) : string :=
  match s with
  | EmptyString => acc
  | String c rest =>
      if Ascii.eqb c "/"%char then basename_from EmptyString rest
      else basename_from (acc ++ String c EmptyString) rest
  end.
Definition basename (s : string) : string := basename_from EmptyString s.

(** The loop over [enumerate(image_paths, 1)]: a slice whose prediction
    raises is skipped. *)
Fixpoint collect (self : MRIPredictor) (o : Oracle) (i : nat)
    (image_paths : list string) : list IndividualPrediction :=
  match image_paths with
  | [] => []
  | img_path :: rest =>
      match predict_single_image self o i img_path with
      | Some (s, p) =>
          {| image_index := i; image_path := basename img_path;
             source := s; prediction := p |} :: collect self o (S i) rest
      | None => collect self o (S i) rest
      end
  end.

Definition predicted_classes (preds : list IndividualPrediction) : list string :=
  map (fun ip => predicted_class (prediction ip)) preds.

Definition vote_counts (preds : list IndividualPrediction) : Counter.t :=
  Counter.of_list (predicted_classes preds).

(** [vote_counts.most_common(1)[0][0]]. *)
Definition final_diagnosis (preds : list IndividualPrediction) : option string :=
  match Counter.most_common_1 (vote_counts preds) with
  | [] => None
  | (d, _) :: _ => Some d
  end.

Definition votes_for_final (preds : list IndividualPrediction) (d : string) : nat :=
  Counter.get (vote_counts preds) d.

(** [(votes_for_final / len(predicted_classes)) * 100]. *)
Definition consensus_strength (preds : list IndividualPrediction) (d : string) : Q :=
  (of_nat (votes_for_final preds d) / of_nat (List.length (predicted_classes preds))) * 100.

Definition confidences_for_final (preds : list IndividualPrediction) (d : string) : list Q :=
  map (fun ip => confidence (prediction ip))
      (filter (fun ip => String.eqb (predicted_class (prediction ip)) d) preds).

Definition avg_confidence (preds : list IndividualPrediction) (d : string) : Q :=
  match confidences_for_final preds d with
  | [] => 0
  | cs => np_mean cs
  end.

Record VoteEntry : Type := { count : nat; percentage : Q }.

Definition vote_distribution (preds : list IndividualPrediction)
  : list (string * VoteEntry) :=
  map (fun cls =>
         (cls,
          {| count := Counter.get (vote_counts preds) cls;
             percentage :=
               py_round ((of_nat (Counter.get (vote_counts preds) cls)
                          / of_nat (List.length (predicted_classes preds))) * 100) 1 |}))
      class_names.

(** The dictionary [predict_patient] returns. *)
Record PatientResult : Type := {
  patient_diagnosis : string;
  diagnosis_label : string;
  r_confidence : Q;
  r_vote_distribution : list (string * VoteEntry);
  individual_predictions : list IndividualPrediction;
  r_consensus_strength : Q;
  total_images_processed : nat
}.

Definition predict_patient (self : MRIPredictor) (o : Oracle)
    (image_paths : list string) : result PatientResult :=
  match image_paths with
  | [] => Raised (ValueError "No image paths provided")
  | _ =>
      let preds := collect self o 1 image_paths in
      match predicted_classes preds with
      | [] => Raised (Exception "No images were successfully processed")
      | _ =>
          match final_diagnosis preds with
          | None => Raised (IndexError "list index out of range")
          | Some d =>
              Ok {| patient_diagnosis := d;
                    diagnosis_label := dict_get CLASS_LABELS d d;
                    r_confidence := py_round (avg_confidence preds d) 2;
                    r_vote_distribution := vote_distribution preds;
                    individual_predictions := preds;
                    r_consensus_strength := py_round (consensus_strength preds d) 1;
                    total_images_processed := List.length (predicted_classes preds) |}
          end
      end
  end.

End Predictor.

(** ** Strings and paths *)

Module Path.

(** [sub in s]. *)
Fixpoint contains (sub s : string) : bool :=
  if String.prefix sub s then true
  else match s with
       | EmptyString => false
       | String _ rest => contains sub rest
       end.

(** [s.replace(old, new)] for a non-empty [old]; [skip] counts the
    characters of a match still to drop. *)
Fixpoint replace_from (skip : nat) (old new s : string) : string :=
  match s with
  | EmptyString => EmptyString
  | String c rest =>
      match skip with
      | S k => replace_from k old new rest
      | O =>
          if String.prefix old s
          then new ++ replace_from (String.length old - 1) old new rest
          else String c (replace_from 0 old new rest)
      end
  end.
Definition replace (old new s : string) : string := replace_from 0 old new s.

(** [os.path.dirname] and [os.path.join], for [/]-separated paths. *)
Fixpoint dirname_from (acc cur : string) (s : string) : string :=
  match s with
  | EmptyString => acc
  | String c rest =>
      if Ascii.eqb c "/"%char then dirname_from cur (cur ++ String c EmptyString) rest
      else dirname_from acc (cur ++ String c EmptyString) rest
  end.
Definition dirname (s : string) : string := dirname_from EmptyString EmptyString s.

Definition join (a b : string) : string :=
  match a with
  | EmptyString => b
  | _ => a ++ "/" ++ b
  end.

Definition str_of_nat (n : nat) : string := NilEmpty.string_of_uint (Nat.to_uint n).

Fixpoint ends_with (suffix s : string) : bool :=
  if String.eqb suffix s then true
  else match s with
       | EmptyString => false
       | String _ rest => ends_with suffix rest
       end.

End Path.

(** ** ml/nifti_slicer.py *)

Module Slicer.

(** [img.get_fdata()]: the voxels in C order with the array's shape. *)
Record Volume : Type := {
  shape : nat * nat * nat;
  voxels : list Q
}.

Fixpoint insert_sorted (x : Q) (l : list Q) : list Q :=
  match l with
  | [] => [x]
  | y :: r => if Qle_bool x y then x :: l else y :: insert_sorted x r
  end.

Definition sort_voxels (l : list Q) : list Q := fold_right insert_sorted [] l.

(** [np.percentile(data, q)] with the default linear interpolation between
    the two closest order statistics.  NumPy answers [nan] on an empty
    array; the model answers [0], and [_normalize_intensity] returns the
    empty array in both cases. *)
Definition np_percentile (data : list Q) (q : Q) : Q :=
  let a := sort_voxels data in
  let h := of_nat (List.length a - 1) * q / 100 in
  let lo := Z.to_nat (Qfloor h) in
  let g := h - inject_Z (Qfloor h) in
  let x0 := nth lo a 0 in
  let x1 := nth (Nat.min (S lo) (List.length a - 1)) a 0 in
  x0 + g * (x1 - x0).

(** [np.clip(x, a_min, a_max)]: [minimum(a_max, maximum(x, a_min))]. *)
Definition np_clip (x a_min a_max : Q) : Q := Qmin a_max (Qmax x a_min).

(** [_normalize_intensity]. *)
Definition normalize_intensity (data : list Q) : list Q :=
  let p99 := np_percentile data 99 in
  if Qeq_bool p99 0 then data
  else map (fun x => (np_clip x 0 p99 / p99) * 255) data.

(** The coordinates of the [i]-th voxel in C order. *)
Definition coords (sh : nat * nat * nat) (i : nat) : nat * nat * nat :=
  let '(_, ny, nz) := sh in
  ((i / (ny * nz))%nat, ((i / nz) mod ny)%nat, (i mod nz)%nat).

Fixpoint mask_coords (sh : nat * nat * nat) (i : nat) (data : list Q)
  : list (nat * nat * nat) :=
  match data with
  | [] => []
  | x :: r =>
      if Qle_bool x 10 then mask_coords sh (S i) r
      else coords sh i :: mask_coords sh (S i) r
  end.

Definition list_min (l : list nat) : nat := fold_right Nat.min (hd 0%nat l) l.
Definition list_max (l : list nat) : nat := fold_right Nat.max 0%nat l.

(** [_find_brain_center]: (sagittal, coronal, axial). *)
Definition find_brain_center (v : Volume) : nat * nat * nat :=
  match mask_coords (shape v) 0 (voxels v) with
  | [] =>
      let '(nx, ny, nz) := shape v in ((nx / 2)%nat, (ny / 2)%nat, (nz / 2)%nat)
  | cs =>
      let xs := map (fun c => fst (fst c)) cs in
      let ys := map (fun c => snd (fst c)) cs in
      let zs := map (fun c => snd c) cs in
      (((list_min xs + list_max xs) / 2)%nat,
       ((list_min ys + list_max ys) / 2)%nat,
       ((list_min zs + list_max zs) / 2)%nat)
  end.

Definition axis_of (view_plane : string) : nat :=
  if String.eqb view_plane "sagittal" then 0%nat
  else if String.eqb view_plane "coronal" then 1%nat
  else 2%nat.

Definition axis_len (sh : nat * nat * nat) (axis : nat) : nat :=
  let '(nx, ny, nz) := sh in
  match axis with 0%nat => nx | 1%nat => ny | _ => nz end.

Definition center_of (c : nat * nat * nat) (sh : nat * nat * nat)
    (view_plane : string) : nat :=
  let '(cx, cy, cz) := c in
  if String.eqb view_plane "sagittal" then cx
  else if String.eqb view_plane "coronal" then cy
  else if String.eqb view_plane "axial" then cz
  else (axis_len sh (axis_of view_plane) / 2)%nat.

(** [list(range(start_idx, end_idx))] around the centre. *)
Definition slice_indices (sh : nat * nat * nat) (center num_slices axis : nat)
  : list nat :=
  let start_idx := Z.to_nat (Z.max 0 (Z.of_nat center - Z.of_nat (num_slices / 2))) in
  let end_idx := Nat.min (axis_len sh axis) (start_idx + num_slices) in
  seq start_idx (end_idx - start_idx).

(** The file system and image library, as seen by the slicer:
    [nib_load path] is the canonically re-oriented volume, [None] when the
    file is missing or cannot be parsed; [save_ok path] is [false] when
    writing the image raises. *)
Record IO : Type := {
  nib_load : string -> option Volume;
  save_ok : string -> bool
}.

(** [_load_and_prepare], with [normalize=True] as the pipeline builds it. *)
Definition load_and_prepare (io : IO) (nifti_path : string) : option Volume :=
  match nib_load io nifti_path with
  | None => None
  | Some v => Some {| shape := shape v; voxels := normalize_intensity (voxels v) |}
  end.

(** The saving loop: [None] when a save raises. *)
Fixpoint save_slices (io : IO) (output_dir pre : string) (i : nat)
    (indices : list nat) : option (list string) :=
  match indices with
  | [] => Some []
  | _ :: rest =>
      let save_path :=
        Path.join output_dir (pre ++ "_" ++ Path.str_of_nat (i + 1) ++ ".png") in
      if save_ok io save_path then
        match save_slices io output_dir pre (S i) rest with
        | Some ps => Some (save_path :: ps)
        | None => None
        end
      else None
  end.

(** [extract_middle_slices] with an output directory: every exception is
    turned into the empty list. *)
Definition extract_middle_slices (io : IO) (nifti_path : string)
    (num_slices : nat) (output_dir view_plane : string) : list string :=
  match load_and_prepare io nifti_path with
  | None => []
  | Some data =>
      let center_map := find_brain_center data in
      let axis := axis_of view_plane in
      let center := center_of center_map (shape data) view_plane in
      let indices := slice_indices (shape data) center num_slices axis in
      match save_slices io output_dir "slice" 0 indices with
      | Some results => results
      | None => []
      end
  end.

End Slicer.

(** ** volumetric_analyzer.py *)

Module Volumetric.

(** A loaded NIfTI image: its voxel data and [header.get_zooms()]. *)
Record NiftiImage : Type := {
  fdata : list Q;
  zooms : list Q
}.

(** The six volumes, in cubic centimetres. *)
Record Volumes : Type := {
  brain : Q; gm : Q; wm : Q; csf : Q; hippo : Q; ventricles : Q
}.

Definition np_prod (l : list Q) : Q := fold_right Qmult 1 l.

(** [float(np.prod(header.get_zooms()[:3]))]. *)
Definition voxel_volume_mm3 (img : NiftiImage) : Q := np_prod (firstn 3 (zooms img)).

(** [float(np.sum(data)) * voxel_volume_mm3 / 1000.0]. *)
Definition tissue_volume_cm3 (img : NiftiImage) : Q :=
  qsum (fdata img) * voxel_volume_mm3 img / 1000.

Definition WM_GM_RATIO : Q := 88 # 100.

Definition truthy (s : string) : bool := negb (String.eqb s "").

(** The white-matter branch: the real map when a path is given and loads,
    the estimate from the grey-matter volume otherwise. *)
Definition wm_volume_cm3 (load : string -> option NiftiImage)
    (mwp2_path : option string) (gm_volume_cm3 : Q) : Q :=
  let real :=
    match mwp2_path with
    | Some p => if truthy p then option_map tissue_volume_cm3 (load p) else None
    | None => None
    end in
  match real with
  | Some v => v
  | None => gm_volume_cm3 * WM_GM_RATIO
  end.

Definition total_brain (gm_volume_cm3 wm_vol : Q) : Q := gm_volume_cm3 + wm_vol.

Definition tbv_ratio (tb : Q) : Q :=
  if Qle_bool tb 0 then 1 else tb / 1250.

(** [extract_volumes_from_nifti]; loading the grey-matter map is outside
    any [try], so its failure propagates. *)
Definition extract_volumes_from_nifti (load : string -> option NiftiImage)
    (mwp1_path : string) (mwp2_path : option string) : result Volumes :=
  match load mwp1_path with
  | None => Raised (Exception "cannot load mwp1")
  | Some gm_img =>
      let gm_volume_cm3 := tissue_volume_cm3 gm_img in
      let wm_vol := wm_volume_cm3 load mwp2_path gm_volume_cm3 in
      let tb := total_brain gm_volume_cm3 wm_vol in
      let ratio := tbv_ratio tb in
      Ok {| brain := py_round tb 2;
            gm := py_round gm_volume_cm3 2;
            wm := py_round wm_vol 2;
            csf := py_round (200 * ratio) 2;
            hippo := py_round ((38 # 10) * ratio) 2;
            ventricles := py_round (35 * ratio) 2 |}
  end.

End Volumetric.

(** ** config.py *)

Module Config.

Definition USE_MOCK_MODEL : bool := false.
Definition USE_CAT12_PREPROCESSING : bool := true.
Definition CONVIT_CHECKPOINT_PATH : string := "checkpoints/ConViT_model.pth".
Definition REPORT_ASSETS_BUCKET : string := "report-assets".

Definition DEFAULT_CLASSES : list string := ["CN"; "MCI"; "AD"].

Definition ANALYSIS_TYPES : list (string * list string) :=
  [("multi-disease", ["CN"; "MCI"; "AD"]); ("ad-only", ["CN"; "AD"])].

Record Norm : Type := { nmin : Q; nmax : Q; unit : string }.

Definition NORMATIVE_VOLUMES : list (string * Norm) :=
  [("total_brain",  {| nmin := 1100; nmax := 1400; unit := "cm³" |});
   ("gray_matter",  {| nmin := 450;  nmax := 600;  unit := "cm³" |});
   ("white_matter", {| nmin := 400;  nmax := 550;  unit := "cm³" |});
   ("csf",          {| nmin := 150;  nmax := 300;  unit := "cm³" |});
   ("hippocampus",  {| nmin := 3;    nmax := 45 # 10; unit := "cm³" |});
   ("ventricles",   {| nmin := 20;   nmax := 50;   unit := "cm³" |})].

End Config.

(** ** The stages a run goes through, for traces *)

Inductive event : Type :=
| EvStatus (s : string)            (* update_session_status(session, s) *)
| EvPreprocess                     (* run_cat12_preprocessing *)
| EvSliceExtraction                (* extract_middle_slices *)
| EvClassification                 (* the per-slice loop of predict_patient *)
| EvAggregation                    (* the majority vote of predict_patient *)
| EvVolumetrics                    (* extract_volumes_from_nifti *)
| EvVolumeEstimate                 (* _generate_consistent_volumes *)
| EvStandInRun                     (* _run_model_mock *)
| EvCreateRecord                   (* create_prediction_record *)
| EvViewerSlices                   (* extract_and_upload_viewer_slices *)
| EvSimilarity                     (* run_similarity_analysis *)
| EvChart (name : string)          (* generate_*_chart *)
| EvChartUpload (url_key : string) (* upload of one visualisation *)
| EvFetchReportData                (* get_comprehensive_report_data *)
| EvReport (pdf_type : string)     (* build and upload of one PDF *)
| EvUpdateRecord                   (* update_prediction_with_reports *)
| EvStorageCleanup (url : string)  (* cleanup_storage_on_error *)
| EvRemoveTemp.                    (* os.remove(file_path) *)

(** ** ml_runner.py and ml_runner_mock.py *)

Module MlRunner.
Import Config.

(** The dictionary [run_model] returns; a key that some of its three
    shapes (success, stand-in, error) lack is an [option]. *)
Record MlResults : Type := {
  prediction : string;
  confidence : Q;
  probabilities : list Q;
  classes : list string;
  brain_volume : option Q;
  gm_volume : option Q;
  wm_volume : option Q;
  csf_volume : option Q;
  hippocampal_volume : option Q;
  ventricular_volume : option Q;
  processing_time : Z;
  analysis_type : option string;
  used_cat12 : option bool;
  model_version : option string;
  status : option string;
  error_details : option string
}.

(** [_error_response]. *)
Definition error_response (msg : string) : MlResults :=
  {| prediction := "Error"; confidence := 0; probabilities := [0; 0; 0];
     classes := ["Error"]; brain_volume := Some 0;
     gm_volume := None; wm_volume := None; csf_volume := None;
     hippocampal_volume := None; ventricular_volume := None;
     processing_time := 0%Z; analysis_type := None; used_cat12 := None;
     model_version := None; status := None; error_details := Some msg |}.

Definition factor_of (label : string) : Q :=
  if String.eqb label "AD" then 85 # 100
  else if String.eqb label "MCI" then 92 # 100
  else 1.

(** [_generate_consistent_volumes]. *)
Definition generate_consistent_volumes (label : string) : Volumetric.Volumes :=
  let base := 1300 in
  let factor := factor_of label in
  {| Volumetric.brain := base * factor;
     Volumetric.gm := base * (45 # 100) * factor;
     Volumetric.wm := base * (40 # 100) * factor;
     Volumetric.csf := base * (15 # 100) * (2 - factor);
     Volumetric.hippo := 4 * factor;
     Volumetric.ventricles := 30 * (2 - factor) |}.

(** [_generate_mock_volumes]. *)
Definition generate_mock_volumes (label : string) : Volumetric.Volumes :=
  let v := generate_consistent_volumes label in
  {| Volumetric.brain := py_round (Volumetric.brain v) 2;
     Volumetric.gm := py_round (Volumetric.gm v) 2;
     Volumetric.wm := py_round (Volumetric.wm v) 2;
     Volumetric.csf := py_round (Volumetric.csf v) 2;
     Volumetric.hippo := py_round (Volumetric.hippo v) 2;
     Volumetric.ventricles := py_round (Volumetric.ventricles v) 2 |}.

(** [np.argmax]: the first index of the maximum. *)
Fixpoint argmax_from (best_i : nat) (best : Q) (i : nat) (l : list Q) : nat :=
  match l with
  | [] => best_i
  | x :: r => if Qle_bool x best then argmax_from best_i best (S i) r
              else argmax_from i x (S i) r
  end.
Definition np_argmax (l : list Q) : nat :=
  match l with
  | [] => 0%nat
  | x :: r => argmax_from 0 x 1 r
  end.

(** The random draws of one stand-in run. *)
Record MockDraw : Type := {
  raw_prob : nat -> Q;   (* the uniform draw for class [i] *)
  mock_time : Z          (* random.randint(45, 180) *)
}.

(** [_run_model_mock]; its two cosmetic random keys ([scan_quality],
    [motion_artifacts]) are left out. *)
Definition run_model_mock (d : MockDraw) (atype : string) : MlResults :=
  let cls := Predictor.dict_get ANALYSIS_TYPES atype DEFAULT_CLASSES in
  let raw_probs := map (raw_prob d) (seq 0 (List.length cls)) in
  let total := qsum raw_probs in
  let probs := map (fun p => p / total) raw_probs in
  let pred := nth (np_argmax probs) cls "" in
  let volumes := generate_mock_volumes pred in
  {| prediction := pred; confidence := qmax_list probs; probabilities := probs;
     classes := cls;
     brain_volume := Some (Volumetric.brain volumes);
     gm_volume := Some (Volumetric.gm volumes);
     wm_volume := Some (Volumetric.wm volumes);
     csf_volume := Some (Volumetric.csf volumes);
     hippocampal_volume := Some (Volumetric.hippo volumes);
     ventricular_volume := Some (Volumetric.ventricles volumes);
     processing_time := mock_time d; analysis_type := Some atype;
     used_cat12 := Some false; model_version := Some "mock-v1.0";
     status := Some "success"; error_details := None |}.

(** Everything [run_model] reaches outside itself. *)
Record Env : Type := {
  use_mock_model : bool;                    (* config.USE_MOCK_MODEL *)
  use_cat12 : bool;                         (* config.USE_CAT12_PREPROCESSING *)
  mock_importable : bool;                   (* import ml_runner_mock succeeds *)
  mock_draw : MockDraw;
  cat12 : string -> result (option string); (* run_cat12_preprocessing *)
  path_exists : string -> bool;             (* os.path.exists *)
  makedirs_ok : string -> bool;             (* os.makedirs does not raise *)
  slicer_io : Slicer.IO;
  predictor : Predictor.MRIPredictor;       (* create_predictor(...) *)
  oracle : Predictor.Oracle;
  load_nifti : string -> option Volumetric.NiftiImage;
  elapsed_ms : Z
}.

(** Step 1: the processed path and [used_cat12]; a failed preprocessing
    keeps the raw scan, an exception of the tool's driver propagates. *)
Definition preprocess (env : Env) (scan_path : string)
  : list event * result (string * bool) :=
  if use_cat12 env then
    if Path.contains "mwp1" (Predictor.basename scan_path)
    then ([], Ok (scan_path, true))
    else
      match cat12 env scan_path with
      | Raised e => ([EvPreprocess], Raised e)
      | Ok (Some f) =>
          if Volumetric.truthy f && path_exists env f
          then ([EvPreprocess], Ok (f, true))
          else ([EvPreprocess], Ok (scan_path, false))
      | Ok None => ([EvPreprocess], Ok (scan_path, false))
      end
  else ([], Ok (scan_path, false)).

(** Step 2, the body of its [try]. *)
Definition slice_stage (env : Env) (processed_path : string) : result (list string) :=
  let slice_dir := Path.join (Path.dirname processed_path) "slices" in
  if makedirs_ok env slice_dir then
    match Slicer.extract_middle_slices (slicer_io env) processed_path 5 slice_dir "axial" with
    | [] => Raised (ValueError "Slicer returned no images.")
    | slice_paths => Ok slice_paths
    end
  else Raised (Exception "cannot create the slice directory").

(** The stand-in run (or, when even that cannot be imported, the error
    response) that the inference step falls back to. *)
Definition mock_fallback (env : Env) (atype : string) (why : string)
  : list event * MlResults :=
  if mock_importable env
  then ([EvStandInRun], run_model_mock (mock_draw env) atype)
  else ([], error_response ("Model inference failed: " ++ why)).

Fixpoint index_of (x : string) (l : list string) : option nat :=
  match l with
  | [] => None
  | y :: r => if String.eqb x y then Some 0%nat else option_map S (index_of x r)
  end.

(** The probability list of the response: the confidence at the predicted
    class, the remainder shared by the others. *)
Definition format_probabilities (cls : list string) (label : string) (conf : Q) : list Q :=
  match index_of label cls with
  | None => map (fun _ => 0) cls
  | Some idx =>
      let remainder :=
        if (1 <? List.length cls)%nat then (1 - conf) / of_nat (List.length cls - 1) else 0 in
      map (fun i => if Nat.eqb i idx then conf else remainder) (seq 0 (List.length cls))
  end.

(** The volumes of the response. *)
Definition volumes_stage (env : Env) (processed_path label : string)
  : list event * Volumetric.Volumes :=
  if Path.contains "mwp1" (Predictor.basename processed_path) then
    let candidate := Path.replace "mwp1" "mwp2" processed_path in
    let mwp2_path := if path_exists env candidate then Some candidate else None in
    match Volumetric.extract_volumes_from_nifti (load_nifti env) processed_path mwp2_path with
    | Ok v => ([EvVolumetrics], v)
    | Raised _ => ([EvVolumetrics; EvVolumeEstimate], generate_consistent_volumes label)
    end
  else ([EvVolumeEstimate], generate_consistent_volumes label).

Definition success_response (env : Env) (atype processed_path : string)
    (used : bool) (r : Predictor.PatientResult) (volumes : Volumetric.Volumes) : MlResults :=
  let cls := Predictor.dict_get ANALYSIS_TYPES atype DEFAULT_CLASSES in
  let label := Predictor.patient_diagnosis r in
  let conf := Predictor.r_confidence r / 100 in
  {| prediction := label; confidence := conf;
     probabilities := format_probabilities cls label conf; classes := cls;
     brain_volume := Some (Volumetric.brain volumes);
     gm_volume := Some (Volumetric.gm volumes);
     wm_volume := Some (Volumetric.wm volumes);
     csf_volume := Some (Volumetric.csf volumes);
     hippocampal_volume := Some (Volumetric.hippo volumes);
     ventricular_volume := Some (Volumetric.ventricles volumes);
     processing_time := elapsed_ms env; analysis_type := Some atype;
     used_cat12 := Some used; model_version := Some "ConViT-v1.0";
     status := Some "success"; error_details := None |}.

(** Step 3 and the formatting of the response. *)
Definition inference_stage (env : Env) (atype processed_path : string)
    (used : bool) (slice_paths : list string) : list event * MlResults :=
  if negb (path_exists env CONVIT_CHECKPOINT_PATH) then
    mock_fallback env atype "No module named 'ml_runner_mock'"
  else if negb (Predictor.is_available (predictor env)) then
    mock_fallback env atype "No module named 'ml_runner_mock'"
  else
    match Predictor.predict_patient (predictor env) (oracle env) slice_paths with
    | Raised e =>
        let '(t, r) := mock_fallback env atype (exn_msg e) in
        (EvClassification :: t, r)
    | Ok r =>
        let '(t, volumes) := volumes_stage env processed_path (Predictor.patient_diagnosis r) in
        (([EvClassification; EvAggregation] ++ t)%list,
         success_response env atype processed_path used r volumes)
    end.

(** [run_model]: the trace of the stages it ran and its outcome. *)
Definition run_model (env : Env) (scan_path atype : string)
  : list event * result MlResults :=
  if use_mock_model env && mock_importable env
  then ([EvStandInRun], Ok (run_model_mock (mock_draw env) atype))
  else
    match preprocess env scan_path with
    | (t1, Raised e) => (t1, Raised e)
    | (t1, Ok (processed_path, used)) =>
        match slice_stage env processed_path with
        | Raised e =>
            ((t1 ++ [EvSliceExtraction])%list,
             Ok (error_response ("Slice extraction failed: " ++ exn_msg e)))
        | Ok slice_paths =>
            let '(t3, r) := inference_stage env atype processed_path used slice_paths in
            ((t1 ++ [EvSliceExtraction] ++ t3)%list, Ok r)
        end
    end.

(** *** get_volume_comparison *)

Record Comparison : Type := {
  measured : Q;
  min_normal : Q;
  max_normal : Q;
  c_unit : string;
  c_status : string;
  deviation_percent : Q
}.

(** Python's true division. *)
Definition py_div (x y : Q) : result Q :=
  if Qeq_bool y 0 then Raised (ZeroDivisionError "division by zero") else Ok (x / y).

Definition Qlt_bool (x y : Q) : bool := negb (Qle_bool y x).

Definition status_of (value : Q) (norm : Norm) : string :=
  if Qlt_bool value (nmin norm) then "Below Normal"
  else if Qlt_bool (nmax norm) value then "Above Normal"
  else "Normal".

(** The local [deviation] of the loop body, before [abs] and [round]. *)
Definition deviation (value : Q) (norm : Norm) : result Q :=
  let times100 (r : result Q) :=
    match r with Ok d => Ok (d * 100) | Raised e => Raised e end in
  if Qlt_bool value (nmin norm) then
    times100 (py_div (nmin norm - value) (nmin norm))
  else if Qlt_bool (nmax norm) value then
    times100 (py_div (value - nmax norm) (nmax norm))
  else
    let mid := (nmin norm + nmax norm) / 2 in
    times100 (py_div (value - mid) mid).

(** One iteration of the loop, for a value that is not [None]. *)
Definition compare_value (value : Q) (norm : Norm) : result Comparison :=
  match deviation value norm with
  | Raised e => Raised e
  | Ok dev =>
      Ok {| measured := value; min_normal := nmin norm; max_normal := nmax norm;
            c_unit := unit norm; c_status := status_of value norm;
            deviation_percent := py_round (Qabs dev) 1 |}
  end.

Definition norm_of (name : string) : Norm :=
  Predictor.dict_get NORMATIVE_VOLUMES name {| nmin := 0; nmax := 0; unit := "" |}.

Definition volume_mappings (ml_results : MlResults) : list (string * (option Q * Norm)) :=
  [("total_brain",  (brain_volume ml_results, norm_of "total_brain"));
   ("gray_matter",  (gm_volume ml_results, norm_of "gray_matter"));
   ("white_matter", (wm_volume ml_results, norm_of "white_matter"));
   ("csf",          (csf_volume ml_results, norm_of "csf"));
   ("hippocampus",  (hippocampal_volume ml_results, norm_of "hippocampus"))].

Fixpoint compare_all (ms : list (string * (option Q * Norm)))
  : result (list (string * Comparison)) :=
  match ms with
  | [] => Ok []
  | (name, (None, _)) :: rest => compare_all rest
  | (name, (Some value, norm)) :: rest =>
      match compare_value value norm with
      | Raised e => Raised e
      | Ok c =>
          match compare_all rest with
          | Raised e => Raised e
          | Ok cs => Ok ((name, c) :: cs)
          end
      end
  end.

Definition get_volume_comparison (ml_results : MlResults)
  : result (list (string * Comparison)) :=
  compare_all (volume_mappings ml_results).

End MlRunner.

(** ** A state-and-exception monad for the orchestrators *)

Module Run.

(** What a background run owns: the trace of what it did, the two local
    accumulators of the source, and whether the uploaded temp file is still
    on disk. *)
Record State : Type := {
  trace : list event;
  uploaded_urls : list (string * string);
  report_errors : list string;
  temp_file : bool
}.

Definition M (A : Type) : Type := State -> result A * State.

Definition ret {A : Type} (a : A) : M A := fun s => (Ok a, s).

Definition bind {A B : Type} (m : M A) (k : A -> M B) : M B :=
  fun s =>
    match m s with
    | (Ok a, s') => k a s'
    | (Raised e, s') => (Raised e, s')
    end.

Definition raise {A : Type} (e : exn) : M A := fun s => (Raised e, s).

(** [try: m except Exception as e: h e]. *)
Definition try_except {A : Type} (m : M A) (h : exn -> M A) : M A :=
  fun s =>
    match m s with
    | (Ok a, s') => (Ok a, s')
    | (Raised e, s') => h e s'
    end.

(** [try: m finally: f]. *)
Definition try_finally {A : Type} (m : M A) (f : M unit) : M A :=
  fun s =>
    let '(r, s') := m s in
    match f s' with
    | (Ok _, s'') => (r, s'')
    | (Raised e, s'') => (Raised e, s'')
    end.

Definition emit (e : event) : M unit :=
  fun s => (Ok tt, {| trace := (trace s ++ [e])%list; uploaded_urls := uploaded_urls s;
                      report_errors := report_errors s; temp_file := temp_file s |}).

Definition emit_all (es : list event) : M unit :=
  fun s => (Ok tt, {| trace := (trace s ++ es)%list; uploaded_urls := uploaded_urls s;
                      report_errors := report_errors s; temp_file := temp_file s |}).

Fixpoint dict_set (d : list (string * string)) (k v : string) : list (string * string) :=
  match d with
  | [] => [(k, v)]
  | (k', v') :: rest =>
      if String.eqb k k' then (k', v) :: rest else (k', v') :: dict_set rest k v
  end.

(** [uploaded_urls[url_key] = url]. *)
Definition set_url (url_key url : string) : M unit :=
  fun s => (Ok tt, {| trace := trace s; uploaded_urls := dict_set (uploaded_urls s) url_key url;
                      report_errors := report_errors s; temp_file := temp_file s |}).

(** [report_errors.append(msg)]. *)
Definition add_error (msg : string) : M unit :=
  fun s => (Ok tt, {| trace := trace s; uploaded_urls := uploaded_urls s;
                      report_errors := (report_errors s ++ [msg])%list;
                      temp_file := temp_file s |}).

Definition get_state : M State := fun s => (Ok s, s).

Definition set_temp_file (b : bool) : M unit :=
  fun s => (Ok tt, {| trace := trace s; uploaded_urls := uploaded_urls s;
                      report_errors := report_errors s; temp_file := b |}).

Fixpoint for_each {A : Type} (l : list A) (f : A -> M unit) : M unit :=
  match l with
  | [] => ret tt
  | x :: rest => bind (f x) (fun _ => for_each rest f)
  end.

(** [m] keeps [P], whether it returns or raises. *)
Definition preserves {A : Type} (P : State -> Prop) (m : M A) : Prop :=
  forall s r s', P s -> m s = (r, s') -> P s'.

End Run.

Declare Scope run_scope.
Delimit Scope run_scope with run.
Notation "x <- m ;; k" := (Run.bind m (fun x => k))
  (at level 61, m at next level, right associativity) : run_scope.
Notation "m ;;; k" := (Run.bind m (fun _ => k))
  (at level 61, right associativity) : run_scope.

(** ** routes/predict_api.py and app.py: the background orchestrators *)

Module Orchestrator.
Import Run.
Local Open Scope run_scope.

(** The collaborators of a background run. *)
Record Env : Type := {
  client_ok : bool;     (* get_supabase_client() returns a client *)
  ml : MlRunner.Env;
  create_record : MlRunner.MlResults -> option string * option string;
                        (* create_prediction_record: (prediction_id, err) *)
  nibabel_importable : bool;
  viewer_slices : string -> result (list (string * list string));
  similarity : MlRunner.MlResults -> result (option string);
                        (* run_similarity_analysis(...).get('plot_base64') *)
  volume_chart : MlRunner.MlResults -> result string;
  confidence_chart : list Q -> list string -> result string;
  upload_chart : string -> result (option string);
                        (* base64 decoding, then upload_to_storage's url *)
  build_report : string -> bool;   (* building and rendering do not raise *)
  upload_report : string -> option string;
  remove_ok : bool      (* os.remove(file_path) does not raise *)
}.

Definition truthy := Volumetric.truthy.

Definition truthy_opt (o : option string) : bool :=
  match o with Some s => truthy s | None => false end.

(** database.update_session_status: the client is fetched before its [try],
    the write itself never raises. *)
Definition update_session_status (env : Env) (status : string) : M unit :=
  if client_ok env then emit (EvStatus status)
  else raise (ValueError "Supabase credentials not configured.").

Definition run_model_stage (env : Env) (file_path atype : string)
  : M MlRunner.MlResults :=
  let '(t, r) := MlRunner.run_model (ml env) file_path atype in
  emit_all t ;;;
  match r with
  | Ok x => ret x
  | Raised e => raise e
  end.

Definition lower_ascii (c : ascii) : ascii :=
  let n := nat_of_ascii c in
  if (65 <=? n)%nat && (n <=? 90)%nat then ascii_of_nat (n + 32) else c.

Fixpoint lower (s : string) : string :=
  match s with
  | EmptyString => EmptyString
  | String c rest => String (lower_ascii c) (lower rest)
  end.

Fixpoint str_ends_with (suffix s : string) : bool :=
  if String.eqb suffix s then true
  else match s with
       | EmptyString => false
       | String _ rest => str_ends_with suffix rest
       end.

Definition is_nifti (file_path : string) : bool :=
  let p := lower file_path in
  str_ends_with ".nii" p || str_ends_with ".nii.gz" p || str_ends_with ".gz" p.

(** Step 1.5: never fatal; the slice URLs, empty when skipped or failed. *)
Definition viewer_slices_stage (env : Env) (file_path : string)
  : M (list (string * list string)) :=
  if is_nifti file_path && nibabel_importable env then
    emit EvViewerSlices ;;;
    match viewer_slices env file_path with
    | Ok urls => ret urls
    | Raised _ => ret []
    end
  else ret [].

Definition lift_result {A : Type} (r : result A) : M A :=
  match r with
  | Ok a => ret a
  | Raised e => raise e
  end.

(** One iteration of the visualisation upload loop. *)
Definition chart_upload_stage (env : Env) (img_data : option string)
    (url_key : string) : M unit :=
  if truthy_opt img_data then
    emit (EvChartUpload url_key) ;;;
    match upload_chart env url_key with
    | Raised _ => add_error (url_key ++ " upload failed")
    | Ok url => if truthy_opt url
                then set_url url_key (match url with Some u => u | None => "" end)
                else ret tt
    end
  else ret tt.

(** One iteration of the PDF loop: nothing escapes it. *)
Definition report_stage (env : Env) (pdf_type url_key : string) : M unit :=
  emit (EvReport pdf_type) ;;;
  if build_report env pdf_type then
    let url := upload_report env pdf_type in
    if truthy_opt url
    then set_url url_key (match url with Some u => u | None => "" end)
    else add_error (pdf_type ++ " upload failed")
  else add_error (pdf_type ++ " PDF failed").

Definition pdf_configs : list (string * string) :=
  [("technical", "technical_pdf_url"); ("clinician", "clinician_pdf_url");
   ("patient", "patient_pdf_url")].

Fixpoint urls_get (d : list (string * string)) (k : string) : option string :=
  match d with
  | [] => None
  | (k', v) :: rest => if String.eqb k k' then Some v else urls_get rest k
  end.

Definition has_any_report (urls : list (string * string)) : bool :=
  existsb (fun k => truthy_opt (urls_get urls k))
          ["technical_pdf_url"; "clinician_pdf_url"; "patient_pdf_url"].

Definition nonempty {A : Type} (l : list A) : bool :=
  match l with [] => false | _ => true end.

(** The status decision of step 7. *)
Definition decide_final_status (errors : list string) (any_report : bool) : string :=
  if nonempty errors && negb any_report then "failed"
  else if nonempty errors then "completed"
  else "completed".

(** Steps 1.5 to 5: viewer slices, similarity, charts and their upload, the
    report data.  The similarity analysis and the two chart generators are
    called outside any inner [try]. *)
Definition visualisations (env : Env) (file_path : string)
    (ml_results : MlRunner.MlResults) : M (list (string * list string)) :=
  slice_urls <- viewer_slices_stage env file_path ;;
  emit EvSimilarity ;;;
  similarity_plot <- lift_result (similarity env ml_results) ;;
  emit (EvChart "volume") ;;;
  volume_chart_img <- lift_result (volume_chart env ml_results) ;;
  emit (EvChart "confidence") ;;;
  confidence_chart_img <-
    lift_result (confidence_chart env (MlRunner.probabilities ml_results)
                                  (MlRunner.classes ml_results)) ;;
  chart_upload_stage env similarity_plot "similarity_plot_url" ;;;
  chart_upload_stage env (Some volume_chart_img) "volume_chart_url" ;;;
  chart_upload_stage env (Some confidence_chart_img) "confidence_chart_url" ;;;
  emit EvFetchReportData ;;;
  ret slice_urls.

(** Steps 6 and 7: the three reports, then the status decision and the two
    writes. *)
Definition reports_and_status (env : Env) : M unit :=
  for_each pdf_configs (fun c => report_stage env (fst c) (snd c)) ;;;
  s <- get_state ;;
  let final_status :=
    decide_final_status (report_errors s) (has_any_report (uploaded_urls s)) in
  emit EvUpdateRecord ;;;
  update_session_status env final_status.

Definition analysis_and_reports (env : Env) (file_path : string)
    (ml_results : MlRunner.MlResults) : M unit :=
  slice_urls <- visualisations env file_path ml_results ;;
  reports_and_status env.

(** The text after the first [sep] of [s], up to the next one:
    [s.split(sep)[1]]. *)
Fixpoint take_until (sep s : string) : string :=
  if String.prefix sep s then EmptyString
  else match s with
       | EmptyString => EmptyString
       | String c rest => String c (take_until sep rest)
       end.

Fixpoint second_segment (sep s : string) : option string :=
  if String.prefix sep s
  then Some (take_until sep (String.substring (String.length sep)
                                              (String.length s - String.length sep) s))
  else match s with
       | EmptyString => None
       | String _ rest => second_segment sep rest
       end.

(** The storage clean-up of the [except] clause, for one URL. *)
Definition cleanup_url (url : string) : M unit :=
  if Path.contains Config.REPORT_ASSETS_BUCKET url then
    match second_segment (Config.REPORT_ASSETS_BUCKET ++ "/") url with
    | Some path => if truthy path then emit (EvStorageCleanup path) else ret tt
    | None => ret tt
    end
  else ret tt.

(** The [finally] clause: best effort. *)
Definition remove_temp_file (env : Env) : M unit :=
  s <- get_state ;;
  if temp_file s then
    emit EvRemoveTemp ;;;
    if remove_ok env then set_temp_file false else ret tt
  else ret tt.

(** routes/predict_api.py, [run_analysis_background]: the body of its
    [try]. *)
Definition analysis_body (env : Env) (file_path atype : string) : M unit :=
  update_session_status env "processing" ;;;
  ml_results <- run_model_stage env file_path atype ;;
  emit EvCreateRecord ;;;
  (let '(prediction_id, err) := create_record env ml_results in
   if truthy_opt err
   then raise (Exception ("Failed to create prediction: "
                          ++ match err with Some m => m | None => "" end))
   else ret tt) ;;;
  analysis_and_reports env file_path ml_results.

(** Its [except Exception] clause. *)
Definition failure_handler (env : Env) (e : exn) : M unit :=
  update_session_status env "failed" ;;;
  s <- get_state ;;
  for_each (map snd (uploaded_urls s)) cleanup_url.

(** The whole function: the client is fetched before the [try]. *)
Definition run_analysis_background (env : Env) (file_path atype : string) : M unit :=
  if client_ok env then
    try_finally
      (try_except (analysis_body env file_path atype) (failure_handler env))
      (remove_temp_file env)
  else raise (ValueError "Supabase credentials not configured.").

(** app.py, [_run_pipeline_background]: the body of its [try], which looks
    at the response of [run_model] before going on. *)
Definition pipeline_body (env : Env) (filepath atype : string) : M unit :=
  update_session_status env "processing" ;;;
  ml_results <- run_model_stage env filepath atype ;;
  if String.eqb (MlRunner.prediction ml_results) "Error" then
    update_session_status env "failed"
  else
    emit EvCreateRecord ;;;
    (let '(prediction_id, err) := create_record env ml_results in
     if truthy_opt err then update_session_status env "failed"
     else analysis_and_reports env filepath ml_results).

Definition run_pipeline_background (env : Env) (filepath atype : string) : M unit :=
  try_finally
    (try_except (pipeline_body env filepath atype)
                (fun _ => update_session_status env "failed"))
    (remove_temp_file env).

(** A run starts with an empty trace and accumulators, the upload on disk. *)
Definition initial : State :=
  {| trace := []; uploaded_urls := []; report_errors := []; temp_file := true |}.

(** The last status the run asked the session record to take. *)
Fixpoint last_status (t : list event) : option string :=
  match t with
  | [] => None
  | EvStatus s :: rest =>
      match last_status rest with
      | Some s' => Some s'
      | None => Some s
      end
  | _ :: rest => last_status rest
  end.

Definition is_report (e : event) : bool :=
  match e with EvReport _ => true | _ => false end.

Definition reports_attempted (t : list event) : list event := filter is_report t.

(** *** Vocabulary for the properties of a run *)

Definition chart_keys : list string :=
  ["similarity_plot_url"; "volume_chart_url"; "confidence_chart_url"].

Definition report_keys : list string :=
  ["technical_pdf_url"; "clinician_pdf_url"; "patient_pdf_url"].

Definition quiet (t : list event) : Prop := Forall (fun e => is_report e = false) t.

(** Properties of the state that do not mind events other than reports being
    traced, chart URLs being stored and errors being recorded. *)
Record Frame (P : State -> Prop) : Prop := {
  fr_trace : forall s es,
    quiet es -> P s ->
    P {| trace := (trace s ++ es)%list; uploaded_urls := uploaded_urls s;
         report_errors := report_errors s; temp_file := temp_file s |};
  fr_url : forall s k v,
    In k chart_keys -> P s ->
    P {| trace := trace s; uploaded_urls := dict_set (uploaded_urls s) k v;
         report_errors := report_errors s; temp_file := temp_file s |};
  fr_err : forall s msg,
    P s ->
    P {| trace := trace s; uploaded_urls := uploaded_urls s;
         report_errors := (report_errors s ++ [msg])%list; temp_file := temp_file s |}
}.

(** The temp file is, or is not, on disk. *)
Definition temp_is (b : bool) (s : State) : Prop := temp_file s = b.

(** A report attempt succeeds when the PDF builds and its upload answers a
    URL. *)
Definition report_ok (env : Env) (pdf_type : string) : bool :=
  build_report env pdf_type && truthy_opt (upload_report env pdf_type).

Definition report_events : list event :=
  [EvReport "technical"; EvReport "clinician"; EvReport "patient"].

Definition before_reports (s : State) : Prop :=
  has_any_report (uploaded_urls s) = false /\ reports_attempted (trace s) = [].

Definition is_cleanup (e : event) : Prop :=
  match e with EvStorageCleanup _ => True | _ => False end.

End Orchestrator.

(** ** Concrete runs used as examples *)

Module Examples.
Import Predictor.

(** A loaded model. *)
Definition available : MRIPredictor := {| initialized := true; model_loaded := true |}.


Definition out (cls : nat) (p : Q) : ModelOutput :=
  {| top_class := cls; top_prob := p; softmax := [] |}.

(** Three slices answered AD with confidence 0.9, AD with 0.7 and CN with
    0.95; any other image makes the forward pass raise. *)
Definition three_slices : Oracle :=
  {| forward := fun p =>
       if String.eqb p "s1.png" then Some (out 0 (9 # 1000))
       else if String.eqb p "s2.png" then Some (out 0 (7 # 1000))
       else if String.eqb p "s3.png" then Some (out 1 (95 # 10000))
       else None;
     mock_sample := fun _ => Some (2%nat, [1 # 5; 1 # 5; 3 # 5]) |}.

Definition three_paths : list string := ["s1.png"; "s2.png"; "s3.png"].

(** A grey-matter map with 1.5 mm voxels whose values add up to 400000, and
    a white-matter map next to it. *)
Definition gm_map : Volumetric.NiftiImage :=
  {| Volumetric.fdata := [150000; 250000]; Volumetric.zooms := [3 # 2; 3 # 2; 3 # 2] |}.

Definition wm_map : Volumetric.NiftiImage :=
  {| Volumetric.fdata := [1000; 2000]; Volumetric.zooms := [1; 1; 2] |}.

Definition disk (p : string) : option Volumetric.NiftiImage :=
  if String.eqb p "mwp1scan.nii" then Some gm_map
  else if String.eqb p "mwp2scan.nii" then Some wm_map
  else None.

(** A network that answers AD for every image. *)
Definition all_ad : Oracle :=
  {| forward := fun _ => Some (out 0 (8 # 10));
     mock_sample := fun _ => Some (1%nat, [1 # 5; 3 # 5; 1 # 5]) |}.

(** A 2 x 2 x 6 volume with some tissue in the middle. *)
Definition small_volume : Slicer.Volume :=
  {| Slicer.shape := (2%nat, 2%nat, 6%nat);
     Slicer.voxels := [0; 0; 40; 80; 0; 0;   0; 20; 60; 90; 10; 0;
                       0; 0; 50; 70; 0; 0;   0; 30; 100; 60; 0; 0] |}.

(** The collaborators of [run_model] with the checkpoint in place, no CAT12
    output, and the scan as [scan] reads it. *)
Definition ml_env (scan : string -> option Slicer.Volume) : MlRunner.Env :=
  {| MlRunner.use_mock_model := Config.USE_MOCK_MODEL;
     MlRunner.use_cat12 := Config.USE_CAT12_PREPROCESSING;
     MlRunner.mock_importable := true;
     MlRunner.mock_draw :=
       {| MlRunner.raw_prob := fun i => if Nat.eqb i 0 then 7 # 10 else 1 # 10;
          MlRunner.mock_time := 60%Z |};
     MlRunner.cat12 := fun _ => Ok None;
     MlRunner.path_exists := fun _ => true;
     MlRunner.makedirs_ok := fun _ => true;
     MlRunner.slicer_io := {| Slicer.nib_load := scan; Slicer.save_ok := fun _ => true |};
     MlRunner.predictor := available;
     MlRunner.oracle := all_ad;
     MlRunner.load_nifti := disk;
     MlRunner.elapsed_ms := 1200%Z |}.

(** The scan can be read. *)
Definition readable : string -> option Slicer.Volume := fun _ => Some small_volume.

(** The scan cannot be parsed: the slicer returns no slice. *)
Definition unreadable : string -> option Slicer.Volume := fun _ => None.

(** The collaborators of a background run in which the data base, the charts
    and the object store all work; [reports] says which reports build, and
    [removable] whether the temp file can be deleted. *)
Definition orchestrator_env (ml : MlRunner.Env) (reports : string -> bool)
    (removable : bool) : Orchestrator.Env :=
  {| Orchestrator.client_ok := true;
     Orchestrator.ml := ml;
     Orchestrator.create_record := fun _ => (Some "prediction-1", None);
     Orchestrator.nibabel_importable := true;
     Orchestrator.viewer_slices := fun _ => Ok [];
     Orchestrator.similarity := fun _ => Ok (Some "data:image/png;base64,AAAA");
     Orchestrator.volume_chart := fun _ => Ok "data:image/png;base64,BBBB";
     Orchestrator.confidence_chart := fun _ _ => Ok "data:image/png;base64,CCCC";
     Orchestrator.upload_chart := fun k => Ok (Some ("https://store/report-assets/" ++ k));
     Orchestrator.build_report := reports;
     Orchestrator.upload_report :=
       fun t => Some ("https://store/report-assets/" ++ t ++ "_report.pdf");
     Orchestrator.remove_ok := removable |}.

Definition every_report : string -> bool := fun _ => true.
Definition no_report : string -> bool := fun _ => false.
Definition only_patient_report : string -> bool := fun t => String.eqb t "patient".

End Examples.

(** ** utils.py *)

Module Utils.


(** [get_confidence_level]. *)
Definition get_confidence_level (confidence : Q) : string :=
  if Qle_bool (90 # 100) confidence then "Very High"
  else if Qle_bool (80 # 100) confidence then "High"
  else if Qle_bool (70 # 100) confidence then "Moderate"
  else if Qle_bool (60 # 100) confidence then "Low"
  else "Very Low".

(** A calendar date, as [datetime.date] holds it. *)
Record date : Type := { year : Z; month : Z; day : Z }.

(** [(a1, a2) < (b1, b2)] on tuples of integers. *)
Definition pair_ltb (a1 a2 b1 b2 : Z) : bool :=
  (a1 <? b1)%Z || ((a1 =? b1)%Z && (a2 <? b2)%Z).

(** [calculate_age] on a [date] object, [today] being [date.today()]: the
    difference of the years, less one when the birthday is still to come
    this year. *)
Definition calculate_age (today dob : date) : Z :=
  (year today - year dob
   - (if pair_ltb (month today) (day today) (month dob) (day dob) then 1 else 0))%Z.

(** The order of dates. *)
Definition date_leb (a b : date) : bool :=
  (year a <? year b)%Z
  || ((year a =? year b)%Z && negb (pair_ltb (month b) (day b) (month a) (day a))).

(** The same day and month [n] years later. *)
Definition add_years (d : date) (n : Z) : date :=
  {| year := (year d + n)%Z; month := month d; day := day d |}.

End Utils.

(** ** volumetric_analyzer.py: the labels of the comparison figure *)

Module Figure.


(** A region is drawn when its value is truthy and positive. *)
Definition drawn (value : option Q) : bool :=
  match value with
  | Some v => negb (Qeq_bool v 0) && MlRunner.Qlt_bool 0 v
  | None => false
  end.

End Figure.

(** ** More concrete collaborators *)

Module MoreExamples.
Import Predictor.

(** Neither the network nor the stand-in generator answers. *)
Definition silent : Oracle :=
  {| forward := fun _ => None; mock_sample := fun _ => None |}.

(** The network answers the first and the third of three slices only, and
    the stand-in generator is out of order. *)
Definition gaps : Oracle :=
  {| forward := fun p =>
       if String.eqb p "in/a.png" then Some (Examples.out 1 (6 # 10))
       else if String.eqb p "in/c.png" then Some (Examples.out 1 (9 # 10))
       else None;
     mock_sample := fun _ => None |}.

(** The CAT12 executable cannot be started: the driver raises something
    other than [CalledProcessError]. *)
Definition cat12_crashes : MlRunner.Env :=
  {| MlRunner.use_mock_model := Config.USE_MOCK_MODEL;
     MlRunner.use_cat12 := Config.USE_CAT12_PREPROCESSING;
     MlRunner.mock_importable := true;
     MlRunner.mock_draw :=
       {| MlRunner.raw_prob := fun i => if Nat.eqb i 0 then 7 # 10 else 1 # 10;
          MlRunner.mock_time := 60%Z |};
     MlRunner.cat12 := fun _ => Raised (Exception "spm25.exe not found");
     MlRunner.path_exists := fun _ => true;
     MlRunner.makedirs_ok := fun _ => true;
     MlRunner.slicer_io :=
       {| Slicer.nib_load := Examples.readable; Slicer.save_ok := fun _ => true |};
     MlRunner.predictor := Examples.available;
     MlRunner.oracle := Examples.all_ad;
     MlRunner.load_nifti := Examples.disk;
     MlRunner.elapsed_ms := 1200%Z |}.

(** A result of [predict_patient] with diagnosis AD. *)
Definition ad_result : PatientResult :=
  {| patient_diagnosis := "AD"; diagnosis_label := "Alzheimer's Disease";
     r_confidence := 80; r_vote_distribution := []; individual_predictions := [];
     r_consensus_strength := 100; total_images_processed := 1 |}.

End MoreExamples.

(** ** Vocabulary for the properties of the runner *)

Module RunnerVocabulary.
Import Config MlRunner.

(** A volume of the response that is not [None]. *)
Definition has_value (m : string * (option Q * Norm)) : bool :=
  match fst (snd m) with Some _ => true | None => false end.

Definition plausible (c : Comparison) : Prop :=
  0 <= deviation_percent c /\
  In (c_status c) ["Below Normal"; "Normal"; "Above Normal"].

Definition all_normal (cs : list (string * Comparison)) : Prop :=
  map (fun nc => (fst nc, c_status (snd nc))) cs
  = [("total_brain", "Normal"); ("gray_matter", "Normal"); ("white_matter", "Normal");
     ("csf", "Normal"); ("hippocampus", "Normal")].

End RunnerVocabulary.

(** ** Vocabulary for the properties of the slicer *)

Module SlicerVocabulary.
Import Slicer.

(** The voxel list fills the array's shape, and no axis is empty. *)
Definition well_shaped (v : Volume) : Prop :=
  List.length (voxels v)
  = (fst (fst (shape v)) * snd (fst (shape v)) * snd (shape v))%nat /\
  (0 < fst (fst (shape v)))%nat /\ (0 < snd (fst (shape v)))%nat /\
  (0 < snd (shape v))%nat.

(** The file of the [k]-th saved slice, [k] counted from 0. *)
Definition slice_file (output_dir : string) (k : nat) : string :=
  Path.join output_dir ("slice_" ++ Path.str_of_nat (k + 1) ++ ".png").

(** The indices [extract_middle_slices] computes for a loaded volume. *)
Definition indices_of (v : Volume) (num_slices : nat) (view_plane : string) : list nat :=
  let data := {| shape := shape v; voxels := normalize_intensity (voxels v) |} in
  slice_indices (shape data)
                (center_of (find_brain_center data) (shape data) view_plane)
                num_slices (axis_of view_plane).

End SlicerVocabulary.

(** ** Vocabulary for the properties of whole runs *)

Module RunVocabulary.
Import Run Orchestrator.

(** The status writes of a trace, in order. *)
Fixpoint statuses (t : list event) : list string :=
  match t with
  | [] => []
  | EvStatus s :: rest => s :: statuses rest
  | _ :: rest => statuses rest
  end.

(** An event that is neither a status write, a report attempt nor a storage
    clean-up. *)
Definition plain (e : event) : bool :=
  match e with
  | EvStatus _ | EvReport _ | EvStorageCleanup _ => false
  | _ => true
  end.

(** [s] with [es] added to its trace and nothing else changed. *)
Definition traced (s : State) (es : list event) : State :=
  {| trace := (trace s ++ es)%list; uploaded_urls := uploaded_urls s;
     report_errors := report_errors s; temp_file := temp_file s |}.

(** One of the three chart generators raises on this response. *)
Definition generator_fails (env : Env) (ml_results : MlRunner.MlResults) : Prop :=
  match similarity env ml_results with
  | Raised _ => True
  | Ok _ =>
      match volume_chart env ml_results with
      | Raised _ => True
      | Ok _ =>
          match confidence_chart env (MlRunner.probabilities ml_results)
                                 (MlRunner.classes ml_results) with
          | Raised _ => True
          | Ok _ => False
          end
      end
  end.

(** [run_model] failed: it raised, or it answered an error response. *)
Definition model_failed (r : result MlRunner.MlResults) : Prop :=
  match r with
  | Raised _ => True
  | Ok x => MlRunner.prediction x = "Error"
  end.

(** The shape of a finished run, common to the two orchestrators: a
    failure before the reports, or the three reports and the decision. *)
Definition finished (env : Env) (s : State) : Prop :=
  exists es,
    forallb plain es = true /\
    temp_file s = negb (remove_ok env) /\
    ((trace s = (EvStatus "processing" :: es
                 ++ [EvStatus "failed"; EvRemoveTemp])%list /\
      uploaded_urls s = [] /\ report_errors s = []) \/
     (trace s = (EvStatus "processing" :: es ++ report_events
                 ++ [EvUpdateRecord;
                     EvStatus (if has_any_report (uploaded_urls s)
                               then "completed" else "failed");
                     EvRemoveTemp])%list)).

(** How the [try] body of an orchestrator can end, started from [initial]:
    it raises with nothing but the trace changed, it gives up with a
    [failed] status, or it reaches the reports. *)
Definition body_outcome (env : Env) (r : result unit) (s1 : State) : Prop :=
  exists es,
    forallb plain es = true /\
    ((exists e, r = Raised e /\ s1 = traced initial (EvStatus "processing" :: es)) \/
     (r = Ok tt /\
      s1 = traced initial (EvStatus "processing" :: es ++ [EvStatus "failed"])) \/
     (exists sm, trace sm = EvStatus "processing" :: es /\ temp_file sm = true /\
                 reports_and_status env sm = (r, s1))).

End RunVocabulary.

(** ** More collaborators of a background run *)

Module MoreRuns.

(** The charts cannot be stored, and the similarity analysis works. *)
Definition store_down : Orchestrator.Env :=
  {| Orchestrator.client_ok := true;
     Orchestrator.ml := Examples.ml_env Examples.readable;
     Orchestrator.create_record := fun _ => (Some "prediction-1", None);
     Orchestrator.nibabel_importable := true;
     Orchestrator.viewer_slices := fun _ => Ok [];
     Orchestrator.similarity := fun _ => Ok (Some "data:image/png;base64,AAAA");
     Orchestrator.volume_chart := fun _ => Ok "data:image/png;base64,BBBB";
     Orchestrator.confidence_chart := fun _ _ => Ok "data:image/png;base64,CCCC";
     Orchestrator.upload_chart := fun _ => Raised (Exception "Incorrect padding");
     Orchestrator.build_report := Examples.every_report;
     Orchestrator.upload_report :=
       fun t => Some ("https://store/report-assets/" ++ t ++ "_report.pdf");
     Orchestrator.remove_ok := true |}.

(** The volume chart cannot be drawn. *)
Definition chart_fails : Orchestrator.Env :=
  {| Orchestrator.client_ok := true;
     Orchestrator.ml := Examples.ml_env Examples.readable;
     Orchestrator.create_record := fun _ => (Some "prediction-1", None);
     Orchestrator.nibabel_importable := true;
     Orchestrator.viewer_slices := fun _ => Ok [];
     Orchestrator.similarity := fun _ => Ok (Some "data:image/png;base64,AAAA");
     Orchestrator.volume_chart := fun _ => Raised (Exception "no display");
     Orchestrator.confidence_chart := fun _ _ => Ok "data:image/png;base64,CCCC";
     Orchestrator.upload_chart :=
       fun k => Ok (Some ("https://store/report-assets/" ++ k));
     Orchestrator.build_report := Examples.every_report;
     Orchestrator.upload_report :=
       fun t => Some ("https://store/report-assets/" ++ t ++ "_report.pdf");
     Orchestrator.remove_ok := true |}.

(** The prediction record cannot be written. *)
Definition record_fails : Orchestrator.Env :=
  {| Orchestrator.client_ok := true;
     Orchestrator.ml := Examples.ml_env Examples.readable;
     Orchestrator.create_record := fun _ => (None, Some "duplicate key");
     Orchestrator.nibabel_importable := true;
     Orchestrator.viewer_slices := fun _ => Ok [];
     Orchestrator.similarity := fun _ => Ok (Some "data:image/png;base64,AAAA");
     Orchestrator.volume_chart := fun _ => Ok "data:image/png;base64,BBBB";
     Orchestrator.confidence_chart := fun _ _ => Ok "data:image/png;base64,CCCC";
     Orchestrator.upload_chart :=
       fun k => Ok (Some ("https://store/report-assets/" ++ k));
     Orchestrator.build_report := Examples.every_report;
     Orchestrator.upload_report :=
       fun t => Some ("https://store/report-assets/" ++ t ++ "_report.pdf");
     Orchestrator.remove_ok := true |}.

End MoreRuns.

(** * Properties *)

(** ** Rounding and sums *)

Module PyNumFacts.

Lemma round_half_even_close (q : Q) :
  -(1 # 2) <= inject_Z (round_half_even q) - q <= 1 # 2.
Proof.
  unfold round_half_even.
  pose proof (Qfloor_le q) as Hlo.
  pose proof (Qlt_floor q) as Hhi.
  rewrite inject_Z_plus in Hhi.
  change (inject_Z 1) with 1 in Hhi.
  destruct (Qcompare_spec (q - inject_Z (Qfloor q)) (1 # 2)) as [He | Hl | Hg].
  - destruct (Z.even (Qfloor q)).
    + lra.
    + rewrite inject_Z_plus. change (inject_Z 1) with 1. lra.
  - lra.
  - rewrite inject_Z_plus. change (inject_Z 1) with 1. lra.
Qed.

Lemma round_half_even_compat (x y : Q) :
  x == y -> round_half_even x = round_half_even y.
Proof.
  intros H. unfold round_half_even.
  rewrite (Qfloor_comp x y H).
  assert (Hc : Qcompare (x - inject_Z (Qfloor y)) (1 # 2)
               = Qcompare (y - inject_Z (Qfloor y)) (1 # 2)).
  { apply Qcompare_comp; [rewrite H; reflexivity | reflexivity]. }
  rewrite Hc. reflexivity.
Qed.

Lemma round_half_even_Z (z : Z) : round_half_even (inject_Z z) = z.
Proof.
  unfold round_half_even. rewrite Qfloor_Z.
  assert (H : Qcompare (inject_Z z - inject_Z z) (1 # 2) = Lt).
  { apply Qlt_alt. setoid_replace (inject_Z z - inject_Z z) with 0 by ring.
    reflexivity. }
  rewrite H. reflexivity.
Qed.

Lemma pow10_pos (n : nat) : 0 < pow10 n.
Proof.
  unfold pow10. change 0 with (inject_Z 0). rewrite <- Zlt_Qlt.
  apply Z.pow_pos_nonneg; lia.
Qed.

Lemma py_round_compat (x y : Q) (n : nat) : x == y -> py_round x n == py_round y n.
Proof.
  intros H. unfold py_round.
  rewrite (round_half_even_compat (x * pow10 n) (y * pow10 n)).
  - reflexivity.
  - rewrite H. reflexivity.
Qed.

Lemma py_round_close (x : Q) (n : nat) :
  Qabs (py_round x n - x) <= (1 # 2) / pow10 n.
Proof.
  pose proof (pow10_pos n) as Hp.
  pose proof (round_half_even_close (x * pow10 n)) as [Hlo Hhi].
  unfold py_round.
  set (r := inject_Z (round_half_even (x * pow10 n))) in *.
  assert (E : r / pow10 n - x == (r - x * pow10 n) / pow10 n).
  { field. lra. }
  rewrite E.
  apply Qabs_Qle_condition. split.
  - apply Qle_shift_div_l; [exact Hp|].
    assert (E2 : - ((1 # 2) / pow10 n) * pow10 n == -(1 # 2)) by (field; lra).
    rewrite E2. exact Hlo.
  - apply Qle_shift_div_r; [exact Hp|].
    assert (E2 : (1 # 2) / pow10 n * pow10 n == (1 # 2)) by (field; lra).
    rewrite E2. exact Hhi.
Qed.

Lemma py_round_zero (x : Q) (n : nat) : x == 0 -> py_round x n == 0.
Proof.
  intros H. rewrite (py_round_compat x 0 n H).
  unfold py_round.
  rewrite (round_half_even_compat (0 * pow10 n) (inject_Z 0)).
  - rewrite round_half_even_Z. pose proof (pow10_pos n). change (inject_Z 0) with 0. field. lra.
  - change (inject_Z 0) with 0. ring.
Qed.

Lemma of_nat_plus (a b : nat) : of_nat (a + b) == of_nat a + of_nat b.
Proof. unfold of_nat. rewrite Nat2Z.inj_add, inject_Z_plus. reflexivity. Qed.

Lemma of_nat_pos (n : nat) : (0 < n)%nat -> 0 < of_nat n.
Proof.
  intros H. unfold of_nat. change 0 with (inject_Z 0). rewrite <- Zlt_Qlt. lia.
Qed.

Lemma qsum_app (l1 l2 : list Q) : qsum (l1 ++ l2) == qsum l1 + qsum l2.
Proof.
  induction l1 as [| x l1 IH]; simpl.
  - ring.
  - rewrite IH. ring.
Qed.

End PyNumFacts.

(** ** The vote counter *)

Module CounterFacts.
Import Counter.

Lemma get_incr (x k : string) (c : t) :
  get (incr x c) k = if String.eqb k x then S (get c k) else get c k.
Proof.
  induction c as [| [k' n] rest IH]; simpl.
  - destruct (String.eqb k x); reflexivity.
  - destruct (String.eqb_spec x k') as [-> | Hx]; simpl.
    + destruct (String.eqb k k'); reflexivity.
    + destruct (String.eqb_spec k k') as [-> | Hk].
      * destruct (String.eqb_spec k' x) as [-> | _]; [congruence | reflexivity].
      * exact IH.
Qed.

Lemma of_list_app (l1 l2 : list string) :
  of_list (l1 ++ l2) = fold_left (fun c k => incr k c) l2 (of_list l1).
Proof. unfold of_list. apply fold_left_app. Qed.

Lemma of_list_snoc (l : list string) (x : string) :
  of_list (l ++ [x]) = incr x (of_list l).
Proof. rewrite of_list_app. reflexivity. Qed.

(** The counter counts occurrences. *)
Lemma get_of_list (l : list string) (k : string) :
  get (of_list l) k = count_occ string_dec l k.
Proof.
  induction l as [| x l IH] using rev_ind.
  - reflexivity.
  - rewrite of_list_snoc, get_incr, count_occ_app, IH. simpl.
    destruct (String.eqb_spec k x) as [-> | Hk].
    + destruct (string_dec x x); [lia | congruence].
    + destruct (string_dec x k); [congruence | lia].
Qed.

Lemma keys_incr (x : string) (c : t) :
  exists extra, map fst (incr x c) = (map fst c ++ extra)%list /\
                (In x (map fst c) -> extra = []) /\
                (~ In x (map fst c) -> extra = [x]).
Proof.
  induction c as [| [k' n] rest IH]; simpl.
  - exists [x]. intuition.
  - destruct (String.eqb_spec x k') as [-> | Hx]; simpl.
    + exists []. rewrite app_nil_r. intuition.
    + destruct IH as (extra & E & H1 & H2).
      exists extra. rewrite E. split; [reflexivity|]. split.
      * intros [H | H]; [congruence | auto].
      * intros H. apply H2. intros H'. apply H. right. exact H'.
Qed.

Lemma keys_fold (l : list string) (c : t) :
  exists extra, map fst (fold_left (fun c k => incr k c) l c) = (map fst c ++ extra)%list.
Proof.
  revert c. induction l as [| x l IH]; intros c; simpl.
  - exists []. rewrite app_nil_r. reflexivity.
  - destruct (IH (incr x c)) as (e1 & E1).
    destruct (keys_incr x c) as (e2 & E2 & _).
    exists (e2 ++ e1)%list. rewrite E1, E2, app_assoc. reflexivity.
Qed.

Lemma keys_nodup (l : list string) : NoDup (map fst (of_list l)).
Proof.
  induction l as [| x l IH] using rev_ind.
  - constructor.
  - rewrite of_list_snoc.
    destruct (keys_incr x (of_list l)) as (extra & E & H1 & H2).
    rewrite E.
    destruct (in_dec string_dec x (map fst (of_list l))) as [Hin | Hnin].
    + rewrite (H1 Hin), app_nil_r. exact IH.
    + rewrite (H2 Hnin). apply NoDup_app; [exact IH | repeat constructor; simpl; tauto |].
      intros a Ha [<- | []]. exact (Hnin Ha).
Qed.

Lemma keys_in (l : list string) (k : string) :
  In k (map fst (of_list l)) <-> In k l.
Proof.
  induction l as [| x l IH] using rev_ind.
  - simpl. tauto.
  - rewrite of_list_snoc.
    destruct (keys_incr x (of_list l)) as (extra & E & H1 & H2).
    rewrite E, !in_app_iff, IH. simpl.
    destruct (in_dec string_dec x (map fst (of_list l))) as [Hin | Hnin].
    + rewrite (H1 Hin). simpl. split; [tauto|].
      intros [H | [<- | []]]; [tauto|]. left. apply IH. exact Hin.
    + rewrite (H2 Hnin). simpl. tauto.
Qed.

Lemma get_in_nodup (c : t) (k : string) (n : nat) :
  NoDup (map fst c) -> In (k, n) c -> get c k = n.
Proof.
  induction c as [| [k' n'] rest IH]; simpl; intros Hnd Hin; [contradiction|].
  inversion Hnd as [| ? ? Hnotin Hnd']; subst.
  destruct Hin as [H | H].
  - inversion H; subst. rewrite String.eqb_refl. reflexivity.
  - destruct (String.eqb_spec k k') as [-> | Hk].
    + exfalso. apply Hnotin. apply (in_map fst) in H. exact H.
    + apply IH; assumption.
Qed.

Lemma entry_count (l : list string) (k : string) (n : nat) :
  In (k, n) (of_list l) -> n = count_occ string_dec l k.
Proof.
  intros H. rewrite <- get_of_list. symmetry.
  apply get_in_nodup; [apply keys_nodup | exact H].
Qed.

Lemma in_keys_entry (c : t) (k : string) :
  In k (map fst c) -> exists n, In (k, n) c.
Proof.
  intros H. apply in_map_iff in H. destruct H as ([k' n] & E & H).
  simpl in E. subst. exists n. exact H.
Qed.

(** [max] keeps the first item of maximal count. *)
Lemma max_from_first (best : string * nat) (rest : t) :
  exists A B,
    best :: rest = (A ++ max_from best rest :: B)%list /\
    (forall x, In x A -> (snd x < snd (max_from best rest))%nat) /\
    (forall x, In x B -> (snd x <= snd (max_from best rest))%nat).
Proof.
  revert best. induction rest as [| x r IH]; intros best; simpl.
  - exists [], []. simpl. intuition.
  - destruct (Nat.ltb_spec (snd best) (snd x)) as [Hlt | Hge].
    + destruct (IH x) as (A & B & E & HA & HB).
      exists (best :: A), B. split; [simpl; rewrite E; reflexivity|].
      split; [| exact HB].
      intros y [<- | Hy]; [| apply HA; exact Hy].
      assert (Hx : In x (A ++ max_from x r :: B)%list) by (rewrite <- E; left; reflexivity).
      apply in_app_iff in Hx. destruct Hx as [Hx | [Hx | Hx]].
      * specialize (HA _ Hx). lia.
      * rewrite Hx. exact Hlt.
      * specialize (HB _ Hx). lia.
    + destruct (IH best) as (A & B & E & HA & HB).
      destruct A as [| a A'].
      * simpl in E. injection E as E1 E2.
        exists [], (x :: r). simpl. rewrite <- E1. split; [reflexivity|].
        split; [intros ? []|].
        intros y [<- | Hy]; [exact Hge|].
        rewrite E1. apply HB. rewrite <- E2. exact Hy.
      * simpl in E. injection E as E1 E2. subst a.
        exists (best :: x :: A'), B. split; [simpl; rewrite <- E2; reflexivity|].
        split; [| exact HB].
        assert (Hb : (snd best < snd (max_from best r))%nat) by (apply HA; left; reflexivity).
        intros y [<- | [<- | Hy]]; [exact Hb | lia | apply HA; right; exact Hy].
Qed.

Lemma app_split_prefix {A : Type} (P E X Y : list A) (d : A) :
  (P ++ E = X ++ d :: Y)%list -> ~ In d P -> incl P X.
Proof.
  revert X. induction P as [| p P IH]; intros X H Hd.
  - intros ? [].
  - destruct X as [| x X]; simpl in H.
    + inversion H; subst. exfalso. apply Hd. left. reflexivity.
    + inversion H; subst. intros a [<- | Ha]; [left; reflexivity|].
      right. apply (IH X); [assumption | | exact Ha].
      intros H'. apply Hd. right. exact H'.
Qed.

(** What [most_common(1)] answers on the counter of a list: an element of
    maximal count, and the first such in order of first occurrence. *)
Lemma most_common_1_spec (l : list string) :
  l <> [] ->
  exists d,
    most_common_1 (of_list l) = [(d, count_occ string_dec l d)] /\
    In d l /\
    (forall k, (count_occ string_dec l k <= count_occ string_dec l d)%nat) /\
    (forall pre post, l = (pre ++ d :: post)%list -> ~ In d pre ->
       forall k, In k pre -> (count_occ string_dec l k < count_occ string_dec l d)%nat).
Proof.
  intros Hne.
  destruct (of_list l) as [| x r] eqn:Ec.
  - exfalso. destruct l as [| a l']; [congruence|].
    assert (Hin : In a (map fst (of_list (a :: l')))) by (apply keys_in; left; reflexivity).
    rewrite Ec in Hin. exact Hin.
  - simpl. destruct (max_from_first x r) as (A & B & E & HA & HB).
    destruct (max_from x r) as [d n] eqn:Em. simpl in HA, HB.
    assert (Hd : In (d, n) (of_list l)).
    { rewrite Ec, E. apply in_app_iff. right. left. reflexivity. }
    pose proof (entry_count _ _ _ Hd) as Hn. subst n.
    exists d. split; [reflexivity|]. split.
    { apply keys_in. apply (in_map fst) in Hd. exact Hd. }
    split.
    + intros k. destruct (in_dec string_dec k l) as [Hk | Hk].
      * apply keys_in in Hk. apply in_keys_entry in Hk. destruct Hk as (m & Hm).
        pose proof (entry_count _ _ _ Hm) as ->.
        rewrite Ec, E in Hm. apply in_app_iff in Hm.
        destruct Hm as [Hm | [Hm | Hm]].
        -- specialize (HA _ Hm). simpl in HA. lia.
        -- inversion Hm; subst. lia.
        -- specialize (HB _ Hm). simpl in HB. exact HB.
      * apply (count_occ_not_In string_dec) in Hk. rewrite Hk. lia.
    + intros pre post El Hnd k Hk.
      assert (Hkeys : exists extra, map fst (of_list l) = (map fst (of_list pre) ++ extra)%list).
      { rewrite El, of_list_app. apply keys_fold. }
      destruct Hkeys as (extra & Hkeys).
      rewrite Ec, E, map_app in Hkeys. simpl in Hkeys.
      assert (Hincl : incl (map fst (of_list pre)) (map fst A)).
      { apply (app_split_prefix _ extra _ (map fst B) d).
        - symmetry. exact Hkeys.
        - intros H. exact (Hnd (proj1 (keys_in _ _) H)). }
      assert (HkA : In k (map fst A)) by (apply Hincl; apply (proj2 (keys_in _ _)); exact Hk).
      apply in_keys_entry in HkA. destruct HkA as (m & Hm).
      assert (Hm' : In (k, m) (of_list l)).
      { rewrite Ec, E. apply in_app_iff. left. exact Hm. }
      pose proof (entry_count _ _ _ Hm') as <-.
      specialize (HA _ Hm). simpl in HA. exact HA.
Qed.

End CounterFacts.

(** ** The predictor *)

Module PredictorFacts.
Import Predictor PyNumFacts CounterFacts.

Lemma nth_mod_in (l : list string) (r : nat) :
  l <> [] -> In (nth (r mod List.length l) l EmptyString) l.
Proof.
  intros H. apply nth_In. apply Nat.mod_upper_bound.
  destruct l; [congruence | discriminate].
Qed.

Lemma mock_prediction_class (o : Oracle) (i : nat) (p : Prediction) :
  mock_prediction o i = Some p -> In (predicted_class p) class_names.
Proof.
  unfold mock_prediction. destruct (mock_sample o i) as [[r probs] |]; [| discriminate].
  intros H. injection H as <-.
  assert (Hne : class_names <> []) by discriminate.
  exact (nth_mod_in class_names r Hne).
Qed.

Lemma real_prediction_class (o : Oracle) (path : string) (p : Prediction) :
  real_prediction o path = Some p -> In (predicted_class p) class_names.
Proof.
  unfold real_prediction. destruct (forward o path) as [out |]; [| discriminate].
  destruct (nth_error class_names (top_class out)) as [cls |] eqn:E; [| discriminate].
  intros H. injection H as <-. cbn [predicted_class]. apply nth_error_In in E. exact E.
Qed.

Lemma predict_single_image_class self o i path s p :
  predict_single_image self o i path = Some (s, p) -> In (predicted_class p) class_names.
Proof.
  unfold predict_single_image, tagged.
  destruct (negb (is_available self)).
  - destruct (mock_prediction o i) as [q |] eqn:E; simpl; [| discriminate].
    intros H. injection H as _ <-. exact (mock_prediction_class _ _ _ E).
  - destruct (real_prediction o path) as [q |] eqn:E.
    + intros H. injection H as _ <-. exact (real_prediction_class _ _ _ E).
    + destruct (mock_prediction o i) as [q |] eqn:E'; simpl; [| discriminate].
      intros H. injection H as _ <-. exact (mock_prediction_class _ _ _ E').
Qed.

(** Every collected prediction carries a label of the vocabulary. *)
Lemma collect_classes self o i paths :
  Forall (fun c => In c class_names) (predicted_classes (collect self o i paths)).
Proof.
  revert i. induction paths as [| p paths IH]; intros i; simpl.
  - constructor.
  - destruct (predict_single_image self o i p) as [[s q] |] eqn:E.
    + simpl. constructor; [exact (predict_single_image_class _ _ _ _ _ _ E) | apply IH].
    + apply IH.
Qed.

Lemma predicted_classes_nil preds : predicted_classes preds = [] -> preds = [].
Proof. destruct preds; [reflexivity | discriminate]. Qed.

Lemma votes_count preds k :
  Counter.get (vote_counts preds) k = count_occ string_dec (predicted_classes preds) k.
Proof. apply get_of_list. Qed.

(** The vote: a label of maximal count, the first such in order of first
    appearance. *)
Lemma final_diagnosis_spec preds :
  preds <> [] ->
  exists d,
    final_diagnosis preds = Some d /\
    In d (predicted_classes preds) /\
    (forall k, (count_occ string_dec (predicted_classes preds) k
                <= count_occ string_dec (predicted_classes preds) d)%nat) /\
    (forall pre post, predicted_classes preds = (pre ++ d :: post)%list -> ~ In d pre ->
       forall k, In k pre ->
         (count_occ string_dec (predicted_classes preds) k
          < count_occ string_dec (predicted_classes preds) d)%nat).
Proof.
  intros Hne.
  assert (Hc : predicted_classes preds <> []).
  { intros H. apply Hne. apply predicted_classes_nil. exact H. }
  destruct (most_common_1_spec _ Hc) as (d & Hm & Hin & Hmax & Hfirst).
  exists d. unfold final_diagnosis, vote_counts. rewrite Hm. auto.
Qed.

(** What [predict_patient] returns once a slice has been classified. *)
Lemma predict_patient_ok self o paths d :
  let preds := collect self o 1 paths in
  preds <> [] ->
  final_diagnosis preds = Some d ->
  predict_patient self o paths =
    Ok {| patient_diagnosis := d;
          diagnosis_label := dict_get CLASS_LABELS d d;
          r_confidence := py_round (avg_confidence preds d) 2;
          r_vote_distribution := vote_distribution preds;
          individual_predictions := preds;
          r_consensus_strength := py_round (consensus_strength preds d) 1;
          total_images_processed := List.length (predicted_classes preds) |}.
Proof.
  intros preds Hne Hd. unfold predict_patient.
  destruct paths as [| p paths]; [exfalso; apply Hne; reflexivity|].
  fold preds.
  destruct (predicted_classes preds) eqn:E.
  - exfalso. apply Hne. apply predicted_classes_nil. exact E.
  - rewrite Hd. reflexivity.
Qed.


(** Over a list drawn from the vocabulary the three counts add up to the
    length. *)
Lemma counts_cover (l : list string) :
  Forall (fun c => In c class_names) l ->
  (count_occ string_dec l "AD" + count_occ string_dec l "CN"
   + count_occ string_dec l "MCI" = List.length l)%nat.
Proof.
  induction 1 as [| c l Hc _ IH]; [reflexivity|].
  simpl in Hc. cbn [count_occ List.length].
  destruct Hc as [<- | [<- | [<- | []]]];
    repeat match goal with
           | |- context [string_dec ?a ?b] => destruct (string_dec a b); try congruence
           end; lia.
Qed.

End PredictorFacts.

(** ** Claims about the aggregator *)

Section Aggregator.
Import Predictor PyNumFacts CounterFacts PredictorFacts.










End Aggregator.

(** ** Claims about the intensity normalisation *)

Section Normalisation.
Import Slicer PyNumFacts.













End Normalisation.

(** ** Claims about the normative comparison *)

Section Comparison.
Import Config MlRunner PyNumFacts.



Lemma py_div_ok (x y : Q) : ~ y == 0 -> py_div x y = Ok (x / y).
Proof.
  intros H. unfold py_div. destruct (Qeq_bool y 0) eqn:E; [| reflexivity].
  apply Qeq_bool_iff in E. contradiction.
Qed.





End Comparison.

(** ** Claims about the volumes *)

Section Volumes.
Import Volumetric PyNumFacts.





End Volumes.

(** ** Reasoning about runs *)

Module RunFacts.
Import Run.

Lemma bind_inv {A B : Type} (m : M A) (k : A -> M B) (s : State)
    (r : result B) (s' : State) :
  bind m k s = (r, s') ->
  (exists e, m s = (Raised e, s') /\ r = Raised e) \/
  (exists a s1, m s = (Ok a, s1) /\ k a s1 = (r, s')).
Proof.
  unfold bind. destruct (m s) as [[a | e] s1]; intros H.
  - right. exists a, s1. split; [reflexivity | exact H].
  - left. injection H as <- <-. exists e. split; reflexivity.
Qed.

Lemma preserves_ret {A : Type} (P : State -> Prop) (a : A) : preserves P (ret a).
Proof. intros s r s' HP H. injection H as _ <-. exact HP. Qed.

Lemma preserves_raise {A : Type} (P : State -> Prop) (e : exn) :
  preserves P (@raise A e).
Proof. intros s r s' HP H. injection H as _ <-. exact HP. Qed.

Lemma preserves_get_state (P : State -> Prop) : preserves P get_state.
Proof. intros s r s' HP H. injection H as _ <-. exact HP. Qed.

Lemma preserves_bind {A B : Type} (P : State -> Prop) (m : M A) (k : A -> M B) :
  preserves P m -> (forall a, preserves P (k a)) -> preserves P (bind m k).
Proof.
  intros Hm Hk s r s' HP H. apply bind_inv in H.
  destruct H as [(e & H & _) | (a & s1 & H1 & H2)].
  - exact (Hm _ _ _ HP H).
  - exact (Hk a _ _ _ (Hm _ _ _ HP H1) H2).
Qed.

Lemma preserves_for_each {A : Type} (P : State -> Prop) (l : list A) (f : A -> M unit) :
  (forall x, In x l -> preserves P (f x)) -> preserves P (for_each l f).
Proof.
  induction l as [| x l IH]; intros H; simpl.
  - apply preserves_ret.
  - apply preserves_bind.
    + apply H. left. reflexivity.
    + intros _. apply IH. intros y Hy. apply H. right. exact Hy.
Qed.

Lemma preserves_try_except {A : Type} (P : State -> Prop) (m : M A) (h : exn -> M A) :
  preserves P m -> (forall e, preserves P (h e)) -> preserves P (try_except m h).
Proof.
  intros Hm Hh s r s' HP H. unfold try_except in H.
  destruct (m s) as [[a | e] s1] eqn:E.
  - injection H as _ <-. exact (Hm _ _ _ HP E).
  - exact (Hh e _ _ _ (Hm _ _ _ HP E) H).
Qed.

End RunFacts.

(** ** The orchestrator, stage by stage *)

Module OrchestratorFacts.
Import Run RunFacts Orchestrator.

(** [run_model] traces no report. *)

Lemma quiet_app (t1 t2 : list event) : quiet t1 -> quiet t2 -> quiet (t1 ++ t2).
Proof. intros H1 H2. apply Forall_app. split; assumption. Qed.

Lemma preprocess_quiet (env : MlRunner.Env) (scan_path : string) :
  quiet (fst (MlRunner.preprocess env scan_path)).
Proof.
  unfold MlRunner.preprocess.
  destruct (MlRunner.use_cat12 env); [| constructor].
  destruct (Path.contains "mwp1" (Predictor.basename scan_path)); [constructor|].
  destruct (MlRunner.cat12 env scan_path) as [[f |] | e];
    try destruct (Volumetric.truthy f && MlRunner.path_exists env f);
    repeat constructor.
Qed.

Lemma mock_fallback_quiet (env : MlRunner.Env) (atype why : string) :
  quiet (fst (MlRunner.mock_fallback env atype why)).
Proof.
  unfold MlRunner.mock_fallback.
  destruct (MlRunner.mock_importable env); repeat constructor.
Qed.

Lemma volumes_stage_quiet (env : MlRunner.Env) (processed_path label : string) :
  quiet (fst (MlRunner.volumes_stage env processed_path label)).
Proof.
  unfold MlRunner.volumes_stage.
  destruct (Path.contains "mwp1" (Predictor.basename processed_path));
    [| repeat constructor].
  destruct (Volumetric.extract_volumes_from_nifti _ _ _); repeat constructor.
Qed.

Lemma inference_stage_quiet (env : MlRunner.Env) (atype processed_path : string)
    (used : bool) (slice_paths : list string) :
  quiet (fst (MlRunner.inference_stage env atype processed_path used slice_paths)).
Proof.
  unfold MlRunner.inference_stage.
  destruct (negb (MlRunner.path_exists env Config.CONVIT_CHECKPOINT_PATH));
    [apply mock_fallback_quiet|].
  destruct (negb (Predictor.is_available (MlRunner.predictor env)));
    [apply mock_fallback_quiet|].
  destruct (Predictor.predict_patient _ _ slice_paths) as [r | e].
  - pose proof (volumes_stage_quiet env processed_path (Predictor.patient_diagnosis r)) as H.
    destruct (MlRunner.volumes_stage env processed_path (Predictor.patient_diagnosis r))
      as [t v].
    simpl in *. repeat constructor. exact H.
  - pose proof (mock_fallback_quiet env atype (exn_msg e)) as H.
    destruct (MlRunner.mock_fallback env atype (exn_msg e)) as [t r].
    simpl in *. constructor; [reflexivity | exact H].
Qed.

Lemma run_model_trace_no_report (env : MlRunner.Env) (scan_path atype : string) :
  quiet (fst (MlRunner.run_model env scan_path atype)).
Proof.
  unfold MlRunner.run_model.
  destruct (MlRunner.use_mock_model env && MlRunner.mock_importable env);
    [repeat constructor|].
  pose proof (preprocess_quiet env scan_path) as H1.
  destruct (MlRunner.preprocess env scan_path) as [t1 [[processed_path used] | e]];
    simpl in H1; [| exact H1].
  destruct (MlRunner.slice_stage env processed_path) as [slice_paths | e].
  - pose proof (inference_stage_quiet env atype processed_path used slice_paths) as H3.
    destruct (MlRunner.inference_stage env atype processed_path used slice_paths)
      as [t3 r].
    simpl in *. apply quiet_app; [exact H1|]. constructor; [reflexivity | exact H3].
  - simpl. apply quiet_app; [exact H1 | repeat constructor].
Qed.

Section StageFrames.
Variable P : State -> Prop.
Hypothesis F : Frame P.

Lemma frame_emit_all (es : list event) : quiet es -> preserves P (emit_all es).
Proof.
  intros Hes s r s' HP H. injection H as _ <-. apply (fr_trace P F); assumption.
Qed.

Lemma frame_emit (e : event) : is_report e = false -> preserves P (emit e).
Proof.
  intros He s r s' HP H. injection H as _ <-.
  apply (fr_trace P F); [repeat constructor; exact He | exact HP].
Qed.

Lemma frame_set_url (k v : string) : In k chart_keys -> preserves P (set_url k v).
Proof.
  intros Hk s r s' HP H. injection H as _ <-. apply (fr_url P F); assumption.
Qed.

Lemma frame_add_error (msg : string) : preserves P (add_error msg).
Proof. intros s r s' HP H. injection H as _ <-. apply (fr_err P F); assumption. Qed.

Lemma frame_update_status (env : Env) (st : string) :
  preserves P (update_session_status env st).
Proof.
  unfold update_session_status. destruct (client_ok env).
  - apply frame_emit. reflexivity.
  - apply preserves_raise.
Qed.

Lemma frame_lift_result {A : Type} (r : result A) : preserves P (lift_result r).
Proof. destruct r; [apply preserves_ret | apply preserves_raise]. Qed.

Lemma frame_run_model_stage (env : Env) (file_path atype : string) :
  preserves P (run_model_stage env file_path atype).
Proof.
  unfold run_model_stage.
  pose proof (run_model_trace_no_report (ml env) file_path atype) as Ht.
  destruct (MlRunner.run_model (ml env) file_path atype) as [t r]. simpl in Ht.
  apply preserves_bind.
  - apply frame_emit_all. exact Ht.
  - intros _. destruct r; [apply preserves_ret | apply preserves_raise].
Qed.

Lemma frame_viewer (env : Env) (file_path : string) :
  preserves P (viewer_slices_stage env file_path).
Proof.
  unfold viewer_slices_stage. destruct (is_nifti file_path && nibabel_importable env).
  - apply preserves_bind; [apply frame_emit; reflexivity|].
    intros _. destruct (viewer_slices env file_path); apply preserves_ret.
  - apply preserves_ret.
Qed.

Lemma frame_chart_upload (env : Env) (img : option string) (k : string) :
  In k chart_keys -> preserves P (chart_upload_stage env img k).
Proof.
  intros Hk. unfold chart_upload_stage. destruct (truthy_opt img).
  - apply preserves_bind; [apply frame_emit; reflexivity|].
    intros _. destruct (upload_chart env k) as [url | e].
    + destruct (truthy_opt url); [apply frame_set_url, Hk | apply preserves_ret].
    + apply frame_add_error.
  - apply preserves_ret.
Qed.

Lemma frame_visualisations (env : Env) (file_path : string)
    (ml_results : MlRunner.MlResults) :
  preserves P (visualisations env file_path ml_results).
Proof.
  unfold visualisations.
  repeat first
    [ apply preserves_bind
    | match goal with |- forall _, preserves _ _ => intro end
    | apply frame_viewer
    | apply frame_lift_result
    | apply frame_chart_upload; simpl; auto 10
    | apply frame_emit; reflexivity
    | apply preserves_ret ].
Qed.

Lemma frame_create_check (env : Env) (ml_results : MlRunner.MlResults) :
  preserves P
    (let '(prediction_id, err) := create_record env ml_results in
     if truthy_opt err
     then raise (Exception ("Failed to create prediction: "
                            ++ match err with Some m => m | None => "" end))
     else ret tt).
Proof.
  destruct (create_record env ml_results) as [pid err].
  destruct (truthy_opt err); [apply preserves_raise | apply preserves_ret].
Qed.

(** The part of the [try] body that precedes the reports. *)
Lemma frame_before_reports (env : Env) (file_path atype : string)
    (k : MlRunner.MlResults -> M unit) :
  (forall ml_results, preserves P (k ml_results)) ->
  preserves P
    (bind (update_session_status env "processing") (fun _ =>
     bind (run_model_stage env file_path atype) (fun ml_results =>
     bind (emit EvCreateRecord) (fun _ =>
     bind (let '(prediction_id, err) := create_record env ml_results in
           if truthy_opt err
           then raise (Exception ("Failed to create prediction: "
                                  ++ match err with Some m => m | None => "" end))
           else ret tt) (fun _ => k ml_results))))).
Proof.
  intros Hk.
  apply preserves_bind; [apply frame_update_status|]. intros _.
  apply preserves_bind; [apply frame_run_model_stage|]. intros ml_results.
  apply preserves_bind; [apply frame_emit; reflexivity|]. intros _.
  apply preserves_bind; [apply frame_create_check|]. intros _.
  apply Hk.
Qed.

Lemma frame_cleanup_url (url : string) : preserves P (cleanup_url url).
Proof.
  unfold cleanup_url. destruct (Path.contains Config.REPORT_ASSETS_BUCKET url).
  - destruct (second_segment _ url) as [path |]; [| apply preserves_ret].
    destruct (truthy path); [apply frame_emit; reflexivity | apply preserves_ret].
  - apply preserves_ret.
Qed.

Lemma frame_failure_handler (env : Env) (e : exn) :
  preserves P (failure_handler env e).
Proof.
  unfold failure_handler.
  apply preserves_bind; [apply frame_update_status|]. intros _.
  apply preserves_bind; [apply preserves_get_state|]. intros s.
  apply preserves_for_each. intros url _. apply frame_cleanup_url.
Qed.

End StageFrames.

(** Nothing before the finally clause touches the temp file. *)
Section TempFile.
Variable b : bool.

Lemma temp_frame : Frame (temp_is b).
Proof. constructor; intros; assumption. Qed.

Lemma report_stage_temp (env : Env) (t k : string) :
  preserves (temp_is b) (report_stage env t k).
Proof.
  unfold report_stage.
  apply preserves_bind; [intros s r s' HT H; injection H as _ <-; exact HT|].
  intros _. destruct (build_report env t).
  - destruct (truthy_opt (upload_report env t));
      intros s r s' HT H; injection H as _ <-; exact HT.
  - intros s r s' HT H; injection H as _ <-; exact HT.
Qed.

Lemma reports_and_status_temp (env : Env) :
  preserves (temp_is b) (reports_and_status env).
Proof.
  unfold reports_and_status.
  apply preserves_bind.
  - apply preserves_for_each. intros [t k] _. apply report_stage_temp.
  - intros _. apply preserves_bind; [apply preserves_get_state|]. intros s.
    apply preserves_bind; [apply (frame_emit _ temp_frame); reflexivity|].
    intros _. apply (frame_update_status _ temp_frame).
Qed.

Lemma analysis_body_temp (env : Env) (file_path atype : string) :
  preserves (temp_is b) (analysis_body env file_path atype).
Proof.
  unfold analysis_body. apply (frame_before_reports _ temp_frame).
  intros ml_results. unfold analysis_and_reports.
  apply preserves_bind; [apply (frame_visualisations _ temp_frame)|].
  intros _. apply reports_and_status_temp.
Qed.

Lemma failure_handler_temp (env : Env) (e : exn) :
  preserves (temp_is b) (failure_handler env e).
Proof. apply (frame_failure_handler _ temp_frame). Qed.

End TempFile.

(** *** The URL dictionary and the status decision *)

Lemma urls_get_set (d : list (string * string)) (k v k' : string) :
  urls_get (dict_set d k v) k' = if String.eqb k' k then Some v else urls_get d k'.
Proof.
  induction d as [| [k0 v0] d IH]; simpl.
  - destruct (String.eqb k' k); reflexivity.
  - destruct (String.eqb_spec k k0) as [-> | Hk]; simpl.
    + destruct (String.eqb k' k0); reflexivity.
    + destruct (String.eqb_spec k' k0) as [-> | Hk'].
      * destruct (String.eqb_spec k0 k) as [-> | _]; [congruence | reflexivity].
      * exact IH.
Qed.

Lemma has_any_report_set_other (d : list (string * string)) (k v : string) :
  In k chart_keys -> has_any_report (dict_set d k v) = has_any_report d.
Proof.
  intros Hk. unfold has_any_report. cbn [existsb]. rewrite !urls_get_set.
  simpl in Hk. destruct Hk as [<- | [<- | [<- | []]]]; reflexivity.
Qed.

Lemma has_any_report_set (d : list (string * string)) (k v : string) :
  truthy v = true ->
  (In k report_keys -> has_any_report (dict_set d k v) = true) /\
  (has_any_report d = true -> has_any_report (dict_set d k v) = true).
Proof.
  intros Hv. unfold has_any_report. cbn [existsb]. rewrite !urls_get_set. split.
  - intros Hk. simpl in Hk.
    destruct Hk as [<- | [<- | [<- | []]]]; simpl; rewrite Hv;
      rewrite ?orb_true_r; reflexivity.
  - repeat match goal with
           | |- context [String.eqb ?a k] => destruct (String.eqb a k)
           end; simpl; rewrite ?Hv; rewrite ?orb_true_r; auto.
Qed.

Lemma decide_final_status_spec (errors : list string) (any_report : bool) :
  any_report = true \/ errors <> [] ->
  decide_final_status errors any_report = if any_report then "completed" else "failed".
Proof.
  unfold decide_final_status. destruct any_report; intros [H | H].
  - destruct errors; reflexivity.
  - destruct errors; reflexivity.
  - discriminate.
  - destruct errors; [congruence | reflexivity].
Qed.

(** *** One report, then the three of them *)

Lemma report_stage_spec (env : Env) (t k : string) (s : State) :
  In k report_keys ->
  exists s',
    report_stage env t k s = (Ok tt, s') /\
    trace s' = (trace s ++ [EvReport t])%list /\
    temp_file s' = temp_file s /\
    has_any_report (uploaded_urls s')
    = has_any_report (uploaded_urls s) || report_ok env t /\
    (has_any_report (uploaded_urls s') = true \/ report_errors s' <> []).
Proof.
  intros Hk. unfold report_stage, bind, emit, report_ok.
  destruct (build_report env t); cbn [andb].
  - destruct (upload_report env t) as [u |]; cbn [truthy_opt].
    + destruct (truthy u) eqn:Eu.
      * eexists. split; [reflexivity|]. cbn [trace temp_file uploaded_urls report_errors].
        destruct (has_any_report_set (uploaded_urls s) k u Eu) as [H1 H2].
        rewrite (H1 Hk), orb_true_r. repeat split; auto.
      * eexists. split; [reflexivity|]. cbn [trace temp_file uploaded_urls report_errors].
        rewrite orb_false_r. repeat split; auto.
        right. intros E. apply app_eq_nil in E. destruct E; discriminate.
    + eexists. split; [reflexivity|]. cbn [trace temp_file uploaded_urls report_errors].
      rewrite orb_false_r. repeat split; auto.
      right. intros E. apply app_eq_nil in E. destruct E; discriminate.
  - eexists. split; [reflexivity|]. cbn [trace temp_file uploaded_urls report_errors].
    rewrite orb_false_r. repeat split; auto.
    right. intros E. apply app_eq_nil in E. destruct E; discriminate.
Qed.

(** Steps 6 and 7 never raise: the three attempts, the record update, and
    the status the decision yields. *)
Lemma reports_and_status_spec (env : Env) (s : State) :
  client_ok env = true ->
  exists s',
    reports_and_status env s = (Ok tt, s') /\
    temp_file s' = temp_file s /\
    has_any_report (uploaded_urls s')
    = has_any_report (uploaded_urls s)
      || existsb (report_ok env) ["technical"; "clinician"; "patient"] /\
    trace s' =
      (trace s ++ report_events
       ++ [EvUpdateRecord;
           EvStatus (decide_final_status (report_errors s')
                                         (has_any_report (uploaded_urls s')))])%list /\
    decide_final_status (report_errors s') (has_any_report (uploaded_urls s'))
    = if has_any_report (uploaded_urls s') then "completed" else "failed".
Proof.
  intros Hc.
  destruct (report_stage_spec env "technical" "technical_pdf_url" s)
    as (s1 & E1 & T1 & F1 & M1 & D1); [simpl; auto|].
  destruct (report_stage_spec env "clinician" "clinician_pdf_url" s1)
    as (s2 & E2 & T2 & F2 & M2 & D2); [simpl; auto|].
  destruct (report_stage_spec env "patient" "patient_pdf_url" s2)
    as (s3 & E3 & T3 & F3 & M3 & D3); [simpl; auto 10|].
  unfold reports_and_status, pdf_configs. cbn [for_each fst snd].
  unfold bind at 1. unfold bind at 1. rewrite E1.
  unfold bind at 1. rewrite E2.
  unfold bind at 1. rewrite E3.
  unfold ret, bind, get_state, emit, update_session_status. rewrite Hc.
  unfold emit.
  eexists. split; [reflexivity|].
  cbn [trace temp_file uploaded_urls report_errors].
  split; [congruence|]. split; [| split].
  - rewrite M3, M2, M1. cbn [existsb]. rewrite orb_false_r, !orb_assoc. reflexivity.
  - rewrite T3, T2, T1. unfold report_events. rewrite <- !app_assoc. reflexivity.
  - apply decide_final_status_spec. exact D3.
Qed.

(** *** Before the reports: no report URL, no report event *)

Lemma reports_attempted_app (t1 t2 : list event) :
  reports_attempted (t1 ++ t2) = (reports_attempted t1 ++ reports_attempted t2)%list.
Proof. apply filter_app. Qed.

Lemma quiet_not_attempted (t : list event) : quiet t -> reports_attempted t = [].
Proof.
  unfold quiet, reports_attempted. induction 1 as [| e t He _ IH]; simpl.
  - reflexivity.
  - rewrite He. exact IH.
Qed.

Lemma before_reports_frame : Frame before_reports.
Proof.
  constructor.
  - intros s es Hq [H1 H2]. split; cbn [uploaded_urls trace]; [exact H1|].
    rewrite reports_attempted_app, H2, (quiet_not_attempted _ Hq). reflexivity.
  - intros s k v Hk [H1 H2]. split; cbn [uploaded_urls trace]; [| exact H2].
    rewrite (has_any_report_set_other _ _ _ Hk). exact H1.
  - intros s msg H. exact H.
Qed.

(** The [try] body either raises before any report was attempted or stored,
    or reaches steps 6 and 7 in such a state. *)
Lemma analysis_body_outcome (env : Env) (file_path atype : string)
    (s0 : State) (r : result unit) (s1 : State) :
  before_reports s0 ->
  analysis_body env file_path atype s0 = (r, s1) ->
  (exists e, r = Raised e /\ before_reports s1) \/
  (exists sm, before_reports sm /\ temp_file sm = temp_file s0 /\
              reports_and_status env sm = (r, s1)).
Proof.
  intros H0 H. unfold analysis_body in H.
  pose proof before_reports_frame as F.
  apply bind_inv in H. destruct H as [(e & H & ->) | (a1 & sa & Ha & H)].
  { left. exists e. split; [reflexivity|]. exact (frame_update_status _ F _ _ _ _ _ H0 H). }
  pose proof (frame_update_status _ F _ _ _ _ _ H0 Ha) as Pa.
  pose proof (frame_update_status _ (temp_frame (temp_file s0)) _ _ _ _ _ eq_refl Ha) as Ta.
  apply bind_inv in H. destruct H as [(e & H & ->) | (ml_results & sb & Hb & H)].
  { left. exists e. split; [reflexivity|]. exact (frame_run_model_stage _ F _ _ _ _ _ _ Pa H). }
  pose proof (frame_run_model_stage _ F _ _ _ _ _ _ Pa Hb) as Pb.
  pose proof (frame_run_model_stage _ (temp_frame (temp_file s0)) _ _ _ _ _ _ Ta Hb) as Tb.
  apply bind_inv in H. destruct H as [(e & H & ->) | (a3 & sc & Hc & H)].
  { left. exists e. split; [reflexivity|].
    exact (frame_emit _ F EvCreateRecord eq_refl _ _ _ Pb H). }
  pose proof (frame_emit _ F EvCreateRecord eq_refl _ _ _ Pb Hc) as Pc.
  pose proof (frame_emit _ (temp_frame (temp_file s0)) EvCreateRecord eq_refl _ _ _ Tb Hc) as Tc.
  apply bind_inv in H. destruct H as [(e & H & ->) | (a4 & sd & Hd & H)].
  { left. exists e. split; [reflexivity|]. exact (frame_create_check _ env ml_results _ _ _ Pc H). }
  pose proof (frame_create_check _ env ml_results _ _ _ Pc Hd) as Pd.
  pose proof (frame_create_check (temp_is (temp_file s0)) env ml_results _ _ _ Tc Hd) as Td.
  unfold analysis_and_reports in H.
  apply bind_inv in H. destruct H as [(e & H & ->) | (a5 & se & He & H)].
  { left. exists e. split; [reflexivity|]. exact (frame_visualisations _ F _ _ _ _ _ _ Pd H). }
  pose proof (frame_visualisations _ F _ _ _ _ _ _ Pd He) as Pe.
  pose proof (frame_visualisations _ (temp_frame (temp_file s0)) _ _ _ _ _ _ Td He) as Te.
  right. exists se. split; [exact Pe|]. split; [exact Te | exact H].
Qed.

(** *** The except and finally clauses *)

Lemma cleanup_url_spec (url : string) (s : State) :
  exists es,
    Forall is_cleanup es /\
    cleanup_url url s =
      (Ok tt, {| trace := (trace s ++ es)%list; uploaded_urls := uploaded_urls s;
                 report_errors := report_errors s; temp_file := temp_file s |}).
Proof.
  assert (Hnil : exists es, Forall is_cleanup es /\
            ret tt s = (Ok tt, {| trace := (trace s ++ es)%list;
                                  uploaded_urls := uploaded_urls s;
                                  report_errors := report_errors s;
                                  temp_file := temp_file s |})).
  { exists []. split; [constructor|]. unfold ret. rewrite app_nil_r.
    destruct s; reflexivity. }
  unfold cleanup_url.
  destruct (Path.contains Config.REPORT_ASSETS_BUCKET url); [| exact Hnil].
  destruct (second_segment _ url) as [path |]; [| exact Hnil].
  destruct (truthy path); [| exact Hnil].
  exists [EvStorageCleanup path]. split; [repeat constructor | reflexivity].
Qed.

Lemma cleanup_loop_spec (urls : list string) (s : State) :
  exists es,
    Forall is_cleanup es /\
    for_each urls cleanup_url s =
      (Ok tt, {| trace := (trace s ++ es)%list; uploaded_urls := uploaded_urls s;
                 report_errors := report_errors s; temp_file := temp_file s |}).
Proof.
  revert s. induction urls as [| u urls IH]; intros s.
  - exists []. split; [constructor|]. simpl. unfold ret. rewrite app_nil_r.
    destruct s; reflexivity.
  - cbn [for_each]. unfold bind.
    destruct (cleanup_url_spec u s) as (es1 & H1 & E1). rewrite E1.
    destruct (IH {| trace := (trace s ++ es1)%list; uploaded_urls := uploaded_urls s;
                    report_errors := report_errors s; temp_file := temp_file s |})
      as (es2 & H2 & E2).
    exists (es1 ++ es2)%list. split; [apply Forall_app; split; assumption|].
    rewrite E2. cbn [trace uploaded_urls report_errors temp_file].
    rewrite <- app_assoc. reflexivity.
Qed.

Lemma failure_handler_spec (env : Env) (e : exn) (s : State) :
  client_ok env = true ->
  exists es,
    Forall is_cleanup es /\
    failure_handler env e s =
      (Ok tt, {| trace := (trace s ++ EvStatus "failed" :: es)%list;
                 uploaded_urls := uploaded_urls s;
                 report_errors := report_errors s; temp_file := temp_file s |}).
Proof.
  intros Hc. unfold failure_handler, update_session_status. rewrite Hc.
  unfold bind, emit, get_state. cbn [uploaded_urls].
  destruct (cleanup_loop_spec (map snd (uploaded_urls s))
              {| trace := (trace s ++ [EvStatus "failed"])%list;
                 uploaded_urls := uploaded_urls s;
                 report_errors := report_errors s; temp_file := temp_file s |})
    as (es & Hes & E).
  exists es. split; [exact Hes|]. rewrite E.
  cbn [trace uploaded_urls report_errors temp_file]. rewrite <- app_assoc. reflexivity.
Qed.

Lemma remove_temp_file_spec (env : Env) (s : State) :
  remove_temp_file env s =
    (Ok tt, {| trace := (trace s ++ if temp_file s then [EvRemoveTemp] else [])%list;
               uploaded_urls := uploaded_urls s; report_errors := report_errors s;
               temp_file := temp_file s && negb (remove_ok env) |}).
Proof.
  unfold remove_temp_file, bind, get_state, emit, set_temp_file, ret.
  destruct s as [t u r f]. cbn [trace uploaded_urls report_errors temp_file].
  destruct f; [destruct (remove_ok env)|]; cbn [andb negb];
    rewrite ?app_nil_r; reflexivity.
Qed.

(** *** The last status of a trace *)

Lemma last_status_app (t1 t2 : list event) :
  last_status (t1 ++ t2) =
    match last_status t2 with
    | Some st => Some st
    | None => last_status t1
    end.
Proof.
  induction t1 as [| e t1 IH]; simpl.
  - destruct (last_status t2); reflexivity.
  - destruct e; try exact IH.
    rewrite IH. destruct (last_status t2); reflexivity.
Qed.

Lemma last_status_cleanup (es : list event) : Forall is_cleanup es -> last_status es = None.
Proof.
  induction 1 as [| e es He _ IH]; [reflexivity|].
  destruct e; try contradiction. exact IH.
Qed.

Lemma reports_attempted_cleanup (es : list event) :
  Forall is_cleanup es -> reports_attempted es = [].
Proof.
  induction 1 as [| e es He _ IH]; [reflexivity|].
  destruct e; try contradiction. exact IH.
Qed.

End OrchestratorFacts.

(** ** Claims about the background run *)

Section BackgroundRun.
Import Run RunFacts Orchestrator OrchestratorFacts.

Lemma initial_before_reports : before_reports initial.
Proof. split; reflexivity. Qed.

(** The run of [run_analysis_background] once the client is there, in its
    two shapes: a failure before the reports, or the reports and the status
    decision. *)
Lemma run_shape (env : Env) (file_path atype : string) :
  client_ok env = true ->
  exists s mid tail,
    run_analysis_background env file_path atype initial = (Ok tt, s) /\
    temp_file s = negb (remove_ok env) /\
    trace s = (trace mid ++ tail ++ [EvRemoveTemp])%list /\
    before_reports mid /\
    ((uploaded_urls s = uploaded_urls mid /\
      exists es, Forall is_cleanup es /\ tail = EvStatus "failed" :: es) \/
     (tail = (report_events
              ++ [EvUpdateRecord;
                  EvStatus (decide_final_status (report_errors s)
                                                (has_any_report (uploaded_urls s)))])%list /\
      decide_final_status (report_errors s) (has_any_report (uploaded_urls s))
      = (if has_any_report (uploaded_urls s) then "completed" else "failed") /\
      has_any_report (uploaded_urls s)
      = existsb (report_ok env) ["technical"; "clinician"; "patient"])).
Proof.
  intros Hc. unfold run_analysis_background. rewrite Hc.
  unfold try_finally, try_except.
  destruct (analysis_body env file_path atype initial) as [r s1] eqn:E.
  assert (T0 : temp_is true initial) by reflexivity.
  pose proof (analysis_body_temp true env file_path atype _ _ _ T0 E) as T1.
  unfold temp_is in T1.
  destruct (analysis_body_outcome _ _ _ _ _ _ initial_before_reports E)
    as [(e & -> & P1) | (sm & Pm & Tm & Em)].
  - destruct (failure_handler_spec env e s1 Hc) as (es & Hes & Eh).
    rewrite Eh, remove_temp_file_spec.
    cbn [trace uploaded_urls report_errors temp_file]. rewrite T1.
    eexists. exists s1, (EvStatus "failed" :: es).
    split; [reflexivity|]. cbn [trace uploaded_urls report_errors temp_file].
    split; [reflexivity|]. split; [rewrite <- app_assoc; reflexivity|].
    split; [exact P1|]. left. split; [reflexivity|]. exists es. split; [exact Hes | reflexivity].
  - destruct (reports_and_status_spec env sm Hc) as (s' & Es & Ts & Any & Tr & Dec).
    rewrite Es in Em. injection Em as <- <-.
    rewrite remove_temp_file_spec.
    cbn [trace uploaded_urls report_errors temp_file]. rewrite T1.
    eexists. exists sm, (report_events
                         ++ [EvUpdateRecord;
                             EvStatus (decide_final_status
                                         (report_errors s')
                                         (has_any_report (uploaded_urls s')))])%list.
    split; [reflexivity|]. cbn [trace uploaded_urls report_errors temp_file].
    split; [reflexivity|]. split.
    + rewrite Tr. rewrite <- !app_assoc. reflexivity.
    + split; [exact Pm|]. right. split; [reflexivity|]. split; [exact Dec|].
      rewrite Any. destruct Pm as [-> _]. reflexivity.
Qed.

(** C3.  With the client at hand the run always ends, and the last status
    it writes is [failed] when no report URL was stored and [completed]
    when one was, whatever else failed.  When reports were attempted, the
    three attempts come first, then the record update and the status write
    of the decision, and no status is written after it; a report URL is
    then stored exactly when one of the three attempts built its PDF and
    uploaded it. *)
Theorem C3_final_status :
  forall (env : Env) (file_path atype : string),
    client_ok env = true ->
    exists s,
      run_analysis_background env file_path atype initial = (Ok tt, s) /\
      (has_any_report (uploaded_urls s) = false ->
         last_status (trace s) = Some "failed") /\
      (has_any_report (uploaded_urls s) = true ->
         last_status (trace s) = Some "completed") /\
      (reports_attempted (trace s) <> [] ->
         exists pre post,
           trace s =
             (pre ++ report_events
              ++ [EvUpdateRecord;
                  EvStatus (decide_final_status (report_errors s)
                                                (has_any_report (uploaded_urls s)))]
              ++ post)%list /\
           reports_attempted pre = [] /\
           last_status post = None /\
           has_any_report (uploaded_urls s)
           = existsb (report_ok env) ["technical"; "clinician"; "patient"]).
Proof.
  intros env file_path atype Hc.
  destruct (run_shape env file_path atype Hc)
    as (s & mid & tail & Erun & _ & Etr & [Pm1 Pm2] & Hshape).
  exists s. split; [exact Erun|].
  destruct Hshape as [(Eu & es & Hes & ->) | (-> & Dec & Any)].
  - rewrite Eu, Pm1. split; [| split].
    + intros _. rewrite Etr, !last_status_app. cbn [last_status].
      rewrite (last_status_cleanup es Hes). reflexivity.
    + intros H. discriminate H.
    + intros Hatt. exfalso. apply Hatt.
      rewrite Etr, !reports_attempted_app, Pm2.
      cbn [reports_attempted filter is_report app].
      fold (reports_attempted es). rewrite (reports_attempted_cleanup es Hes).
      reflexivity.
  - split; [| split].
    + intros H. rewrite Etr, Dec, H, !last_status_app. reflexivity.
    + intros H. rewrite Etr, Dec, H, !last_status_app. reflexivity.
    + intros _. exists (trace mid), [EvRemoveTemp].
      split; [| split; [exact Pm2 | split; [reflexivity | exact Any]]].
      rewrite Etr. rewrite <- !app_assoc. reflexivity.
Qed.

Lemma C3_final_status_witness :
  client_ok (Examples.orchestrator_env (Examples.ml_env Examples.readable)
                                       Examples.only_patient_report true) = true /\
  exists s,
    run_analysis_background
      (Examples.orchestrator_env (Examples.ml_env Examples.readable)
                                 Examples.only_patient_report true)
      "uploads/s1_scan.nii" "multi-disease" initial = (Ok tt, s) /\
    report_errors s = ["technical PDF failed"; "clinician PDF failed"] /\
    last_status (trace s) = Some "completed".
Proof.
  assert (H : client_ok (Examples.orchestrator_env (Examples.ml_env Examples.readable)
                                                   Examples.only_patient_report true)
              = true) by reflexivity.
  split; [exact H|].
  destruct (C3_final_status _ "uploads/s1_scan.nii" "multi-disease" H) as (s & Hs & _).
  exists s. split; [exact Hs|].
  vm_compute in Hs. injection Hs as <-. split; reflexivity.
Defined.

(** C10, as amended.  With the client at hand, every way through the [try]
    block, whether it ends in the status decision or in the [except]
    clause, is followed by an attempt to remove the uploaded file, which is
    the last thing the run does; the file is gone afterwards when that
    removal works, and still there when it raises, since the error is
    swallowed. *)
Theorem C10_temp_file_cleanup :
  forall (env : Env) (file_path atype : string),
    client_ok env = true ->
    exists s pre,
      run_analysis_background env file_path atype initial = (Ok tt, s) /\
      trace s = (pre ++ [EvRemoveTemp])%list /\
      (remove_ok env = true -> temp_file s = false) /\
      (remove_ok env = false -> temp_file s = true).
Proof.
  intros env file_path atype Hc.
  destruct (run_shape env file_path atype Hc)
    as (s & mid & tail & Erun & Et & Etr & _ & _).
  exists s, (trace mid ++ tail)%list.
  split; [exact Erun|]. split; [rewrite Etr, app_assoc; reflexivity|].
  rewrite Et. split; intros ->; reflexivity.
Qed.

Lemma C10_temp_file_cleanup_witness :
  client_ok (Examples.orchestrator_env (Examples.ml_env Examples.unreadable)
                                       Examples.no_report true) = true /\
  exists s,
    run_analysis_background
      (Examples.orchestrator_env (Examples.ml_env Examples.unreadable)
                                 Examples.no_report true)
      "uploads/s1_scan.nii" "multi-disease" initial = (Ok tt, s) /\
    last_status (trace s) = Some "failed" /\
    temp_file s = false.
Proof.
  assert (H : client_ok (Examples.orchestrator_env (Examples.ml_env Examples.unreadable)
                                                   Examples.no_report true)
              = true) by reflexivity.
  split; [exact H|].
  destruct (C10_temp_file_cleanup _ "uploads/s1_scan.nii" "multi-disease" H)
    as (s & pre & Hs & _).
  exists s. split; [exact Hs|].
  vm_compute in Hs. injection Hs as <-. split; reflexivity.
Defined.

(** The claim as stated fails when the removal itself raises: the run
    returns normally, the session is [completed], and the uploaded file is
    still on disk. *)
Lemma C10_counterexample :
  exists s,
    run_analysis_background
      (Examples.orchestrator_env (Examples.ml_env Examples.readable)
                                 Examples.every_report false)
      "uploads/s1_scan.nii" "multi-disease" initial = (Ok tt, s) /\
    last_status (trace s) = Some "completed" /\
    In EvRemoveTemp (trace s) /\
    temp_file s = true.
Proof.
  eexists. split; [vm_compute; reflexivity|].
  cbn [trace temp_file]. split; [reflexivity|]. split; [| reflexivity].
  simpl. auto 30.
Qed.

(** Without a client, [run_analysis_background] raises before its [try], so
    that the finally clause is never entered. *)
Lemma no_client_no_cleanup (env : Env) (file_path atype : string) (s : State) :
  client_ok env = false ->
  run_analysis_background env file_path atype s
  = (Raised (ValueError "Supabase credentials not configured."), s).
Proof. intros Hc. unfold run_analysis_background. rewrite Hc. reflexivity. Qed.

(** In app.py the first use of the client is inside the [try]: the file is
    removed even then. *)
Lemma sibling_no_client_cleanup (env : Env) (filepath atype : string) :
  client_ok env = false -> remove_ok env = true ->
  exists e s,
    run_pipeline_background env filepath atype initial = (Raised e, s) /\
    temp_file s = false.
Proof.
  intros Hc Hr.
  unfold run_pipeline_background, try_finally, try_except, pipeline_body, bind,
    update_session_status.
  rewrite Hc. unfold raise. rewrite remove_temp_file_spec.
  cbn [temp_file initial]. rewrite Hr.
  eexists. eexists. split; reflexivity.
Qed.

(** *** Slice extraction *)

(** Inside [run_model] a failed slice extraction ends the run at once with
    the error response: nothing is classified and no volume is measured. *)
Lemma run_model_slice_failure (env : MlRunner.Env) (scan_path atype : string)
    (t : list event) (processed_path : string) (used : bool) (e : exn) :
  MlRunner.use_mock_model env && MlRunner.mock_importable env = false ->
  MlRunner.preprocess env scan_path = (t, Ok (processed_path, used)) ->
  MlRunner.slice_stage env processed_path = Raised e ->
  MlRunner.run_model env scan_path atype
  = ((t ++ [EvSliceExtraction])%list,
     Ok (MlRunner.error_response ("Slice extraction failed: " ++ exn_msg e))).
Proof.
  intros Hm Hp Hs. unfold MlRunner.run_model. rewrite Hm, Hp, Hs. reflexivity.
Qed.

(** C4, at the failing input.  The scan cannot be parsed, so the slicer
    returns no slice and [run_model] answers its error response without
    classifying anything; [run_analysis_background] does not look at that
    response: it stores it as a prediction, builds and uploads the charts
    and the three reports, and marks the session [completed]. *)
Theorem C4_slice_failure_not_fatal :
  let env := Examples.orchestrator_env (Examples.ml_env Examples.unreadable)
                                       Examples.every_report true in
  MlRunner.slice_stage (ml env) "uploads/s1_scan.nii"
  = Raised (ValueError "Slicer returned no images.") /\
  MlRunner.run_model (ml env) "uploads/s1_scan.nii" "multi-disease"
  = ([EvPreprocess; EvSliceExtraction],
     Ok (MlRunner.error_response "Slice extraction failed: Slicer returned no images.")) /\
  exists s,
    run_analysis_background env "uploads/s1_scan.nii" "multi-disease" initial = (Ok tt, s) /\
    reports_attempted (trace s) = report_events /\
    has_any_report (uploaded_urls s) = true /\
    last_status (trace s) = Some "completed".
Proof.
  cbv zeta. split; [vm_compute; reflexivity|]. split; [vm_compute; reflexivity|].
  eexists. split; [vm_compute; reflexivity|].
  cbn [trace uploaded_urls]. repeat split.
Qed.

(** The sibling orchestrator of app.py checks the response: on the same
    input it writes [failed] and attempts no report. *)
Lemma sibling_aborts_on_slice_failure :
  exists s,
    run_pipeline_background
      (Examples.orchestrator_env (Examples.ml_env Examples.unreadable)
                                 Examples.every_report true)
      "uploads/s1_scan.nii" "multi-disease" initial = (Ok tt, s) /\
    trace s = [EvStatus "processing"; EvPreprocess; EvSliceExtraction;
               EvStatus "failed"; EvRemoveTemp] /\
    uploaded_urls s = [].
Proof. eexists. split; [vm_compute; reflexivity|]. split; reflexivity. Qed.

End BackgroundRun.

(** ** Claims about the choice of classifier *)

Section ClassifierChoice.
Import Predictor.






End ClassifierChoice.

(** * Further properties of the code *)

(** ** Rounding keeps order and bounds *)

Module RoundingFacts.
Import PyNumFacts.

Lemma round_half_even_floor (x : Q) :
  (Qfloor x <= round_half_even x <= Qfloor x + 1)%Z.
Proof.
  unfold round_half_even.
  destruct (Qcompare (x - inject_Z (Qfloor x)) (1 # 2));
    try destruct (Z.even (Qfloor x)); lia.
Qed.

Lemma round_half_even_mono (x y : Q) :
  x <= y -> (round_half_even x <= round_half_even y)%Z.
Proof.
  intros Hxy.
  pose proof (Qfloor_resp_le _ _ Hxy) as Hf.
  destruct (Z.eq_dec (Qfloor x) (Qfloor y)) as [E | NE].
  - unfold round_half_even. rewrite E.
    destruct (Qcompare_spec (x - inject_Z (Qfloor y)) (1 # 2)) as [Ex | Lx | Gx];
      destruct (Qcompare_spec (y - inject_Z (Qfloor y)) (1 # 2)) as [Ey | Ly | Gy];
      try destruct (Z.even (Qfloor y)); try lia; exfalso; lra.
  - pose proof (round_half_even_floor x). pose proof (round_half_even_floor y). lia.
Qed.

Lemma py_round_mono (x y : Q) (n : nat) : x <= y -> py_round x n <= py_round y n.
Proof.
  intros Hxy. pose proof (pow10_pos n) as Hp. unfold py_round.
  assert (Hm : x * pow10 n <= y * pow10 n).
  { apply Qmult_le_compat_r; [exact Hxy | apply Qlt_le_weak; exact Hp]. }
  apply round_half_even_mono in Hm. rewrite Zle_Qle in Hm.
  apply Qle_shift_div_l; [exact Hp|].
  setoid_replace (inject_Z (round_half_even (x * pow10 n)) / pow10 n * pow10 n)
    with (inject_Z (round_half_even (x * pow10 n))) by (field; lra).
  exact Hm.
Qed.

(** A number with at most [n] decimals is its own rounding. *)
Lemma py_round_exact (k : Z) (n : nat) :
  py_round (inject_Z k / pow10 n) n == inject_Z k / pow10 n.
Proof.
  pose proof (pow10_pos n) as Hp. unfold py_round.
  rewrite (round_half_even_compat (inject_Z k / pow10 n * pow10 n) (inject_Z k)).
  - rewrite round_half_even_Z. reflexivity.
  - field. lra.
Qed.

Lemma py_round_Z (k : Z) (n : nat) : py_round (inject_Z k) n == inject_Z k.
Proof.
  pose proof (pow10_pos n) as Hp.
  assert (E : inject_Z k == inject_Z (k * 10 ^ Z.of_nat n) / pow10 n).
  { unfold pow10. rewrite inject_Z_mult. field. exact (Qnot_eq_sym _ _ (Qlt_not_eq _ _ Hp)). }
  rewrite (py_round_compat _ _ n E), py_round_exact. symmetry. exact E.
Qed.

(** Rounding keeps a value between two integers. *)
Lemma py_round_between (a b : Z) (x : Q) (n : nat) :
  inject_Z a <= x <= inject_Z b -> inject_Z a <= py_round x n <= inject_Z b.
Proof.
  intros [Ha Hb]. split.
  - rewrite <- (py_round_Z a n). apply py_round_mono. exact Ha.
  - rewrite <- (py_round_Z b n). apply py_round_mono. exact Hb.
Qed.

Lemma qmax_list_in (x : Q) (r : list Q) :
  In (fold_left (fun m y => if Qle_bool y m then m else y) r x) (x :: r).
Proof.
  revert x. induction r as [| y r IH]; intros x; simpl.
  - left. reflexivity.
  - destruct (Qle_bool y x).
    + destruct (IH x) as [H | H]; [left; exact H | right; right; exact H].
    + destruct (IH y) as [H | H]; [right; left; exact H | right; right; exact H].
Qed.

Lemma qmax_list_bounds (l : list Q) (lo hi : Q) :
  lo <= 0 <= hi -> Forall (fun q => lo <= q <= hi) l -> lo <= qmax_list l <= hi.
Proof.
  intros H0 Hl. destruct l as [| x r]; simpl; [exact H0|].
  rewrite Forall_forall in Hl. apply Hl. apply qmax_list_in.
Qed.

Lemma qsum_bounds (l : list Q) (lo hi : Q) :
  Forall (fun q => lo <= q <= hi) l ->
  lo * of_nat (List.length l) <= qsum l <= hi * of_nat (List.length l).
Proof.
  induction 1 as [| x l [Hx1 Hx2] _ [IH1 IH2]].
  - cbn [qsum fold_right List.length]. change (of_nat 0) with 0.
    rewrite !Qmult_0_r. split; apply Qle_refl.
  - cbn [qsum fold_right List.length]. fold (qsum l).
    change (S (List.length l)) with (1 + List.length l)%nat.
    rewrite of_nat_plus. change (of_nat 1) with 1. lra.
Qed.

End RoundingFacts.

(** ** The predictor: errors, bookkeeping, ranges *)

Section PredictorExtras.
Import Predictor PyNumFacts CounterFacts PredictorFacts RoundingFacts.

(** X1.  [predict_patient] raises [ValueError] on an empty list of paths,
    raises [Exception] when paths were given but no slice could be
    classified, and returns a result in every other case. *)
Theorem predict_patient_errors :
  forall (self : MRIPredictor) (o : Oracle) (image_paths : list string),
    (image_paths = [] ->
       predict_patient self o image_paths
       = Raised (ValueError "No image paths provided")) /\
    (image_paths <> [] -> collect self o 1 image_paths = [] ->
       predict_patient self o image_paths
       = Raised (Exception "No images were successfully processed")) /\
    (collect self o 1 image_paths <> [] ->
       exists r, predict_patient self o image_paths = Ok r).
Proof.
  intros self o image_paths. split; [| split].
  - intros ->. reflexivity.
  - intros Hne Hc. unfold predict_patient.
    destruct image_paths as [| p rest]; [congruence|]. rewrite Hc. reflexivity.
  - intros Hc. destruct (final_diagnosis_spec _ Hc) as (d & Hd & _).
    eexists. apply predict_patient_ok; eassumption.
Qed.

Lemma predict_patient_errors_witness :
  ["in/b.png"] <> [] /\
  collect Examples.available MoreExamples.silent 1 ["in/b.png"] = [] /\
  predict_patient Examples.available MoreExamples.silent ["in/b.png"]
  = Raised (Exception "No images were successfully processed").
Proof.
  assert (H1 : ["in/b.png"] <> []) by discriminate.
  assert (H2 : collect Examples.available MoreExamples.silent 1 ["in/b.png"] = [])
    by reflexivity.
  split; [exact H1|]. split; [exact H2|].
  exact (proj1 (proj2 (predict_patient_errors Examples.available MoreExamples.silent
                         ["in/b.png"])) H1 H2).
Defined.

Lemma collect_from (self : MRIPredictor) (o : Oracle) (i : nat) (paths : list string) :
  (List.length (collect self o i paths) <= List.length paths)%nat /\
  Forall (fun ip =>
            (i <= image_index ip < i + List.length paths)%nat /\
            image_path ip = basename (nth (image_index ip - i) paths "") /\
            predict_single_image self o (image_index ip)
                                 (nth (image_index ip - i) paths "")
            = Some (source ip, prediction ip))
         (collect self o i paths) /\
  StronglySorted lt (map image_index (collect self o i paths)).
Proof.
  revert i. induction paths as [| p rest IH]; intros i.
  - simpl. repeat split; constructor.
  - destruct (IH (S i)) as (Hlen & Hall & Hsort).
    assert (Hall' : Forall (fun ip =>
              (i <= image_index ip < i + List.length (p :: rest))%nat /\
              image_path ip = basename (nth (image_index ip - i) (p :: rest) "") /\
              predict_single_image self o (image_index ip)
                                   (nth (image_index ip - i) (p :: rest) "")
              = Some (source ip, prediction ip))
            (collect self o (S i) rest)).
    { eapply Forall_impl; [| exact Hall]. intros ip (Hr & Hp & Hs).
      cbn [List.length].
      replace (image_index ip - i)%nat with (S (image_index ip - S i)) by lia.
      cbn [nth]. repeat split; try lia; assumption. }
    cbn [collect].
    destruct (predict_single_image self o i p) as [[s q] |] eqn:E.
    + split; [simpl; lia|]. split.
      * constructor; [| exact Hall'].
        cbn [image_index image_path source prediction List.length].
        rewrite Nat.sub_diag. cbn [nth]. repeat split; try lia; try reflexivity. exact E.
      * cbn [map image_index]. constructor; [exact Hsort|].
        rewrite Forall_map. eapply Forall_impl; [| exact Hall].
        intros ip (Hr & _). cbn beta. lia.
    + split; [simpl; lia|]. split; [exact Hall' | exact Hsort].
Qed.

(** X2.  The entries [predict_patient] keeps are numbered by the position
    of their slice in the input, counted from 1, also when slices in
    between were skipped: the numbers increase strictly, each entry names
    the base name of the path at its number and holds what
    [predict_single_image] answered for that path; there are at most as
    many entries as paths. *)
Theorem collect_keeps_positions :
  forall (self : MRIPredictor) (o : Oracle) (image_paths : list string),
    let preds := collect self o 1 image_paths in
    (List.length preds <= List.length image_paths)%nat /\
    Forall (fun ip =>
              (1 <= image_index ip <= List.length image_paths)%nat /\
              image_path ip = basename (nth (image_index ip - 1) image_paths "") /\
              predict_single_image self o (image_index ip)
                                   (nth (image_index ip - 1) image_paths "")
              = Some (source ip, prediction ip))
           preds /\
    StronglySorted lt (map image_index preds).
Proof.
  intros self o image_paths preds.
  destruct (collect_from self o 1 image_paths) as (Hlen & Hall & Hsort).
  split; [exact Hlen|]. split; [| exact Hsort].
  eapply Forall_impl; [| exact Hall].
  intros ip (Hr & Hp & Hs). repeat split; try lia; assumption.
Qed.

(** X3.  In a result of [predict_patient] the number of images processed
    is the number of entries kept, it does not exceed the number of paths,
    and the vote counts of the distribution add up to it: every vote is
    counted once, under a class of the vocabulary. *)
Theorem vote_counts_add_up :
  forall (self : MRIPredictor) (o : Oracle) (image_paths : list string),
    collect self o 1 image_paths <> [] ->
    exists r,
      predict_patient self o image_paths = Ok r /\
      total_images_processed r = List.length (individual_predictions r) /\
      (1 <= total_images_processed r <= List.length image_paths)%nat /\
      fold_right Nat.add 0%nat (map (fun ce => count (snd ce)) (r_vote_distribution r))
      = total_images_processed r.
Proof.
  intros self o image_paths Hne.
  destruct (final_diagnosis_spec _ Hne) as (d & Hd & _).
  eexists. split; [apply predict_patient_ok; eassumption|].
  cbn [total_images_processed individual_predictions r_vote_distribution].
  set (preds := collect self o 1 image_paths) in *.
  assert (Hl : List.length (predicted_classes preds) = List.length preds)
    by (unfold predicted_classes; apply length_map).
  destruct (collect_from self o 1 image_paths) as (Hlen & _). fold preds in Hlen.
  split; [exact Hl|]. split.
  - rewrite Hl. split; [| exact Hlen]. destruct preds; [congruence | simpl; lia].
  - unfold vote_distribution, class_names. cbn [map fold_right snd count].
    rewrite !votes_count.
    pose proof (counts_cover _ (collect_classes self o 1 image_paths)) as Hsum.
    fold preds in Hsum. lia.
Qed.

Lemma vote_counts_add_up_witness :
  collect Examples.available MoreExamples.gaps 1 ["in/a.png"; "in/b.png"; "in/c.png"] <> [] /\
  exists r,
    predict_patient Examples.available MoreExamples.gaps
                    ["in/a.png"; "in/b.png"; "in/c.png"] = Ok r /\
    total_images_processed r = 2%nat /\
    map image_index (individual_predictions r) = [1%nat; 3%nat].
Proof.
  assert (H : collect Examples.available MoreExamples.gaps 1
                ["in/a.png"; "in/b.png"; "in/c.png"] <> [])
    by (vm_compute; discriminate).
  split; [exact H|].
  destruct (vote_counts_add_up _ _ _ H) as (r & Hr & _).
  exists r. split; [exact Hr|].
  vm_compute in Hr. injection Hr as <-. split; reflexivity.
Defined.

Lemma single_prediction_range (self : MRIPredictor) (o : Oracle) (i : nat)
    (path : string) (s : Source) (p : Prediction) :
  (forall q out, forward o q = Some out -> 0 <= top_prob out <= 1) ->
  (forall j r probs, mock_sample o j = Some (r, probs) ->
     Forall (fun q => 0 <= q <= 1) probs) ->
  predict_single_image self o i path = Some (s, p) ->
  0 <= confidence p <= 100.
Proof.
  intros Hreal Hmock.
  assert (Hm : forall q, mock_prediction o i = Some q -> 0 <= confidence q <= 100).
  { intros q. unfold mock_prediction.
    destruct (mock_sample o i) as [[r probs] |] eqn:E; [| discriminate].
    intros H. injection H as <-. cbn [confidence].
    assert (Hq : 0 <= qmax_list probs <= 1).
    { apply qmax_list_bounds; [lra | exact (Hmock _ _ _ E)]. }
    apply (py_round_between 0 100). change (inject_Z 0) with 0.
    change (inject_Z 100) with 100. lra. }
  assert (Hr : forall q, real_prediction o path = Some q -> 0 <= confidence q <= 100).
  { intros q. unfold real_prediction.
    destruct (forward o path) as [out |] eqn:E; [| discriminate].
    destruct (nth_error class_names (top_class out)); [| discriminate].
    intros H. injection H as <-. cbn [confidence].
    pose proof (Hreal _ _ E) as Ht.
    apply (py_round_between 0 100). change (inject_Z 0) with 0.
    change (inject_Z 100) with 100. lra. }
  unfold predict_single_image, tagged.
  destruct (negb (is_available self)).
  - destruct (mock_prediction o i) as [q |] eqn:E; cbn [option_map]; [| discriminate].
    intros H. injection H as _ <-. apply Hm. reflexivity.
  - destruct (real_prediction o path) as [q |] eqn:E.
    + intros H. injection H as _ <-. apply Hr. reflexivity.
    + destruct (mock_prediction o i) as [q |] eqn:E'; cbn [option_map]; [| discriminate].
      intros H. injection H as _ <-. apply Hm. reflexivity.
Qed.

Lemma mean_range (cs : list Q) :
  cs <> [] -> Forall (fun q => 0 <= q <= 100) cs -> 0 <= np_mean cs <= 100.
Proof.
  intros Hne Hall. pose proof (qsum_bounds _ _ _ Hall) as [H1 H2].
  assert (Hpos : 0 < of_nat (List.length cs)).
  { apply of_nat_pos. destruct cs; [congruence | simpl; lia]. }
  unfold np_mean. fold (of_nat (List.length cs)). split.
  - apply Qle_shift_div_l; [exact Hpos | lra].
  - apply Qle_shift_div_r; [exact Hpos | lra].
Qed.

(** X4.  When the network's top probability and the stand-in generator's
    samples are probabilities (between 0 and 1), every figure of the result
    of [predict_patient] that is a percentage lies between 0 and 100: the
    confidence of each slice, the mean confidence and the consensus
    strength; rounding never pushes one outside. *)
Theorem percentages_in_range :
  forall (self : MRIPredictor) (o : Oracle) (image_paths : list string),
    (forall q out, forward o q = Some out -> 0 <= top_prob out <= 1) ->
    (forall j r probs, mock_sample o j = Some (r, probs) ->
       Forall (fun q => 0 <= q <= 1) probs) ->
    collect self o 1 image_paths <> [] ->
    exists r,
      predict_patient self o image_paths = Ok r /\
      Forall (fun ip => 0 <= confidence (prediction ip) <= 100)
             (individual_predictions r) /\
      0 <= r_confidence r <= 100 /\
      0 <= r_consensus_strength r <= 100.
Proof.
  intros self o image_paths Hreal Hmock Hne.
  destruct (final_diagnosis_spec _ Hne) as (d & Hd & Hin & Hmax & _).
  eexists. split; [apply predict_patient_ok; eassumption|].
  cbn [individual_predictions r_confidence r_consensus_strength].
  set (preds := collect self o 1 image_paths) in *.
  assert (Hall : Forall (fun ip => 0 <= confidence (prediction ip) <= 100) preds).
  { destruct (collect_from self o 1 image_paths) as (_ & Hc & _). fold preds in Hc.
    eapply Forall_impl; [| exact Hc]. intros ip (_ & _ & Hs).
    exact (single_prediction_range _ _ _ _ _ _ Hreal Hmock Hs). }
  split; [exact Hall|]. split.
  - apply (py_round_between 0 100). change (inject_Z 0) with 0.
    change (inject_Z 100) with 100.
    unfold avg_confidence.
    destruct (confidences_for_final preds d) as [| c cs] eqn:E; [lra|].
    apply mean_range; [discriminate|]. rewrite <- E. unfold confidences_for_final.
    rewrite Forall_map. apply Forall_forall. intros ip Hip.
    apply filter_In in Hip. destruct Hip as [Hip _].
    rewrite Forall_forall in Hall. exact (Hall ip Hip).
  - apply (py_round_between 0 100). change (inject_Z 0) with 0.
    change (inject_Z 100) with 100.
    unfold consensus_strength, votes_for_final. rewrite votes_count.
    set (cls := predicted_classes preds) in *.
    assert (Hv : (count_occ string_dec cls d <= List.length cls)%nat)
      by apply count_occ_bound.
    assert (Hpos : 0 < of_nat (List.length cls)).
    { apply of_nat_pos. destruct cls; [contradiction | simpl; lia]. }
    assert (H0 : 0 <= of_nat (count_occ string_dec cls d)).
    { unfold of_nat. change 0 with (inject_Z 0). rewrite <- Zle_Qle. lia. }
    assert (H1 : of_nat (count_occ string_dec cls d) <= of_nat (List.length cls)).
    { unfold of_nat. rewrite <- Zle_Qle. lia. }
    assert (Ha : 0 <= of_nat (count_occ string_dec cls d) / of_nat (List.length cls))
      by (apply Qle_shift_div_l; [exact Hpos | lra]).
    assert (Hb : of_nat (count_occ string_dec cls d) / of_nat (List.length cls) <= 1)
      by (apply Qle_shift_div_r; [exact Hpos | lra]).
    lra.
Qed.

Lemma percentages_in_range_witness :
  (forall q out, forward Examples.three_slices q = Some out -> 0 <= top_prob out <= 1) /\
  (forall j r probs, mock_sample Examples.three_slices j = Some (r, probs) ->
     Forall (fun q => 0 <= q <= 1) probs) /\
  collect Examples.available Examples.three_slices 1 Examples.three_paths <> [] /\
  exists r,
    predict_patient Examples.available Examples.three_slices Examples.three_paths = Ok r /\
    0 <= r_confidence r <= 100.
Proof.
  assert (H1 : forall q out, forward Examples.three_slices q = Some out ->
                 0 <= top_prob out <= 1).
  { intros q out. unfold Examples.three_slices, forward.
    destruct (String.eqb q "s1.png"); [intros H; injection H as <-; split; discriminate|].
    destruct (String.eqb q "s2.png"); [intros H; injection H as <-; split; discriminate|].
    destruct (String.eqb q "s3.png"); [intros H; injection H as <-; split; discriminate|].
    discriminate. }
  assert (H2 : forall j r probs, mock_sample Examples.three_slices j = Some (r, probs) ->
                 Forall (fun q => 0 <= q <= 1) probs).
  { intros j r probs H. injection H as _ <-. repeat constructor; discriminate. }
  assert (H3 : collect Examples.available Examples.three_slices 1 Examples.three_paths <> [])
    by (vm_compute; discriminate).
  split; [exact H1|]. split; [exact H2|]. split; [exact H3|].
  destruct (percentages_in_range _ _ _ H1 H2 H3) as (r & Hr & _ & Hc & _).
  exists r. split; [exact Hr | exact Hc].
Defined.

End PredictorExtras.

(** ** The model runner: its response *)

Section RunnerExtras.
Import Config MlRunner PyNumFacts RoundingFacts RunnerVocabulary.

Lemma index_of_spec (x : string) (l : list string) :
  match index_of x l with
  | Some i => (i < List.length l)%nat /\ nth i l "" = x /\
              forall j, (j < i)%nat -> nth j l "" <> x
  | None => ~ In x l
  end.
Proof.
  induction l as [| y l IH]; simpl.
  - tauto.
  - destruct (String.eqb_spec x y) as [-> | Hxy].
    + split; [lia|]. split; [reflexivity|]. intros j Hj. lia.
    + destruct (index_of x l) as [i |]; simpl.
      * destruct IH as (Hi & Hn & Hfirst). split; [lia|]. split; [exact Hn|].
        intros [| j] Hj; [intros E; apply Hxy; symmetry; exact E|].
        apply Hfirst. lia.
      * intros [H | H]; [apply Hxy; symmetry; exact H | exact (IH H)].
Qed.

Lemma qsum_one_hot (c r : Q) (idx a n : nat) :
  qsum (map (fun i => if Nat.eqb i idx then c else r) (seq a n))
  == if (a <=? idx)%nat && (idx <? a + n)%nat
     then c + of_nat (n - 1) * r
     else of_nat n * r.
Proof.
  revert a. induction n as [| n IH]; intros a.
  - cbn [seq map qsum fold_right].
    replace ((a <=? idx)%nat && (idx <? a + 0)%nat) with false.
    + change (of_nat 0) with 0. ring.
    + symmetry. apply andb_false_iff.
      destruct (Nat.leb_spec a idx); [right; apply Nat.ltb_ge; lia | left; reflexivity].
  - cbn [seq map qsum fold_right]. fold (qsum (map (fun i => if Nat.eqb i idx then c else r)
                                                   (seq (S a) n))).
    rewrite IH.
    assert (En : of_nat (S n) == of_nat n + 1).
    { change (S n) with (1 + n)%nat. rewrite of_nat_plus. change (of_nat 1) with 1. ring. }
    destruct (Nat.eqb_spec a idx) as [-> | Hne].
    + replace ((S idx <=? idx)%nat && (idx <? S idx + n)%nat) with false
        by (symmetry; apply andb_false_iff; left; apply Nat.leb_gt; lia).
      replace ((idx <=? idx)%nat && (idx <? idx + S n)%nat) with true
        by (symmetry; apply andb_true_iff; split;
            [apply Nat.leb_le; lia | apply Nat.ltb_lt; lia]).
      replace (S n - 1)%nat with n by lia. ring.
    + destruct (Nat.leb_spec (S a) idx) as [H1 | H1];
        destruct (Nat.ltb_spec idx (S a + n)) as [H2 | H2];
        destruct (Nat.leb_spec a idx) as [H3 | H3];
        destruct (Nat.ltb_spec idx (a + S n)) as [H4 | H4];
        cbn [andb]; try lia; try (rewrite En; ring).
      destruct n as [| n']; [lia|].
      replace (S (S n') - 1)%nat with (S n') by lia.
      replace (S n' - 1)%nat with n' by lia.
      assert (En' : of_nat (S n') == of_nat n' + 1).
      { change (S n') with (1 + n')%nat. rewrite of_nat_plus.
        change (of_nat 1) with 1. ring. }
      rewrite En'. ring.
Qed.

Lemma nth_map_seq (f : nat -> Q) (n j : nat) (d : Q) :
  (j < n)%nat -> nth j (map f (seq 0 n)) d = f j.
Proof.
  intros Hj.
  rewrite (nth_indep _ d (f 0%nat)) by (rewrite length_map, length_seq; exact Hj).
  rewrite (map_nth f (seq 0 n) 0%nat j). rewrite seq_nth by exact Hj. reflexivity.
Qed.

(** X5.  The probability list of the response has one entry per class.
    If the diagnosis is not a class of the analysis type (MCI under
    [ad-only]), every entry is zero, whatever the confidence.  Otherwise
    the first position of the diagnosis holds the confidence, every other
    position holds the same share of the remainder, and with at least two
    classes the entries add up to 1. *)
Theorem format_probabilities_spec :
  forall (cls : list string) (label : string) (conf : Q),
    let ps := format_probabilities cls label conf in
    List.length ps = List.length cls /\
    (~ In label cls -> ps = map (fun _ => 0) cls) /\
    (In label cls ->
       exists idx,
         index_of label cls = Some idx /\ (idx < List.length cls)%nat /\
         nth idx cls "" = label /\
         nth idx ps 0 = conf /\
         (forall j, (j < List.length cls)%nat -> j <> idx ->
            nth j ps 0
            = if (1 <? List.length cls)%nat
              then (1 - conf) / of_nat (List.length cls - 1) else 0) /\
         ((2 <= List.length cls)%nat -> qsum ps == 1)).
Proof.
  intros cls label conf ps. unfold ps, format_probabilities.
  pose proof (index_of_spec label cls) as Hspec.
  destruct (index_of label cls) as [idx |].
  - destruct Hspec as (Hi & Hn & _).
    split; [rewrite length_map, length_seq; reflexivity|].
    split; [intros Hnot; exfalso; apply Hnot; rewrite <- Hn; apply nth_In; exact Hi|].
    intros _. exists idx. split; [reflexivity|]. split; [exact Hi|]. split; [exact Hn|].
    set (rem := if (1 <? List.length cls)%nat
                then (1 - conf) / of_nat (List.length cls - 1) else 0).
    assert (Hnth : forall j, (j < List.length cls)%nat ->
              nth j (map (fun i => if Nat.eqb i idx then conf else rem)
                         (seq 0 (List.length cls))) 0
              = if Nat.eqb j idx then conf else rem).
    { intros j Hj. apply nth_map_seq. exact Hj. }
    split; [rewrite (Hnth idx Hi), Nat.eqb_refl; reflexivity|]. split.
    + intros j Hj Hne. rewrite (Hnth j Hj).
      destruct (Nat.eqb_spec j idx); [contradiction | reflexivity].
    + intros H2. rewrite qsum_one_hot.
      replace ((0 <=? idx)%nat && (idx <? 0 + List.length cls)%nat) with true
        by (symmetry; apply andb_true_iff; split;
            [apply Nat.leb_le; lia | apply Nat.ltb_lt; lia]).
      unfold rem.
      replace (1 <? List.length cls)%nat with true by (symmetry; apply Nat.ltb_lt; lia).
      assert (Hpos : 0 < of_nat (List.length cls - 1)) by (apply of_nat_pos; lia).
      field. lra.
  - split; [apply length_map|]. split; [reflexivity|].
    intros Hin. contradiction.
Qed.

Lemma format_probabilities_spec_witness :
  ~ In "MCI" ["CN"; "AD"] /\
  In "AD" ["CN"; "AD"] /\
  format_probabilities ["CN"; "AD"] "MCI" (8 # 10) = [0; 0] /\
  exists idx, index_of "AD" ["CN"; "AD"] = Some idx /\
              nth idx (format_probabilities ["CN"; "AD"] "AD" (8 # 10)) 0 = 8 # 10.
Proof.
  assert (H1 : ~ In "MCI" ["CN"; "AD"]) by (intros [H | [H | []]]; discriminate).
  assert (H2 : In "AD" ["CN"; "AD"]) by (right; left; reflexivity).
  split; [exact H1|]. split; [exact H2|]. split.
  - exact (proj1 (proj2 (format_probabilities_spec ["CN"; "AD"] "MCI" (8 # 10))) H1).
  - destruct (proj2 (proj2 (format_probabilities_spec ["CN"; "AD"] "AD" (8 # 10))) H2)
      as (idx & Hi & _ & _ & Hc & _).
    exists idx. split; [exact Hi | exact Hc].
Defined.

Lemma compare_value_ok (value : Q) (norm : Norm) :
  0 < nmin norm -> nmin norm <= nmax norm ->
  exists c, compare_value value norm = Ok c /\ plausible c /\
            c_status c = status_of value norm /\ measured c = value.
Proof.
  intros Hmin Hle.
  assert (Hmid : 0 < (nmin norm + nmax norm) / 2) by (apply Qlt_shift_div_l; lra).
  assert (Hn1 : ~ nmin norm == 0) by lra.
  assert (Hn2 : ~ nmax norm == 0) by lra.
  assert (Hn3 : ~ (nmin norm + nmax norm) / 2 == 0) by lra.
  assert (Hdev : exists dev, deviation value norm = Ok dev).
  { unfold deviation.
    destruct (Qlt_bool value (nmin norm)); [rewrite (py_div_ok _ _ Hn1); eexists; reflexivity|].
    destruct (Qlt_bool (nmax norm) value); [rewrite (py_div_ok _ _ Hn2); eexists; reflexivity|].
    rewrite (py_div_ok _ _ Hn3). eexists. reflexivity. }
  destruct Hdev as (dev & Hdev). unfold compare_value. rewrite Hdev.
  eexists. split; [reflexivity|]. cbn [c_status measured]. split; [| split; reflexivity].
  split; cbn [deviation_percent c_status].
  - rewrite <- (py_round_Z 0 1). apply py_round_mono. apply Qabs_nonneg.
  - unfold status_of. destruct (Qlt_bool value (nmin norm)); [simpl; auto|].
    destruct (Qlt_bool (nmax norm) value); simpl; auto.
Qed.

Lemma compare_all_ok (ms : list (string * (option Q * Norm))) :
  Forall (fun m => 0 < nmin (snd (snd m)) /\ nmin (snd (snd m)) <= nmax (snd (snd m))) ms ->
  exists cs,
    compare_all ms = Ok cs /\
    map fst cs = map fst (filter has_value ms) /\
    Forall (fun nc => plausible (snd nc)) cs.
Proof.
  induction 1 as [| [name [[value |] norm]] ms [H1 H2] _ (cs & E & Hk & Hp)].
  - exists []. repeat split; constructor.
  - cbn [snd] in H1, H2.
    destruct (compare_value_ok value norm H1 H2) as (c & Ec & Hc & _).
    exists ((name, c) :: cs). cbn [compare_all]. rewrite Ec, E.
    split; [reflexivity|]. split.
    + unfold has_value at 1. cbn [filter fst snd map]. rewrite Hk. reflexivity.
    + constructor; assumption.
  - exists cs. cbn [compare_all]. split; [exact E|]. split; [| exact Hp].
    unfold has_value at 1. cbn [filter fst snd]. exact Hk.
Qed.

Lemma volume_mappings_norms (ml_results : MlResults) :
  Forall (fun m => 0 < nmin (snd (snd m)) /\ nmin (snd (snd m)) <= nmax (snd (snd m)))
         (volume_mappings ml_results).
Proof.
  unfold volume_mappings.
  repeat constructor; cbn [snd]; vm_compute; congruence.
Qed.

(** X6.  [get_volume_comparison] never raises, whatever the response: no
    bound of the configured ranges is zero.  It answers one entry for each
    of the five volumes it looks at that is present, in their fixed order,
    and none for a volume that is [None] or for the ventricles; every
    deviation it reports is non-negative and every status one of the three
    labels. *)
Theorem get_volume_comparison_total :
  forall ml_results : MlResults,
    exists cs,
      get_volume_comparison ml_results = Ok cs /\
      map fst cs = map fst (filter has_value (volume_mappings ml_results)) /\
      incl (map fst cs)
           ["total_brain"; "gray_matter"; "white_matter"; "csf"; "hippocampus"] /\
      ~ In "ventricles" (map fst cs) /\
      Forall (fun nc => plausible (snd nc)) cs.
Proof.
  intros ml_results.
  destruct (compare_all_ok _ (volume_mappings_norms ml_results)) as (cs & E & Hk & Hp).
  exists cs. split; [exact E|]. split; [exact Hk|].
  assert (Hincl : incl (map fst cs)
            ["total_brain"; "gray_matter"; "white_matter"; "csf"; "hippocampus"]).
  { rewrite Hk. intros n Hn. apply in_map_iff in Hn. destruct Hn as (m & <- & Hm).
    apply filter_In in Hm. destruct Hm as [Hm _].
    unfold volume_mappings in Hm. simpl in Hm.
    repeat (destruct Hm as [<- | Hm]; [simpl; auto 10|]). contradiction. }
  split; [exact Hincl|]. split; [| exact Hp].
  intros Hv. apply Hincl in Hv. simpl in Hv.
  repeat (destruct Hv as [Hv | Hv]; [discriminate|]). contradiction.
Qed.

Lemma estimate_compares_normal (label : string) (base : MlResults) :
  let v := generate_consistent_volumes label in
  brain_volume base = Some (Volumetric.brain v) ->
  gm_volume base = Some (Volumetric.gm v) ->
  wm_volume base = Some (Volumetric.wm v) ->
  csf_volume base = Some (Volumetric.csf v) ->
  hippocampal_volume base = Some (Volumetric.hippo v) ->
  exists cs, get_volume_comparison base = Ok cs /\ all_normal cs.
Proof.
  intros v H1 H2 H3 H4 H5. unfold get_volume_comparison, volume_mappings.
  rewrite H1, H2, H3, H4, H5. unfold v, generate_consistent_volumes, factor_of.
  cbn [Volumetric.brain Volumetric.gm Volumetric.wm Volumetric.csf Volumetric.hippo].
  destruct (String.eqb label "AD"); [| destruct (String.eqb label "MCI")];
    eexists; (split; [vm_compute; reflexivity | reflexivity]).
Qed.

Lemma mock_estimate_compares_normal (label : string) (base : MlResults) :
  let v := generate_mock_volumes label in
  brain_volume base = Some (Volumetric.brain v) ->
  gm_volume base = Some (Volumetric.gm v) ->
  wm_volume base = Some (Volumetric.wm v) ->
  csf_volume base = Some (Volumetric.csf v) ->
  hippocampal_volume base = Some (Volumetric.hippo v) ->
  exists cs, get_volume_comparison base = Ok cs /\ all_normal cs.
Proof.
  intros v H1 H2 H3 H4 H5. unfold get_volume_comparison, volume_mappings.
  rewrite H1, H2, H3, H4, H5.
  unfold v, generate_mock_volumes, generate_consistent_volumes, factor_of.
  cbn [Volumetric.brain Volumetric.gm Volumetric.wm Volumetric.csf Volumetric.hippo].
  destruct (String.eqb label "AD"); [| destruct (String.eqb label "MCI")];
    eexists; (split; [vm_compute; reflexivity | reflexivity]).
Qed.

(** X7.  The volumes that are estimated from the label, not measured,
    never look abnormal: whatever the diagnosis, AD included, the five
    compared volumes of a stand-in run, and those of a real run whose
    volumes come from [_generate_consistent_volumes], all compare as
    [Normal]. *)
Theorem estimated_volumes_compare_normal :
  (forall (d : MockDraw) (atype : string),
     exists cs, get_volume_comparison (run_model_mock d atype) = Ok cs /\ all_normal cs) /\
  (forall (env : Env) (atype processed_path : string) (used : bool)
          (r : Predictor.PatientResult) (t : list event) (v : Volumetric.Volumes),
     volumes_stage env processed_path (Predictor.patient_diagnosis r) = (t, v) ->
     In EvVolumeEstimate t ->
     exists cs,
       get_volume_comparison (success_response env atype processed_path used r v) = Ok cs /\
       all_normal cs).
Proof.
  split.
  - intros d atype. unfold run_model_mock.
    eapply mock_estimate_compares_normal; reflexivity.
  - intros env atype processed_path used r t v Hv Hin.
    assert (E : v = generate_consistent_volumes (Predictor.patient_diagnosis r)).
    { unfold volumes_stage in Hv.
      destruct (Path.contains "mwp1" (Predictor.basename processed_path)).
      - destruct (Volumetric.extract_volumes_from_nifti _ _ _).
        + injection Hv as <- <-. simpl in Hin. destruct Hin as [H | []]. discriminate H.
        + injection Hv as _ <-. reflexivity.
      - injection Hv as _ <-. reflexivity. }
    subst v. eapply estimate_compares_normal; reflexivity.
Qed.

Lemma estimated_volumes_compare_normal_witness :
  MlRunner.volumes_stage (Examples.ml_env Examples.readable) "uploads/s1_scan.nii"
                         (Predictor.patient_diagnosis MoreExamples.ad_result)
  = ([EvVolumeEstimate], generate_consistent_volumes "AD") /\
  In EvVolumeEstimate [EvVolumeEstimate] /\
  exists cs,
    get_volume_comparison
      (success_response (Examples.ml_env Examples.readable) "multi-disease"
         "uploads/s1_scan.nii" false MoreExamples.ad_result
         (generate_consistent_volumes "AD")) = Ok cs /\
    all_normal cs.
Proof.
  assert (H1 : MlRunner.volumes_stage (Examples.ml_env Examples.readable)
                 "uploads/s1_scan.nii"
                 (Predictor.patient_diagnosis MoreExamples.ad_result)
               = ([EvVolumeEstimate], generate_consistent_volumes "AD")) by reflexivity.
  assert (H2 : In EvVolumeEstimate [EvVolumeEstimate]) by (left; reflexivity).
  split; [exact H1|]. split; [exact H2|].
  exact (proj2 estimated_volumes_compare_normal (Examples.ml_env Examples.readable)
           "multi-disease" "uploads/s1_scan.nii" false MoreExamples.ad_result _ _ H1 H2).
Defined.

(** *** What escapes [run_model], and how it marks an error *)

Lemma analysis_classes (atype : string) :
  Predictor.dict_get ANALYSIS_TYPES atype DEFAULT_CLASSES = ["CN"; "MCI"; "AD"] \/
  Predictor.dict_get ANALYSIS_TYPES atype DEFAULT_CLASSES = ["CN"; "AD"].
Proof.
  unfold ANALYSIS_TYPES, DEFAULT_CLASSES. cbn [Predictor.dict_get].
  destruct (String.eqb atype "multi-disease"); [left; reflexivity|].
  destruct (String.eqb atype "ad-only"); [right | left]; reflexivity.
Qed.

Lemma argmax_from_spec (l : list Q) (bi : nat) (b : Q) (i : nat) :
  let j := argmax_from bi b i l in
  let m := fold_left (fun m y => if Qle_bool y m then m else y) l b in
  (j = bi /\ m = b) \/
  ((i <= j < i + List.length l)%nat /\ nth (j - i) l 0 = m).
Proof.
  revert bi b i. induction l as [| x r IH]; intros bi b i; cbn [argmax_from fold_left].
  - left. split; reflexivity.
  - destruct (Qle_bool x b).
    + destruct (IH bi b (S i)) as [H | [Hr Hn]]; [left; exact H|].
      right. cbn [List.length]. split; [lia|].
      replace (argmax_from bi b (S i) r - i)%nat
        with (S (argmax_from bi b (S i) r - S i)) by lia.
      exact Hn.
    + destruct (IH i x (S i)) as [[Hj Hm] | [Hr Hn]].
      * right. cbn [List.length]. rewrite Hj, Hm, Nat.sub_diag. split; [lia | reflexivity].
      * right. cbn [List.length]. split; [lia|].
        replace (argmax_from i x (S i) r - i)%nat
          with (S (argmax_from i x (S i) r - S i)) by lia.
        exact Hn.
Qed.

(** [np.argmax] points at [max]. *)
Lemma np_argmax_spec (l : list Q) :
  l <> [] -> (np_argmax l < List.length l)%nat /\ nth (np_argmax l) l 0 = qmax_list l.
Proof.
  destruct l as [| x r]; [congruence|]. intros _. cbn [np_argmax qmax_list List.length].
  destruct (argmax_from_spec r 0 x 1) as [[Hj Hm] | [Hr Hn]].
  - rewrite Hj, Hm. split; [lia | reflexivity].
  - split; [lia|].
    replace (argmax_from 0 x 1 r) with (S (argmax_from 0 x 1 r - 1)) at 1 by lia.
    exact Hn.
Qed.

Lemma fold_max_upper (l : list Q) (b : Q) :
  b <= fold_left (fun m y => if Qle_bool y m then m else y) l b /\
  forall y, In y l -> y <= fold_left (fun m y => if Qle_bool y m then m else y) l b.
Proof.
  revert b. induction l as [| x r IH]; intros b; cbn [fold_left].
  - split; [apply Qle_refl | intros y []].
  - destruct (Qle_bool x b) eqn:E.
    + apply Qle_bool_iff in E. destruct (IH b) as [Hb Hr]. split; [exact Hb|].
      intros y [<- | Hy]; [apply Qle_trans with b; assumption | apply Hr; exact Hy].
    + assert (Hlt : b <= x).
      { destruct (Qlt_le_dec b x) as [H | H]; [apply Qlt_le_weak; exact H|].
        apply Qle_bool_iff in H. congruence. }
      destruct (IH x) as [Hx Hr]. split; [apply Qle_trans with x; assumption|].
      intros y [<- | Hy]; [exact Hx | apply Hr; exact Hy].
Qed.

Lemma qmax_list_upper (l : list Q) (y : Q) : In y l -> y <= qmax_list l.
Proof.
  destruct l as [| x r]; [intros []|]. cbn [qmax_list].
  destruct (fold_max_upper r x) as [Hx Hr].
  intros [<- | Hy]; [exact Hx | apply Hr; exact Hy].
Qed.

Lemma predict_patient_diagnosis (self : Predictor.MRIPredictor) (o : Predictor.Oracle)
    (paths : list string) (r : Predictor.PatientResult) :
  Predictor.predict_patient self o paths = Ok r ->
  In (Predictor.patient_diagnosis r) Predictor.class_names.
Proof.
  intros H.
  destruct (Predictor.collect self o 1 paths) as [| ip rest] eqn:Ec.
  - exfalso. unfold Predictor.predict_patient in H.
    destruct paths; [discriminate|]. rewrite Ec in H. discriminate.
  - assert (Hne : Predictor.collect self o 1 paths <> []) by (rewrite Ec; discriminate).
    destruct (PredictorFacts.final_diagnosis_spec _ Hne) as (d & Hd & Hin & _).
    rewrite (PredictorFacts.predict_patient_ok self o paths d Hne Hd) in H.
    injection H as <-. cbn [Predictor.patient_diagnosis].
    pose proof (PredictorFacts.collect_classes self o 1 paths) as Hall.
    rewrite Forall_forall in Hall. apply Hall. exact Hin.
Qed.

Lemma mock_prediction_in_classes (d : MockDraw) (atype : string) :
  In (prediction (run_model_mock d atype)) ["CN"; "MCI"; "AD"].
Proof.
  unfold run_model_mock. cbn [prediction].
  set (cls := Predictor.dict_get ANALYSIS_TYPES atype DEFAULT_CLASSES).
  set (probs := map _ (map (raw_prob d) (seq 0 (List.length cls)))).
  assert (Hlen : List.length probs = List.length cls).
  { unfold probs. rewrite !length_map, length_seq. reflexivity. }
  assert (Hcls : cls <> [] /\ incl cls ["CN"; "MCI"; "AD"]).
  { unfold cls. destruct (analysis_classes atype) as [-> | ->];
      (split; [discriminate | intros x Hx; simpl in *; intuition]). }
  destruct Hcls as [Hne Hincl].
  assert (Hp : probs <> []).
  { intros E. rewrite E in Hlen. destruct cls; [congruence | discriminate]. }
  destruct (np_argmax_spec probs Hp) as [Hlt _].
  apply Hincl. apply nth_In. rewrite <- Hlen. exact Hlt.
Qed.

(** X8.  Of all that can fail inside [run_model], only an exception of the
    CAT12 driver escapes it: if [run_model] raises, preprocessing was
    switched on, the scan was not yet a mwp1 file, and it is the driver's
    exception that comes out, before any slice is extracted; and such an
    exception does come out unless the configuration asks for the stand-in
    model. *)
Theorem run_model_raises_only_from_cat12 :
  forall (env : Env) (scan_path atype : string) (e : exn),
    (forall t, run_model env scan_path atype = (t, Raised e) ->
       use_cat12 env = true /\
       Path.contains "mwp1" (Predictor.basename scan_path) = false /\
       cat12 env scan_path = Raised e /\
       t = [EvPreprocess]) /\
    (use_mock_model env && mock_importable env = false ->
     use_cat12 env = true ->
     Path.contains "mwp1" (Predictor.basename scan_path) = false ->
     cat12 env scan_path = Raised e ->
     run_model env scan_path atype = ([EvPreprocess], Raised e)).
Proof.
  intros env scan_path atype e. split.
  - intros t H.
    assert (Hp : preprocess env scan_path = (t, Raised e)).
    { unfold run_model in H.
      destruct (use_mock_model env && mock_importable env); [discriminate|].
      destruct (preprocess env scan_path) as [t1 [[processed_path used] | e1]].
      - destruct (slice_stage env processed_path) as [slice_paths | e2];
          [| discriminate].
        destruct (inference_stage env atype processed_path used slice_paths).
        discriminate.
      - injection H as <- <-. reflexivity. }
    unfold preprocess in Hp.
    destruct (use_cat12 env); [| discriminate].
    destruct (Path.contains "mwp1" (Predictor.basename scan_path)); [discriminate|].
    destruct (cat12 env scan_path) as [[f |] | e1].
    + destruct (Volumetric.truthy f && path_exists env f); discriminate.
    + discriminate.
    + injection Hp as <- <-. repeat split; reflexivity.
  - intros Hm Hc Hp He. unfold run_model, preprocess. rewrite Hm, Hc, Hp, He. reflexivity.
Qed.

Lemma run_model_raises_only_from_cat12_witness :
  run_model (MoreExamples.cat12_crashes) "uploads/s1_scan.nii" "multi-disease"
  = ([EvPreprocess], Raised (Exception "spm25.exe not found")).
Proof.
  apply (proj2 (run_model_raises_only_from_cat12 MoreExamples.cat12_crashes
                  "uploads/s1_scan.nii" "multi-disease"
                  (Exception "spm25.exe not found"))); reflexivity.
Defined.

Lemma inference_stage_shape (env : Env) (atype processed_path : string) (used : bool)
    (slice_paths : list string) :
  let r := snd (inference_stage env atype processed_path used slice_paths) in
  (exists msg, r = error_response msg) \/
  (status r = Some "success" /\ error_details r = None /\
   In (prediction r) ["AD"; "CN"; "MCI"]).
Proof.
  assert (Hmock : forall why,
            let r := snd (mock_fallback env atype why) in
            (exists msg, r = error_response msg) \/
            (status r = Some "success" /\ error_details r = None /\
             In (prediction r) ["AD"; "CN"; "MCI"])).
  { intros why. unfold mock_fallback. destruct (mock_importable env); cbn [snd].
    - right. split; [reflexivity|]. split; [reflexivity|].
      pose proof (mock_prediction_in_classes (mock_draw env) atype) as H.
      simpl in H. simpl. intuition.
    - left. eexists. reflexivity. }
  unfold inference_stage.
  destruct (negb (path_exists env CONVIT_CHECKPOINT_PATH)); [apply Hmock|].
  destruct (negb (Predictor.is_available (predictor env))); [apply Hmock|].
  destruct (Predictor.predict_patient (predictor env) (oracle env) slice_paths)
    as [r | e] eqn:E.
  - destruct (volumes_stage env processed_path (Predictor.patient_diagnosis r)) as [t v].
    cbn [snd]. right. unfold success_response. cbn [status error_details prediction].
    split; [reflexivity|]. split; [reflexivity|].
    exact (predict_patient_diagnosis _ _ _ _ E).
  - pose proof (Hmock (exn_msg e)) as H.
    destruct (mock_fallback env atype (exn_msg e)) as [t r]. exact H.
Qed.

(** X9.  A response of [run_model] is of one of two kinds, and the
    prediction tells which: either it is an error response, with prediction
    [Error], no [status] key and the error details, or it carries status
    [success], no error details and one of the three class labels as its
    prediction.  So a caller that tests [prediction == 'Error'] misses no
    failure and takes no success for one. *)
Theorem error_marker_is_reliable :
  forall (env : Env) (scan_path atype : string) (t : list event) (r : MlResults),
    run_model env scan_path atype = (t, Ok r) ->
    (prediction r = "Error" /\ status r = None /\
     exists msg, r = error_response msg) \/
    (prediction r <> "Error" /\ status r = Some "success" /\
     error_details r = None /\ In (prediction r) ["AD"; "CN"; "MCI"]).
Proof.
  intros env scan_path atype t r H.
  assert (Hkind : (exists msg, r = error_response msg) \/
                  (status r = Some "success" /\ error_details r = None /\
                   In (prediction r) ["AD"; "CN"; "MCI"])).
  { unfold run_model in H.
    destruct (use_mock_model env && mock_importable env).
    - injection H as _ <-. right. split; [reflexivity|]. split; [reflexivity|].
      pose proof (mock_prediction_in_classes (mock_draw env) atype) as Hc.
      simpl in Hc. simpl. intuition.
    - destruct (preprocess env scan_path) as [t1 [[processed_path used] | e]];
        [| discriminate].
      destruct (slice_stage env processed_path) as [slice_paths | e].
      + pose proof (inference_stage_shape env atype processed_path used slice_paths) as Hs.
        destruct (inference_stage env atype processed_path used slice_paths) as [t3 r3].
        injection H as _ <-. exact Hs.
      + injection H as _ <-. left. eexists. reflexivity. }
  destruct Hkind as [(msg & ->) | (Hs & He & Hp)].
  - left. split; [reflexivity|]. split; [reflexivity|]. exists msg. reflexivity.
  - right. split; [| auto].
    intros E. rewrite E in Hp. simpl in Hp.
    destruct Hp as [Hp | [Hp | [Hp | []]]]; discriminate.
Qed.

Lemma error_marker_is_reliable_witness :
  run_model (Examples.ml_env Examples.unreadable) "uploads/s1_scan.nii" "multi-disease"
  = ([EvPreprocess; EvSliceExtraction],
     Ok (error_response "Slice extraction failed: Slicer returned no images.")) /\
  (prediction (error_response "Slice extraction failed: Slicer returned no images.")
   = "Error" \/
   status (error_response "Slice extraction failed: Slicer returned no images.")
   = Some "success").
Proof.
  assert (H : run_model (Examples.ml_env Examples.unreadable) "uploads/s1_scan.nii"
                "multi-disease"
              = ([EvPreprocess; EvSliceExtraction],
                 Ok (error_response "Slice extraction failed: Slicer returned no images.")))
    by (vm_compute; reflexivity).
  split; [exact H|].
  destruct (error_marker_is_reliable _ _ _ _ _ H) as [(Hp & _) | (_ & Hs & _)];
    [left; exact Hp | right; exact Hs].
Defined.

(** *** The stand-in run *)

Lemma qsum_map_div (t : Q) (l : list Q) :
  ~ t == 0 -> qsum (map (fun p => p / t) l) == qsum l / t.
Proof.
  intros Ht. induction l as [| x l IH]; cbn [map qsum fold_right].
  - field. exact Ht.
  - fold (qsum (map (fun p => p / t) l)). fold (qsum l). rewrite IH. field. exact Ht.
Qed.

Lemma qsum_pos (l : list Q) :
  l <> [] -> Forall (fun q => 0 < q) l -> 0 < qsum l.
Proof.
  intros Hne H. induction H as [| x l Hx Hl IH]; [congruence|].
  cbn [qsum fold_right]. fold (qsum l).
  destruct l as [| y l'].
  - cbn [qsum fold_right]. lra.
  - assert (0 < qsum (y :: l')) by (apply IH; discriminate). lra.
Qed.

Lemma div_le_cancel (a b t : Q) : 0 < t -> a / t <= b / t -> a <= b.
Proof.
  intros Ht H.
  assert (E : forall x, x == x / t * t) by (intros x; field; lra).
  rewrite (E a), (E b). apply Qmult_le_compat_r; [exact H | lra].
Qed.

Lemma mock_probs_nth (d : MockDraw) (n k : nat) (t : Q) :
  (k < n)%nat ->
  nth k (map (fun p => p / t) (map (raw_prob d) (seq 0 n))) 0 = raw_prob d k / t.
Proof.
  intros Hk. rewrite map_map. apply (nth_map_seq (fun i => raw_prob d i / t)). exact Hk.
Qed.

(** X10.  When every draw is positive (the source draws from [0.05, 0.85]),
    the stand-in response carries a probability distribution over the
    classes of the analysis type: one positive probability per class, adding
    up to one; its confidence is the largest of them, and its prediction is
    the class at the position of that largest probability. *)
Theorem mock_run_is_distribution :
  forall (d : MockDraw) (atype : string),
    (forall i, 0 < raw_prob d i) ->
    let r := run_model_mock d atype in
    classes r = Predictor.dict_get ANALYSIS_TYPES atype DEFAULT_CLASSES /\
    List.length (probabilities r) = List.length (classes r) /\
    qsum (probabilities r) == 1 /\
    (forall p, In p (probabilities r) -> 0 < p /\ p <= confidence r) /\
    confidence r <= 1 /\
    exists j, (j < List.length (classes r))%nat /\
              prediction r = nth j (classes r) "" /\
              nth j (probabilities r) 0 = confidence r.
Proof.
  intros d atype Hpos. unfold run_model_mock.
  cbn [classes probabilities confidence prediction].
  set (cls := Predictor.dict_get ANALYSIS_TYPES atype DEFAULT_CLASSES).
  set (raw := map (raw_prob d) (seq 0 (List.length cls))).
  set (total := qsum raw).
  set (probs := map (fun p => p / total) raw).
  assert (Hcls : cls <> []).
  { unfold cls. destruct (analysis_classes atype) as [-> | ->]; discriminate. }
  assert (Hrawlen : List.length raw = List.length cls).
  { unfold raw. rewrite length_map, length_seq. reflexivity. }
  assert (Hlen : List.length probs = List.length cls).
  { unfold probs. rewrite length_map. exact Hrawlen. }
  assert (Hraw : Forall (fun q => 0 < q) raw).
  { unfold raw. apply Forall_forall. intros q Hq. apply in_map_iff in Hq.
    destruct Hq as (i & <- & _). apply Hpos. }
  assert (Hrawne : raw <> []).
  { intros E. rewrite E in Hrawlen. destruct cls; [congruence | discriminate]. }
  assert (Ht : 0 < total) by (apply qsum_pos; assumption).
  assert (Hne : probs <> []).
  { intros E. rewrite E in Hlen. destruct cls; [congruence | discriminate]. }
  assert (Hsum : qsum probs == 1).
  { unfold probs. rewrite qsum_map_div by lra. fold total. field. lra. }
  assert (Hall : forall p, In p probs -> 0 < p).
  { intros p Hp. unfold probs in Hp. apply in_map_iff in Hp.
    destruct Hp as (q & <- & Hq). rewrite Forall_forall in Hraw.
    apply Qlt_shift_div_l; [exact Ht|]. rewrite Qmult_0_l. apply Hraw. exact Hq. }
  destruct (np_argmax_spec probs Hne) as [Hlt Hmax].
  split; [reflexivity|]. split; [exact Hlen|]. split; [exact Hsum|].
  split; [| split].
  - intros p Hp. split; [apply Hall; exact Hp | apply qmax_list_upper; exact Hp].
  - assert (Hin : In (qmax_list probs) probs).
    { rewrite <- Hmax. apply nth_In. exact Hlt. }
    clear Hmax. revert Hin Hsum Hall. generalize (qmax_list probs) as m.
    clear. induction probs as [| x l IH]; intros m Hin Hsum Hall; [destruct Hin|].
    cbn [qsum fold_right] in Hsum. fold (qsum l) in Hsum.
    assert (H0 : 0 <= qsum l).
    { clear - Hall. induction l as [| y l IH]; cbn [qsum fold_right]; [lra|].
      fold (qsum l).
      assert (0 < y) by (apply Hall; right; left; reflexivity).
      assert (0 <= qsum l).
      { apply IH. intros p [<- | Hp]; apply Hall; [left | right; right]; auto. }
      lra. }
    assert (Hx : 0 < x) by (apply Hall; left; reflexivity).
    destruct Hin as [<- | Hin]; [lra|].
    assert (Hm : m <= qsum l).
    { clear - Hin Hall. induction l as [| y l IH]; [destruct Hin|].
      cbn [qsum fold_right]. fold (qsum l).
      assert (Hy : 0 < y) by (apply Hall; right; left; reflexivity).
      assert (H0 : 0 <= qsum l).
      { clear - Hall. induction l as [| z l IH]; cbn [qsum fold_right]; [lra|].
        fold (qsum l).
        assert (0 < z) by (apply Hall; right; right; left; reflexivity).
        assert (0 <= qsum l).
        { apply IH. intros p [<- | [<- | Hp]]; apply Hall;
            [left | right; left | right; right; right]; auto. }
        lra. }
      destruct Hin as [<- | Hin]; [lra|].
      assert (m <= qsum l).
      { apply IH; [exact Hin|]. intros p [<- | Hp]; apply Hall;
          [left | right; right]; auto. }
      lra. }
    lra.
  - exists (np_argmax probs). split; [rewrite <- Hlen; exact Hlt|].
    split; [reflexivity | exact Hmax].
Qed.

Lemma mock_run_is_distribution_witness :
  qsum (probabilities (run_model_mock (mock_draw MoreExamples.cat12_crashes)
                         "multi-disease")) == 1.
Proof.
  apply (mock_run_is_distribution (mock_draw MoreExamples.cat12_crashes) "multi-disease").
  intros i. cbn [mock_draw MoreExamples.cat12_crashes raw_prob].
  destruct (Nat.eqb i 0); reflexivity.
Defined.

(** X11.  With draws in the ranges of the source (the dominant class from
    [0.5, 0.85], every other class from [0.05, 0.25]) the stand-in run
    predicts the dominant class, with a confidence of at least one half. *)
Theorem mock_predicts_dominant_class :
  forall (d : MockDraw) (atype : string) (dominant_idx : nat),
    let cls := Predictor.dict_get ANALYSIS_TYPES atype DEFAULT_CLASSES in
    (dominant_idx < List.length cls)%nat ->
    (1 # 2) <= raw_prob d dominant_idx <= (85 # 100) ->
    (forall i, (i < List.length cls)%nat -> i <> dominant_idx ->
               (5 # 100) <= raw_prob d i <= (25 # 100)) ->
    prediction (run_model_mock d atype) = nth dominant_idx cls "" /\
    (1 # 2) <= confidence (run_model_mock d atype).
Proof.
  intros d atype j cls Hj Hdom Hoth. unfold run_model_mock.
  cbn [prediction confidence]. fold cls.
  set (raw := map (raw_prob d) (seq 0 (List.length cls))).
  set (total := qsum raw).
  set (probs := map (fun p => p / total) raw).
  assert (Hlen : List.length probs = List.length cls).
  { unfold probs, raw. rewrite !length_map, length_seq. reflexivity. }
  assert (Htot : 0 < total /\ total <= 2 * raw_prob d j).
  { unfold total, raw. clear probs total raw Hlen. revert Hj Hoth.
    unfold cls. destruct (analysis_classes atype) as [-> | ->];
      cbn [List.length seq map qsum fold_right]; intros Hj Hoth.
    - destruct j as [| [| [| j]]]; [| | | lia].
      + pose proof (Hoth 1%nat) as H1. pose proof (Hoth 2%nat) as H2.
        assert (A : 5 # 100 <= raw_prob d 1 <= 25 # 100) by (apply H1; lia).
        assert (B : 5 # 100 <= raw_prob d 2 <= 25 # 100) by (apply H2; lia).
        lra.
      + pose proof (Hoth 0%nat) as H1. pose proof (Hoth 2%nat) as H2.
        assert (A : 5 # 100 <= raw_prob d 0 <= 25 # 100) by (apply H1; lia).
        assert (B : 5 # 100 <= raw_prob d 2 <= 25 # 100) by (apply H2; lia).
        lra.
      + pose proof (Hoth 0%nat) as H1. pose proof (Hoth 1%nat) as H2.
        assert (A : 5 # 100 <= raw_prob d 0 <= 25 # 100) by (apply H1; lia).
        assert (B : 5 # 100 <= raw_prob d 1 <= 25 # 100) by (apply H2; lia).
        lra.
    - destruct j as [| [| j]]; [| | lia].
      + pose proof (Hoth 1%nat) as H1.
        assert (A : 5 # 100 <= raw_prob d 1 <= 25 # 100) by (apply H1; lia).
        lra.
      + pose proof (Hoth 0%nat) as H1.
        assert (A : 5 # 100 <= raw_prob d 0 <= 25 # 100) by (apply H1; lia).
        lra. }
  destruct Htot as [Ht Ht2].
  assert (Hne : probs <> []).
  { intros E. rewrite E in Hlen. cbn [List.length] in Hlen. rewrite <- Hlen in Hj.
    inversion Hj. }
  destruct (np_argmax_spec probs Hne) as [Hlt Hmax].
  rewrite Hlen in Hlt.
  assert (Hnth : forall k, (k < List.length cls)%nat ->
                           nth k probs 0 = raw_prob d k / total).
  { intros k Hk. unfold probs, raw. apply mock_probs_nth. exact Hk. }
  assert (Hge : raw_prob d j / total <= qmax_list probs).
  { rewrite <- (Hnth j Hj). apply qmax_list_upper. apply nth_In.
    rewrite Hlen. exact Hj. }
  assert (Hk : np_argmax probs = j).
  { destruct (Nat.eq_dec (np_argmax probs) j) as [E | N]; [exact E | exfalso].
    rewrite <- Hmax, (Hnth _ Hlt) in Hge. apply div_le_cancel in Hge; [| exact Ht].
    pose proof (Hoth _ Hlt N). lra. }
  split; [rewrite Hk; reflexivity|].
  apply Qle_trans with (raw_prob d j / total); [| exact Hge].
  apply Qle_shift_div_l; [exact Ht | lra].
Qed.

Lemma mock_predicts_dominant_class_witness :
  prediction (run_model_mock (mock_draw MoreExamples.cat12_crashes) "multi-disease")
  = "CN" /\
  (1 # 2) <= confidence (run_model_mock (mock_draw MoreExamples.cat12_crashes)
                           "multi-disease").
Proof.
  apply (mock_predicts_dominant_class (mock_draw MoreExamples.cat12_crashes)
           "multi-disease" 0%nat).
  - cbn. lia.
  - cbn. split; discriminate.
  - intros i _ Hi. cbn [mock_draw MoreExamples.cat12_crashes raw_prob].
    destruct i as [| i]; [congruence|]. cbn. split; discriminate.
Defined.

End RunnerExtras.

(** ** The slicer *)

Section SlicerExtras.
Import Slicer SlicerVocabulary.

Lemma mask_coords_none (sh : nat * nat * nat) (i : nat) (data : list Q) :
  Forall (fun x => x <= 10) data -> mask_coords sh i data = [].
Proof.
  intros H. revert i. induction H as [| x l Hx _ IH]; intros i; cbn [mask_coords].
  - reflexivity.
  - apply Qle_bool_iff in Hx. rewrite Hx. apply IH.
Qed.

Lemma mask_coords_in (sh : nat * nat * nat) (data : list Q) (i : nat)
    (c : nat * nat * nat) :
  In c (mask_coords sh i data) ->
  exists k, (i <= k < i + List.length data)%nat /\ c = coords sh k.
Proof.
  revert i. induction data as [| x l IH]; intros i; cbn [mask_coords List.length].
  - intros [].
  - destruct (Qle_bool x 10).
    + intros H. destruct (IH _ H) as (k & Hk & E). exists k. split; [lia | exact E].
    + intros [<- | H].
      * exists i. split; [lia | reflexivity].
      * destruct (IH _ H) as (k & Hk & E). exists k. split; [lia | exact E].
Qed.

Lemma coords_bound (nx ny nz k : nat) :
  (0 < ny)%nat -> (0 < nz)%nat -> (k < nx * ny * nz)%nat ->
  (fst (fst (coords (nx, ny, nz) k)) < nx)%nat /\
  (snd (fst (coords (nx, ny, nz) k)) < ny)%nat /\
  (snd (coords (nx, ny, nz) k) < nz)%nat.
Proof.
  intros Hy Hz Hk. cbn [coords fst snd]. repeat split.
  - apply Nat.Div0.div_lt_upper_bound. lia.
  - apply Nat.mod_upper_bound. lia.
  - apply Nat.mod_upper_bound. lia.
Qed.

Lemma list_max_lt (l : list nat) (n : nat) :
  (0 < n)%nat -> Forall (fun x => (x < n)%nat) l -> (list_max l < n)%nat.
Proof.
  intros Hn H. unfold list_max. induction H as [| x l Hx _ IH]; cbn [fold_right]; lia.
Qed.

Lemma fold_min_le (l : list nat) (d : nat) : (fold_right Nat.min d l <= d)%nat.
Proof. induction l as [| x l IH]; cbn [fold_right]; lia. Qed.

Lemma midpoint_lt (l : list nat) (n : nat) :
  l <> [] -> Forall (fun x => (x < n)%nat) l ->
  ((list_min l + list_max l) / 2 < n)%nat.
Proof.
  intros Hne H.
  assert (Hn : (0 < n)%nat).
  { destruct l as [| x l]; [congruence|]. inversion H; subst. lia. }
  pose proof (list_max_lt l n Hn H) as Hmax.
  assert (Hmin : (list_min l < n)%nat).
  { unfold list_min. pose proof (fold_min_le l (hd 0%nat l)) as Hle.
    destruct l as [| x l]; [congruence|]. inversion H; subst. cbn [hd] in *. lia. }
  apply Nat.Div0.div_lt_upper_bound. lia.
Qed.

Lemma normalize_intensity_length (data : list Q) :
  List.length (normalize_intensity data) = List.length data.
Proof.
  unfold normalize_intensity. destruct (Qeq_bool _ 0); [reflexivity|].
  apply length_map.
Qed.

Lemma find_brain_center_bound (v : Volume) :
  well_shaped v ->
  (fst (fst (find_brain_center v)) < fst (fst (shape v)))%nat /\
  (snd (fst (find_brain_center v)) < snd (fst (shape v)))%nat /\
  (snd (find_brain_center v) < snd (shape v))%nat.
Proof.
  destruct v as [[[nx ny] nz] data].
  unfold well_shaped. cbn [shape voxels fst snd]. intros (Hlen & Hx & Hy & Hz).
  unfold find_brain_center. cbn [shape voxels].
  destruct (mask_coords (nx, ny, nz) 0 data) as [| c cs] eqn:E.
  - cbn [fst snd]. repeat split; apply Nat.Div0.div_lt_upper_bound; lia.
  - assert (Hall : forall c', In c' (c :: cs) ->
              (fst (fst c') < nx)%nat /\ (snd (fst c') < ny)%nat /\ (snd c' < nz)%nat).
    { intros c' Hc. rewrite <- E in Hc. apply mask_coords_in in Hc.
      destruct Hc as (k & Hk & ->). apply coords_bound; lia. }
    cbn [fst snd]. repeat split; apply midpoint_lt;
      try (intros N; apply map_eq_nil in N; discriminate);
      apply Forall_forall; intros x Hx'; apply in_map_iff in Hx';
      destruct Hx' as (c' & <- & Hc); apply Hall; exact Hc.
Qed.

(** X12.  [_find_brain_center] answers the middle of each axis when no voxel
    is brighter than 10; and for a volume whose voxels fill its shape, with
    no empty axis, the centre it answers is a valid index on every axis. *)
Theorem find_brain_center_spec :
  forall v : Volume,
    (Forall (fun x => x <= 10) (voxels v) ->
     find_brain_center v
     = ((fst (fst (shape v)) / 2)%nat, (snd (fst (shape v)) / 2)%nat,
        (snd (shape v) / 2)%nat)) /\
    (well_shaped v ->
     (fst (fst (find_brain_center v)) < fst (fst (shape v)))%nat /\
     (snd (fst (find_brain_center v)) < snd (fst (shape v)))%nat /\
     (snd (find_brain_center v) < snd (shape v))%nat).
Proof.
  intros v. split; [| apply find_brain_center_bound].
  destruct v as [[[nx ny] nz] data]. cbn [shape voxels fst snd].
  intros H. unfold find_brain_center. cbn [shape voxels].
  rewrite (mask_coords_none _ _ _ H). reflexivity.
Qed.

Lemma find_brain_center_spec_witness :
  (fst (fst (find_brain_center Examples.small_volume)) < 2)%nat /\
  (snd (fst (find_brain_center Examples.small_volume)) < 2)%nat /\
  (snd (find_brain_center Examples.small_volume) < 6)%nat.
Proof.
  apply (proj2 (find_brain_center_spec Examples.small_volume)).
  unfold well_shaped. cbn. repeat split; lia.
Defined.

Lemma slice_indices_length (sh : nat * nat * nat) (center num_slices axis : nat) :
  List.length (slice_indices sh center num_slices axis)
  = Nat.min num_slices (axis_len sh axis - (center - num_slices / 2)).
Proof. unfold slice_indices. rewrite length_seq. lia. Qed.

Lemma slice_indices_center (sh : nat * nat * nat) (center num_slices axis : nat) :
  (center < axis_len sh axis)%nat -> (1 <= num_slices)%nat ->
  In center (slice_indices sh center num_slices axis).
Proof.
  intros Hc Hn. unfold slice_indices. apply in_seq.
  assert (num_slices / 2 < num_slices)%nat by (apply Nat.div_lt; lia). lia.
Qed.

(** X13.  The window of slice indices starts [num_slices // 2] below the
    centre, or at 0 when that would be negative, and runs upwards: it is
    never moved down to fit, so it holds [num_slices] indices when that many
    are left up to the end of the axis and only the ones left otherwise.
    Every index is valid on the axis, and a valid centre is in the window as
    soon as one slice is asked for. *)
Theorem slice_window :
  forall (sh : nat * nat * nat) (center num_slices axis : nat),
    let l := slice_indices sh center num_slices axis in
    let start_idx := (center - num_slices / 2)%nat in
    l = seq start_idx (List.length l) /\
    List.length l = Nat.min num_slices (axis_len sh axis - start_idx) /\
    Forall (fun i => (i < axis_len sh axis)%nat) l /\
    ((center < axis_len sh axis)%nat -> (1 <= num_slices)%nat -> In center l).
Proof.
  intros sh center n axis. cbv zeta.
  pose proof (slice_indices_length sh center n axis) as Hlen.
  split; [| split; [exact Hlen | split; [| apply slice_indices_center]]].
  - unfold slice_indices in *. rewrite length_seq in *. f_equal. lia.
  - unfold slice_indices. apply Forall_forall. intros i Hi. apply in_seq in Hi. lia.
Qed.

Lemma slice_window_witness :
  In 3%nat (slice_indices (2%nat, 2%nat, 6%nat) 3 5 2).
Proof.
  apply (slice_window (2%nat, 2%nat, 6%nat) 3 5 2); cbn; lia.
Defined.

Lemma save_slices_spec (io : IO) (output_dir : string) (indices : list nat) (i : nat) :
  match save_slices io output_dir "slice" i indices with
  | Some ps =>
      ps = map (slice_file output_dir) (seq i (List.length indices)) /\
      forall k, (i <= k < i + List.length indices)%nat ->
                save_ok io (slice_file output_dir k) = true
  | None =>
      exists k, (i <= k < i + List.length indices)%nat /\
                save_ok io (slice_file output_dir k) = false
  end.
Proof.
  revert i. induction indices as [| x l IH]; intros i; cbn [save_slices List.length].
  - split; [reflexivity | intros k Hk; lia].
  - change (Path.join output_dir ("slice" ++ "_" ++ Path.str_of_nat (i + 1) ++ ".png"))
      with (slice_file output_dir i).
    destruct (save_ok io (slice_file output_dir i)) eqn:Es.
    + specialize (IH (S i)). revert IH.
      destruct (save_slices io output_dir "slice" (S i) l) as [ps |]; intros IH.
      * destruct IH as [-> Hall]. split; [reflexivity|].
        intros k Hk. destruct (Nat.eq_dec k i) as [-> | N]; [exact Es|].
        apply Hall. lia.
      * destruct IH as (k & Hk & Hf). exists k. split; [lia | exact Hf].
    + exists i. split; [lia | exact Es].
Qed.



(** X15.  Step 2 of [run_model] either answers between one and five slice
    paths, [slice_1.png], ... in the [slices] directory next to the scan, or
    raises; it never answers an empty list.  It raises
    [ValueError('Slicer returned no images.')] whenever the directory can be
    made but the slicer answers nothing, as for a scan that cannot be
    loaded; and it succeeds when the directory can be made, the scan loads
    as a volume that fills its shape, and the five files can be written. *)
Theorem slice_stage_outcome :
  forall (env : MlRunner.Env) (processed_path : string),
    let slice_dir := Path.join (Path.dirname processed_path) "slices" in
    let io := MlRunner.slicer_io env in
    (forall ps, MlRunner.slice_stage env processed_path = Ok ps ->
       (1 <= List.length ps <= 5)%nat /\
       ps = map (slice_file slice_dir) (seq 0 (List.length ps))) /\
    (MlRunner.makedirs_ok env slice_dir = true ->
     nib_load io processed_path = None ->
     MlRunner.slice_stage env processed_path
     = Raised (ValueError "Slicer returned no images.")) /\
    (forall v,
       MlRunner.makedirs_ok env slice_dir = true ->
       nib_load io processed_path = Some v ->
       well_shaped v ->
       (forall k, (k < 5)%nat -> save_ok io (slice_file slice_dir k) = true) ->
       exists ps, MlRunner.slice_stage env processed_path = Ok ps).
Proof.
  intros env processed_path. cbv zeta. unfold MlRunner.slice_stage.
  set (slice_dir := Path.join (Path.dirname processed_path) "slices").
  set (io := MlRunner.slicer_io env).
  assert (Hshape : forall res,
            res = extract_middle_slices io processed_path 5 slice_dir "axial" ->
            (List.length res <= 5)%nat /\
            res = map (slice_file slice_dir) (seq 0 (List.length res))).
  { intros res ->. unfold extract_middle_slices, load_and_prepare.
    destruct (nib_load io processed_path) as [v |]; [| split; [cbn; lia | reflexivity]].
    fold (indices_of v 5 "axial").
    pose proof (save_slices_spec io slice_dir (indices_of v 5 "axial") 0) as Hs.
    revert Hs.
    destruct (save_slices io slice_dir "slice" 0 (indices_of v 5 "axial")) as [ps |];
      intros Hs; [| split; [cbn; lia | reflexivity]].
    destruct Hs as [-> _]. rewrite length_map, length_seq. split; [| reflexivity].
    unfold indices_of.
    rewrite slice_indices_length. lia. }
  split; [| split].
  - intros ps H. destruct (MlRunner.makedirs_ok env slice_dir); [| discriminate].
    destruct (extract_middle_slices io processed_path 5 slice_dir "axial")
      as [| p rest] eqn:E; [discriminate|].
    injection H as <-. destruct (Hshape (p :: rest) eq_refl) as [Hlen Hnames].
    split; [| exact Hnames]. cbn [List.length] in *. lia.
  - intros Hm Hl. rewrite Hm. unfold extract_middle_slices, load_and_prepare.
    rewrite Hl. reflexivity.
  - intros v Hm Hl Hv Hsave. rewrite Hm.
    unfold extract_middle_slices, load_and_prepare. rewrite Hl.
    fold (indices_of v 5 "axial").
    pose proof (save_slices_spec io slice_dir (indices_of v 5 "axial") 0) as Hs.
    assert (Hidx : (1 <= List.length (indices_of v 5 "axial") <= 5)%nat).
    { unfold indices_of.
      set (data := {| shape := shape v; voxels := normalize_intensity (voxels v) |}).
      assert (Hd : well_shaped data).
      { unfold well_shaped, data in *. cbn [shape voxels].
        rewrite normalize_intensity_length. exact Hv. }
      destruct (find_brain_center_bound data Hd) as (_ & _ & Hz).
      pose proof (slice_indices_length (shape data)
                    (center_of (find_brain_center data) (shape data) "axial") 5
                    (axis_of "axial")) as Hlen.
      assert (Hc : In (center_of (find_brain_center data) (shape data) "axial")
                      (slice_indices (shape data)
                         (center_of (find_brain_center data) (shape data) "axial") 5
                         (axis_of "axial"))).
      { apply slice_indices_center; [| lia].
        destruct (find_brain_center data) as [[cx cy] cz].
        destruct (shape data) as [[nx ny] nz]. exact Hz. }
      split; [| rewrite Hlen; lia].
      destruct (slice_indices (shape data)
                  (center_of (find_brain_center data) (shape data) "axial") 5
                  (axis_of "axial")); [destruct Hc | cbn [List.length]; lia]. }
    revert Hs.
    destruct (save_slices io slice_dir "slice" 0 (indices_of v 5 "axial")) as [ps |];
      intros Hs.
    + destruct Hs as [-> _].
      destruct (indices_of v 5 "axial") as [| i0 rest]; [cbn in Hidx; lia|].
      cbn [List.length seq map]. eexists. reflexivity.
    + destruct Hs as (k & Hk & Hf). rewrite Hsave in Hf by lia. discriminate.
Qed.

Lemma slice_stage_outcome_witness :
  exists ps, MlRunner.slice_stage (Examples.ml_env Examples.readable)
               "uploads/s1_scan.nii" = Ok ps.
Proof.
  apply (proj2 (proj2 (slice_stage_outcome (Examples.ml_env Examples.readable)
                         "uploads/s1_scan.nii")) Examples.small_volume).
  - reflexivity.
  - reflexivity.
  - unfold well_shaped. cbn. repeat split; lia.
  - intros k _. reflexivity.
Defined.

End SlicerExtras.

(** ** The measured volumes *)

Section VolumetricExtras.
Import Volumetric PyNumFacts RoundingFacts.

Lemma qsum_nonneg (l : list Q) : Forall (fun q => 0 <= q) l -> 0 <= qsum l.
Proof.
  induction 1 as [| x l Hx _ IH]; cbn [qsum fold_right]; [lra|].
  fold (qsum l). lra.
Qed.

Lemma np_prod_nonneg (l : list Q) : Forall (fun q => 0 <= q) l -> 0 <= np_prod l.
Proof.
  induction 1 as [| x l Hx _ IH]; cbn [np_prod fold_right]; [lra|].
  fold (np_prod l). apply Qmult_le_0_compat; assumption.
Qed.

Lemma Forall_firstn {A : Type} (P : A -> Prop) (n : nat) (l : list A) :
  Forall P l -> Forall P (firstn n l).
Proof.
  intros H. revert n. induction H as [| x l Hx _ IH]; intros [| n]; cbn [firstn];
    constructor; [exact Hx | apply IH].
Qed.

Lemma tissue_volume_nonneg (img : NiftiImage) :
  Forall (fun q => 0 <= q) (fdata img) -> Forall (fun q => 0 <= q) (zooms img) ->
  0 <= tissue_volume_cm3 img.
Proof.
  intros Hd Hz. unfold tissue_volume_cm3, voxel_volume_mm3.
  pose proof (qsum_nonneg _ Hd) as H1.
  pose proof (np_prod_nonneg _ (Forall_firstn _ 3 _ Hz)) as H2.
  apply Qle_shift_div_l; [reflexivity|]. rewrite Qmult_0_l.
  apply Qmult_le_0_compat; assumption.
Qed.

Lemma py_round_nonneg (x : Q) (n : nat) : 0 <= x -> 0 <= py_round x n.
Proof.
  intros H. rewrite <- (py_round_zero 0 n (Qeq_refl 0)). apply py_round_mono. exact H.
Qed.

Lemma tbv_ratio_nonneg (tb : Q) : 0 <= tb -> 0 <= tbv_ratio tb.
Proof.
  intros H. unfold tbv_ratio. destruct (Qle_bool tb 0); [lra|].
  apply Qle_shift_div_l; [reflexivity | lra].
Qed.



(** X17.  When the voxel values and the voxel spacings of the maps that load
    are not negative, none of the six reported volumes is negative.  The
    reported total is the rounded sum of the unrounded parts, so it can
    differ from the sum of the reported grey and white matter, by at most
    0.015. *)
Theorem reported_volumes_consistent :
  forall (load : string -> option NiftiImage) (mwp1_path : string)
         (mwp2_path : option string) (v : Volumes),
    extract_volumes_from_nifti load mwp1_path mwp2_path = Ok v ->
    Qabs (brain v - (gm v + wm v)) <= 15 # 1000 /\
    ((forall p img, load p = Some img ->
        Forall (fun q => 0 <= q) (fdata img) /\ Forall (fun q => 0 <= q) (zooms img)) ->
     0 <= brain v /\ 0 <= gm v /\ 0 <= wm v /\
     0 <= csf v /\ 0 <= hippo v /\ 0 <= ventricles v).
Proof.
  intros load mwp1_path mwp2_path v H. unfold extract_volumes_from_nifti in H.
  destruct (load mwp1_path) as [gm_img |] eqn:El; [| discriminate].
  injection H as <-. cbn [brain gm wm csf hippo ventricles]. unfold total_brain.
  set (g := tissue_volume_cm3 gm_img). set (w := wm_volume_cm3 load mwp2_path g).
  split.
  - pose proof (py_round_close (g + w) 2) as H1.
    pose proof (py_round_close g 2) as H2.
    pose proof (py_round_close w 2) as H3.
    assert (E : (1 # 2) / pow10 2 == 5 # 1000) by reflexivity.
    rewrite E in H1, H2, H3.
    apply Qabs_Qle_condition in H1. apply Qabs_Qle_condition in H2.
    apply Qabs_Qle_condition in H3. apply Qabs_Qle_condition. lra.
  - intros Hnn.
    assert (Hg : 0 <= g).
    { unfold g. destruct (Hnn _ _ El). apply tissue_volume_nonneg; assumption. }
    assert (Hw : 0 <= w).
    { unfold w, wm_volume_cm3.
      assert (Hest : 0 <= g * WM_GM_RATIO).
      { apply Qmult_le_0_compat; [exact Hg | unfold WM_GM_RATIO; lra]. }
      destruct mwp2_path as [p |]; [| exact Hest].
      destruct (truthy p); [| exact Hest].
      destruct (load p) as [wm_img |] eqn:Ew; [| exact Hest].
      cbn [option_map]. destruct (Hnn _ _ Ew). apply tissue_volume_nonneg; assumption. }
    assert (Hr : 0 <= tbv_ratio (g + w)) by (apply tbv_ratio_nonneg; lra).
    repeat split; apply py_round_nonneg; try lra;
      apply Qmult_le_0_compat; try exact Hr; lra.
Qed.

Lemma reported_volumes_consistent_witness :
  exists v, extract_volumes_from_nifti Examples.disk "mwp1scan.nii" None = Ok v /\
            Qabs (brain v - (gm v + wm v)) <= 15 # 1000.
Proof.
  eexists. split; [reflexivity|].
  apply (reported_volumes_consistent Examples.disk "mwp1scan.nii" None).
  reflexivity.
Defined.

End VolumetricExtras.

(** ** The labels of the comparison figure *)

Section FigureExtras.
Import Config MlRunner.




End FigureExtras.

(** ** utils.py *)

Section UtilsExtras.
Import Utils.

(** X19.  [calculate_age] answers the number of whole years between the
    date of birth and today: the anniversary of that number is not after
    today and the next one is.  A date of birth after today is not
    refused: it gives a negative age, and only such a date does. *)
Theorem calculate_age_spec :
  forall today dob : date,
    let age := calculate_age today dob in
    date_leb (add_years dob age) today = true /\
    date_leb (add_years dob (age + 1)) today = false /\
    (date_leb dob today = true <-> (0 <= age)%Z).
Proof.
  intros [ty tm td] [y m d]. cbv zeta.
  unfold calculate_age, date_leb, add_years. cbn [year month day].
  destruct (pair_ltb tm td m d); cbn [negb]; (split; [| split; [| split]]);
    repeat match goal with
    | |- context [(?a <? ?b)%Z] => destruct (Z.ltb_spec a b)
    | |- context [(?a =? ?b)%Z] => destruct (Z.eqb_spec a b)
    end;
    cbn [orb andb]; intros; try reflexivity; try discriminate; lia.
Qed.

End UtilsExtras.

(** ** Whole runs of the two orchestrators *)

Module TraceFacts.
Import Run RunFacts Orchestrator OrchestratorFacts RunVocabulary.

Lemma traced_nil (s : State) : traced s [] = s.
Proof. destruct s. unfold traced. cbn. rewrite app_nil_r. reflexivity. Qed.

Lemma traced_app (s : State) (a b : list event) :
  traced (traced s a) b = traced s (a ++ b).
Proof. unfold traced. cbn. rewrite <- app_assoc. reflexivity. Qed.

Lemma statuses_app (t1 t2 : list event) :
  statuses (t1 ++ t2) = (statuses t1 ++ statuses t2)%list.
Proof.
  induction t1 as [| e t1 IH]; [reflexivity|].
  destruct e; cbn [app statuses]; rewrite IH; reflexivity.
Qed.

Lemma plain_statuses (es : list event) : forallb plain es = true -> statuses es = [].
Proof.
  induction es as [| e es IH]; [reflexivity|]. cbn [forallb]. intros H.
  apply andb_true_iff in H. destruct H as [He Hes].
  destruct e; try discriminate; cbn [statuses]; apply IH; exact Hes.
Qed.

Lemma plain_not_cleanup (es : list event) :
  forallb plain es = true -> Forall (fun e => ~ is_cleanup e) es.
Proof.
  induction es as [| e es IH]; [constructor|]. cbn [forallb]. intros H.
  apply andb_true_iff in H. destruct H as [He Hes].
  constructor; [| apply IH; exact Hes].
  destruct e; try discriminate; intros [].
Qed.

Lemma plain_no_report (es : list event) :
  forallb plain es = true -> filter is_report es = [].
Proof.
  induction es as [| e es IH]; [reflexivity|]. cbn [forallb]. intros H.
  apply andb_true_iff in H. destruct H as [He Hes].
  destruct e; try discriminate; cbn [filter is_report]; apply IH; exact Hes.
Qed.

Lemma preprocess_plain (env : MlRunner.Env) (scan_path : string) :
  forallb plain (fst (MlRunner.preprocess env scan_path)) = true.
Proof.
  unfold MlRunner.preprocess.
  destruct (MlRunner.use_cat12 env); [| reflexivity].
  destruct (Path.contains "mwp1" (Predictor.basename scan_path)); [reflexivity|].
  destruct (MlRunner.cat12 env scan_path) as [[f |] | e];
    try destruct (Volumetric.truthy f && MlRunner.path_exists env f); reflexivity.
Qed.

Lemma mock_fallback_plain (env : MlRunner.Env) (atype why : string) :
  forallb plain (fst (MlRunner.mock_fallback env atype why)) = true.
Proof.
  unfold MlRunner.mock_fallback. destruct (MlRunner.mock_importable env); reflexivity.
Qed.

Lemma volumes_stage_plain (env : MlRunner.Env) (processed_path label : string) :
  forallb plain (fst (MlRunner.volumes_stage env processed_path label)) = true.
Proof.
  unfold MlRunner.volumes_stage.
  destruct (Path.contains "mwp1" (Predictor.basename processed_path)); [| reflexivity].
  destruct (Volumetric.extract_volumes_from_nifti _ _ _); reflexivity.
Qed.

Lemma inference_stage_plain (env : MlRunner.Env) (atype processed_path : string)
    (used : bool) (slice_paths : list string) :
  forallb plain
    (fst (MlRunner.inference_stage env atype processed_path used slice_paths)) = true.
Proof.
  unfold MlRunner.inference_stage.
  destruct (negb (MlRunner.path_exists env Config.CONVIT_CHECKPOINT_PATH));
    [apply mock_fallback_plain|].
  destruct (negb (Predictor.is_available (MlRunner.predictor env)));
    [apply mock_fallback_plain|].
  destruct (Predictor.predict_patient _ _ slice_paths) as [r | e].
  - pose proof (volumes_stage_plain env processed_path (Predictor.patient_diagnosis r))
      as H.
    destruct (MlRunner.volumes_stage env processed_path (Predictor.patient_diagnosis r))
      as [t v].
    cbn [fst] in *. cbn [app forallb plain andb]. exact H.
  - pose proof (mock_fallback_plain env atype (exn_msg e)) as H.
    destruct (MlRunner.mock_fallback env atype (exn_msg e)) as [t r].
    cbn [fst] in *. cbn [forallb plain andb]. exact H.
Qed.

Lemma run_model_plain (env : MlRunner.Env) (scan_path atype : string) :
  forallb plain (fst (MlRunner.run_model env scan_path atype)) = true.
Proof.
  unfold MlRunner.run_model.
  destruct (MlRunner.use_mock_model env && MlRunner.mock_importable env);
    [reflexivity|].
  pose proof (preprocess_plain env scan_path) as H1.
  destruct (MlRunner.preprocess env scan_path) as [t1 [[processed_path used] | e]];
    cbn [fst] in H1; [| exact H1].
  destruct (MlRunner.slice_stage env processed_path) as [slice_paths | e].
  - pose proof (inference_stage_plain env atype processed_path used slice_paths) as H3.
    destruct (MlRunner.inference_stage env atype processed_path used slice_paths)
      as [t3 r].
    cbn [fst] in *. rewrite forallb_app, H1. cbn [app forallb plain andb]. exact H3.
  - cbn [fst]. rewrite forallb_app, H1. reflexivity.
Qed.

Lemma update_status_ok (env : Env) (st : string) (s : State) :
  client_ok env = true ->
  update_session_status env st s = (Ok tt, traced s [EvStatus st]).
Proof. intros H. unfold update_session_status. rewrite H. reflexivity. Qed.

Lemma run_model_stage_spec (env : Env) (file_path atype : string) (s : State) :
  run_model_stage env file_path atype s
  = (snd (MlRunner.run_model (ml env) file_path atype),
     traced s (fst (MlRunner.run_model (ml env) file_path atype))).
Proof.
  unfold run_model_stage.
  destruct (MlRunner.run_model (ml env) file_path atype) as [t [x | e]]; reflexivity.
Qed.

Lemma viewer_cases (env : Env) (file_path : string) (s : State) :
  exists x es,
    forallb plain es = true /\
    viewer_slices_stage env file_path s = (Ok x, traced s es).
Proof.
  unfold viewer_slices_stage.
  destruct (is_nifti file_path && nibabel_importable env).
  - unfold bind, emit.
    destruct (viewer_slices env file_path) as [u | e];
      eexists; exists [EvViewerSlices]; (split; [reflexivity|]); reflexivity.
  - exists [], []. split; [reflexivity|]. rewrite traced_nil. reflexivity.
Qed.

Lemma chart_upload_cases (env : Env) (img : option string) (k : string) (s : State) :
  exists s' es,
    forallb plain es = true /\
    chart_upload_stage env img k s = (Ok tt, s') /\
    trace s' = (trace s ++ es)%list /\ temp_file s' = temp_file s.
Proof.
  unfold chart_upload_stage. destruct (truthy_opt img).
  - unfold bind, emit.
    destruct (upload_chart env k) as [u | e]; [destruct (truthy_opt u)| ];
      eexists; exists [EvChartUpload k]; (split; [reflexivity|]);
      (split; [reflexivity|]); split; reflexivity.
  - exists s, []. split; [reflexivity|]. split; [reflexivity|].
    rewrite app_nil_r. split; reflexivity.
Qed.

(** The visualisation steps either raise with nothing but the trace changed,
    or return. *)
Lemma visualisations_cases (env : Env) (file_path : string)
    (ml_results : MlRunner.MlResults) (s : State)
    (r : result (list (string * list string))) (s' : State) :
  visualisations env file_path ml_results s = (r, s') ->
  exists es,
    forallb plain es = true /\
    ((exists e, r = Raised e /\ s' = traced s es /\ generator_fails env ml_results) \/
     (exists x, r = Ok x /\ trace s' = (trace s ++ es)%list /\
                temp_file s' = temp_file s /\ ~ generator_fails env ml_results)).
Proof.
  intros H. unfold visualisations in H.
  destruct (viewer_cases env file_path s) as (x0 & es0 & P0 & E0).
  apply bind_inv in H. destruct H as [(e & H & _) | (a & sa & Ha & H)];
    [rewrite E0 in H; discriminate|].
  rewrite E0 in Ha. injection Ha as <- <-.
  unfold generator_fails.
  apply bind_inv in H. destruct H as [(e & H & _) | (a1 & s1 & H1 & H)];
    [discriminate|].
  injection H1 as _ <-.
  apply bind_inv in H. destruct H as [(e & H & ->) | (plot & s2 & H2 & H)].
  { destruct (similarity env ml_results) as [p | e']; [discriminate|].
    injection H as _ <-. exists (es0 ++ [EvSimilarity])%list.
    split; [rewrite forallb_app, P0; reflexivity|].
    left. exists e. split; [reflexivity|]. split; [| exact I].
    rewrite <- traced_app. reflexivity. }
  destruct (similarity env ml_results) as [p | e']; [| discriminate].
  injection H2 as <- <-.
  apply bind_inv in H. destruct H as [(e & H & _) | (a2 & s3 & H3 & H)];
    [discriminate|].
  injection H3 as _ <-.
  apply bind_inv in H. destruct H as [(e & H & ->) | (vimg & s4 & H4 & H)].
  { destruct (volume_chart env ml_results) as [v | e']; [discriminate|].
    injection H as _ <-. exists (es0 ++ [EvSimilarity; EvChart "volume"])%list.
    split; [rewrite forallb_app, P0; reflexivity|].
    left. exists e. split; [reflexivity|]. split; [| exact I].
    unfold traced. cbn [trace uploaded_urls report_errors temp_file].
    rewrite <- !app_assoc. reflexivity. }
  destruct (volume_chart env ml_results) as [v | e']; [| discriminate].
  injection H4 as <- <-.
  apply bind_inv in H. destruct H as [(e & H & _) | (a3 & s5 & H5 & H)];
    [discriminate|].
  injection H5 as _ <-.
  apply bind_inv in H. destruct H as [(e & H & ->) | (cimg & s6 & H6 & H)].
  { destruct (confidence_chart env _ _) as [c | e']; [discriminate|].
    injection H as _ <-.
    exists (es0 ++ [EvSimilarity; EvChart "volume"; EvChart "confidence"])%list.
    split; [rewrite forallb_app, P0; reflexivity|].
    left. exists e. split; [reflexivity|]. split; [| exact I].
    unfold traced. cbn [trace uploaded_urls report_errors temp_file].
    rewrite <- !app_assoc. reflexivity. }
  destruct (confidence_chart env _ _) as [c | e']; [| discriminate].
  injection H6 as <- <-.
  match type of H with
  | bind (chart_upload_stage _ _ _) _ ?st = _ =>
      destruct (chart_upload_cases env p "similarity_plot_url" st)
        as (u1 & e1 & Q1 & U1 & T1 & F1)
  end.
  apply bind_inv in H. destruct H as [(e & H & _) | (b1 & t1 & K1 & H)];
    [rewrite U1 in H; discriminate|].
  rewrite U1 in K1. injection K1 as _ <-.
  destruct (chart_upload_cases env (Some v) "volume_chart_url" u1)
    as (u2 & e2 & Q2 & U2 & T2 & F2).
  apply bind_inv in H. destruct H as [(e & H & _) | (b2 & t2 & K2 & H)];
    [rewrite U2 in H; discriminate|].
  rewrite U2 in K2. injection K2 as _ <-.
  destruct (chart_upload_cases env (Some c) "confidence_chart_url" u2)
    as (u3 & e3 & Q3 & U3 & T3 & F3).
  apply bind_inv in H. destruct H as [(e & H & _) | (b3 & t3 & K3 & H)];
    [rewrite U3 in H; discriminate|].
  rewrite U3 in K3. injection K3 as _ <-.
  unfold bind, emit, ret in H. injection H as <- <-.
  cbn [trace uploaded_urls report_errors temp_file traced] in *.
  exists (es0 ++ [EvSimilarity; EvChart "volume"; EvChart "confidence"]
          ++ e1 ++ e2 ++ e3 ++ [EvFetchReportData])%list.
  split.
  { rewrite !forallb_app, P0, Q1, Q2, Q3. reflexivity. }
  right. exists x0. split; [reflexivity|]. split; [| split].
  - rewrite T3, T2, T1. rewrite <- !app_assoc. reflexivity.
  - rewrite F3, F2, F1. reflexivity.
  - intros [].
Qed.

Lemma analysis_and_reports_cases (env : Env) (file_path : string)
    (ml_results : MlRunner.MlResults) (s : State) (r : result unit) (s' : State) :
  analysis_and_reports env file_path ml_results s = (r, s') ->
  exists es,
    forallb plain es = true /\
    ((exists e, r = Raised e /\ s' = traced s es /\ generator_fails env ml_results) \/
     (exists sm, trace sm = (trace s ++ es)%list /\ temp_file sm = temp_file s /\
                 ~ generator_fails env ml_results /\
                 reports_and_status env sm = (r, s'))).
Proof.
  intros H. unfold analysis_and_reports in H.
  apply bind_inv in H. destruct H as [(e & H & ->) | (x & sm & Hv & H)].
  - destruct (visualisations_cases _ _ _ _ _ _ H)
      as (es & P & [(e' & E & -> & G) | (x & E & _)]); [| discriminate].
    exists es. split; [exact P|]. left. exists e. repeat split. exact G.
  - destruct (visualisations_cases _ _ _ _ _ _ Hv)
      as (es & P & [(e' & E & _) | (x' & _ & T & F & G)]); [discriminate|].
    exists es. split; [exact P|]. right. exists sm. repeat split; assumption.
Qed.

(** [run_analysis_background]: its [try] body up to the record check. *)
Lemma body_prefix (env : Env) (file_path atype : string) (s : State) :
  client_ok env = true ->
  analysis_body env file_path atype s =
    let t := fst (MlRunner.run_model (ml env) file_path atype) in
    match snd (MlRunner.run_model (ml env) file_path atype) with
    | Raised e => (Raised e, traced s (EvStatus "processing" :: t))
    | Ok ml_results =>
        if truthy_opt (snd (create_record env ml_results))
        then (Raised (Exception ("Failed to create prediction: "
                                 ++ match snd (create_record env ml_results) with
                                    | Some m => m
                                    | None => ""
                                    end)),
              traced s (EvStatus "processing" :: t ++ [EvCreateRecord]))
        else analysis_and_reports env file_path ml_results
               (traced s (EvStatus "processing" :: t ++ [EvCreateRecord]))
    end.
Proof.
  intros Hc. unfold analysis_body. unfold bind at 1.
  rewrite (update_status_ok env _ _ Hc). unfold bind at 1.
  rewrite run_model_stage_spec.
  destruct (MlRunner.run_model (ml env) file_path atype) as [t [ml_results | e]];
    cbn [fst snd].
  - unfold bind at 1. unfold emit at 1.
    destruct (create_record env ml_results) as [pid err]. cbn [snd].
    assert (E : {| trace := (trace (traced (traced s [EvStatus "processing"]) t)
                              ++ [EvCreateRecord])%list;
                   uploaded_urls :=
                     uploaded_urls (traced (traced s [EvStatus "processing"]) t);
                   report_errors :=
                     report_errors (traced (traced s [EvStatus "processing"]) t);
                   temp_file := temp_file (traced (traced s [EvStatus "processing"]) t) |}
                = traced s (EvStatus "processing" :: t ++ [EvCreateRecord])).
    { unfold traced. cbn [trace uploaded_urls report_errors temp_file].
      rewrite <- !app_assoc. reflexivity. }
    rewrite E. unfold bind at 1.
    destruct (truthy_opt err); reflexivity.
  - rewrite traced_app. reflexivity.
Qed.

(** [_run_pipeline_background]: its [try] body up to the record check. *)
Lemma pipeline_prefix (env : Env) (filepath atype : string) (s : State) :
  client_ok env = true ->
  pipeline_body env filepath atype s =
    let t := fst (MlRunner.run_model (ml env) filepath atype) in
    match snd (MlRunner.run_model (ml env) filepath atype) with
    | Raised e => (Raised e, traced s (EvStatus "processing" :: t))
    | Ok ml_results =>
        if String.eqb (MlRunner.prediction ml_results) "Error"
        then (Ok tt, traced s (EvStatus "processing" :: t ++ [EvStatus "failed"]))
        else if truthy_opt (snd (create_record env ml_results))
        then (Ok tt, traced s (EvStatus "processing" :: t
                               ++ [EvCreateRecord; EvStatus "failed"]))
        else analysis_and_reports env filepath ml_results
               (traced s (EvStatus "processing" :: t ++ [EvCreateRecord]))
    end.
Proof.
  intros Hc. unfold pipeline_body. unfold bind at 1.
  rewrite (update_status_ok env _ _ Hc). unfold bind at 1.
  rewrite run_model_stage_spec.
  destruct (MlRunner.run_model (ml env) filepath atype) as [t [ml_results | e]];
    cbn [fst snd].
  - destruct (String.eqb (MlRunner.prediction ml_results) "Error").
    + rewrite (update_status_ok env _ _ Hc). rewrite !traced_app. reflexivity.
    + unfold bind at 1. unfold emit at 1.
      destruct (create_record env ml_results) as [pid err]. cbn [snd].
      assert (E : {| trace := (trace (traced (traced s [EvStatus "processing"]) t)
                                ++ [EvCreateRecord])%list;
                     uploaded_urls :=
                       uploaded_urls (traced (traced s [EvStatus "processing"]) t);
                     report_errors :=
                       report_errors (traced (traced s [EvStatus "processing"]) t);
                     temp_file :=
                       temp_file (traced (traced s [EvStatus "processing"]) t) |}
                  = traced s (EvStatus "processing" :: t ++ [EvCreateRecord])).
      { unfold traced. cbn [trace uploaded_urls report_errors temp_file].
        rewrite <- !app_assoc. reflexivity. }
      rewrite E.
      destruct (truthy_opt err); [| reflexivity].
      rewrite (update_status_ok env _ _ Hc). rewrite traced_app.
      cbn [app]. rewrite <- app_assoc. reflexivity.
  - rewrite traced_app. reflexivity.
Qed.

Lemma failure_handler_nothing_stored (env : Env) (e : exn) (s : State) :
  client_ok env = true -> uploaded_urls s = [] ->
  failure_handler env e s = (Ok tt, traced s [EvStatus "failed"]).
Proof.
  intros Hc Hu. unfold failure_handler. unfold bind at 1.
  rewrite (update_status_ok env _ _ Hc). unfold bind, get_state.
  cbn [uploaded_urls traced]. rewrite Hu. reflexivity.
Qed.

Lemma analysis_body_ends (env : Env) (file_path atype : string)
    (r : result unit) (s1 : State) :
  client_ok env = true ->
  analysis_body env file_path atype initial = (r, s1) -> body_outcome env r s1.
Proof.
  intros Hc H. rewrite (body_prefix env file_path atype initial Hc) in H. cbv zeta in H.
  pose proof (run_model_plain (ml env) file_path atype) as Pm.
  destruct (MlRunner.run_model (ml env) file_path atype) as [t [ml_results | e]];
    cbn [fst snd] in *.
  - destruct (truthy_opt (snd (create_record env ml_results))).
    + injection H as <- <-. exists (t ++ [EvCreateRecord])%list.
      split; [rewrite forallb_app, Pm; reflexivity|].
      left. eexists. split; reflexivity.
    + destruct (analysis_and_reports_cases _ _ _ _ _ _ H)
        as (es & P & [(e & -> & -> & _) | (sm & T & F & _ & Hr)]).
      * exists ((t ++ [EvCreateRecord]) ++ es)%list.
        split; [rewrite !forallb_app, Pm, P; reflexivity|].
        left. exists e. split; [reflexivity|]. rewrite traced_app.
        cbn [app]. rewrite <- !app_assoc. reflexivity.
      * exists ((t ++ [EvCreateRecord]) ++ es)%list.
        split; [rewrite !forallb_app, Pm, P; reflexivity|].
        right. right. exists sm. split; [| split; [exact F | exact Hr]].
        rewrite T. cbn [traced trace initial app]. rewrite <- !app_assoc. reflexivity.
  - injection H as <- <-. exists t. split; [exact Pm|].
    left. exists e. split; reflexivity.
Qed.

Lemma pipeline_body_ends (env : Env) (filepath atype : string)
    (r : result unit) (s1 : State) :
  client_ok env = true ->
  pipeline_body env filepath atype initial = (r, s1) -> body_outcome env r s1.
Proof.
  intros Hc H. rewrite (pipeline_prefix env filepath atype initial Hc) in H.
  cbv zeta in H.
  pose proof (run_model_plain (ml env) filepath atype) as Pm.
  destruct (MlRunner.run_model (ml env) filepath atype) as [t [ml_results | e]];
    cbn [fst snd] in *.
  - destruct (String.eqb (MlRunner.prediction ml_results) "Error").
    { injection H as <- <-. exists t. split; [exact Pm|].
      right. left. split; reflexivity. }
    destruct (truthy_opt (snd (create_record env ml_results))).
    + injection H as <- <-. exists (t ++ [EvCreateRecord])%list.
      split; [rewrite forallb_app, Pm; reflexivity|].
      right. left. split; [reflexivity|].
      rewrite <- app_assoc. reflexivity.
    + destruct (analysis_and_reports_cases _ _ _ _ _ _ H)
        as (es & P & [(e & -> & -> & _) | (sm & T & F & _ & Hr)]).
      * exists ((t ++ [EvCreateRecord]) ++ es)%list.
        split; [rewrite !forallb_app, Pm, P; reflexivity|].
        left. exists e. split; [reflexivity|]. rewrite traced_app.
        cbn [app]. rewrite <- !app_assoc. reflexivity.
      * exists ((t ++ [EvCreateRecord]) ++ es)%list.
        split; [rewrite !forallb_app, Pm, P; reflexivity|].
        right. right. exists sm. split; [| split; [exact F | exact Hr]].
        rewrite T. cbn [traced trace initial app]. rewrite <- !app_assoc. reflexivity.
  - injection H as <- <-. exists t. split; [exact Pm|].
    left. exists e. split; reflexivity.
Qed.

(** From the end of the [try] body to the end of the run, through the
    [except] and [finally] clauses. *)
Lemma outcome_finished (env : Env) (m : M unit) (h : exn -> M unit)
    (r : result unit) (s1 : State) :
  client_ok env = true ->
  (forall e s, uploaded_urls s = [] -> h e s = (Ok tt, traced s [EvStatus "failed"])) ->
  m initial = (r, s1) ->
  body_outcome env r s1 ->
  exists s,
    try_finally (try_except m h) (remove_temp_file env) initial = (Ok tt, s) /\
    finished env s.
Proof.
  intros Hc Hh Hm (es & P & [(e & -> & ->) | [(-> & ->) | (sm & Tm & Fm & Hr)]]);
    unfold try_finally, try_except; rewrite Hm.
  - assert (Hu : uploaded_urls (traced initial (EvStatus "processing" :: es)) = [])
      by reflexivity.
    rewrite (Hh e _ Hu), remove_temp_file_spec.
    eexists. split; [reflexivity|]. exists es. split; [exact P|].
    cbn [traced initial trace uploaded_urls report_errors temp_file andb app].
    split; [reflexivity|]. left. split; [| split; reflexivity].
    rewrite <- app_assoc. reflexivity.
  - rewrite remove_temp_file_spec.
    eexists. split; [reflexivity|]. exists es. split; [exact P|].
    cbn [traced initial trace uploaded_urls report_errors temp_file andb app].
    split; [reflexivity|]. left. split; [| split; reflexivity].
    rewrite <- app_assoc. reflexivity.
  - destruct (reports_and_status_spec env sm Hc) as (s' & Es & Ts & Any & Tr & Dec).
    rewrite Es in Hr. injection Hr as <- <-. rewrite remove_temp_file_spec.
    eexists. split; [reflexivity|]. exists es. split; [exact P|].
    cbn [trace uploaded_urls report_errors temp_file].
    rewrite Ts, Fm. cbn [andb]. split; [reflexivity|]. right.
    rewrite Tr, Tm, Dec. cbn [app]. rewrite <- !app_assoc. reflexivity.
Qed.

Lemma analysis_run_finished (env : Env) (file_path atype : string) :
  client_ok env = true ->
  exists s,
    run_analysis_background env file_path atype initial = (Ok tt, s) /\ finished env s.
Proof.
  intros Hc. unfold run_analysis_background. rewrite Hc.
  destruct (analysis_body env file_path atype initial) as [r s1] eqn:E.
  apply (outcome_finished env _ _ r s1 Hc); [| exact E |].
  - intros e s Hu. apply failure_handler_nothing_stored; assumption.
  - exact (analysis_body_ends _ _ _ _ _ Hc E).
Qed.

Lemma pipeline_run_finished (env : Env) (filepath atype : string) :
  client_ok env = true ->
  exists s,
    run_pipeline_background env filepath atype initial = (Ok tt, s) /\ finished env s.
Proof.
  intros Hc. unfold run_pipeline_background.
  destruct (pipeline_body env filepath atype initial) as [r s1] eqn:E.
  apply (outcome_finished env _ _ r s1 Hc); [| exact E |].
  - intros e s _. apply update_status_ok. exact Hc.
  - exact (pipeline_body_ends _ _ _ _ _ Hc E).
Qed.

Lemma finished_statuses (env : Env) (s : State) :
  finished env s ->
  statuses (trace s)
  = ["processing"; if has_any_report (uploaded_urls s) then "completed" else "failed"].
Proof.
  intros (es & P & _ & [(T & U & _) | T]); rewrite T.
  - rewrite U. cbn [statuses has_any_report]. rewrite statuses_app, (plain_statuses _ P).
    reflexivity.
  - cbn [statuses]. rewrite statuses_app, (plain_statuses _ P). reflexivity.
Qed.

Lemma finished_no_cleanup (env : Env) (s : State) :
  finished env s -> Forall (fun e => ~ is_cleanup e) (trace s).
Proof.
  intros (es & P & _ & [(T & _) | T]); rewrite T.
  - constructor; [intros []|]. apply Forall_app. split; [exact (plain_not_cleanup _ P)|].
    repeat constructor; intros [].
  - constructor; [intros []|]. apply Forall_app. split; [exact (plain_not_cleanup _ P)|].
    repeat constructor; intros [].
Qed.

End TraceFacts.

Section WholeRuns.
Import Run RunFacts Orchestrator OrchestratorFacts RunVocabulary TraceFacts.

(** X20.  In [run_analysis_background] the storage clean-up of the
    [except] clause never deletes anything: whenever the [try] body raises,
    no URL has been stored yet, because every step that can raise comes
    before the first upload.  So no run cleans the storage, and the chart
    files of a run whose three reports all fail stay where they are. *)
Theorem storage_cleanup_never_runs :
  forall (env : Env) (file_path atype : string),
    (forall e s1, analysis_body env file_path atype initial = (Raised e, s1) ->
       uploaded_urls s1 = []) /\
    Forall (fun ev => ~ is_cleanup ev)
           (trace (snd (run_analysis_background env file_path atype initial))).
Proof.
  intros env file_path atype. destruct (client_ok env) eqn:Hc; split.
  - intros e s1 H.
    destruct (analysis_body_ends _ _ _ _ _ Hc H)
      as (es & P & [(e' & _ & ->) | [(E & _) | (sm & _ & _ & Hr)]]);
      [reflexivity | discriminate |].
    destruct (reports_and_status_spec env sm Hc) as (s' & Es & _).
    rewrite Es in Hr. discriminate.
  - destruct (analysis_run_finished env file_path atype Hc) as (s & E & F).
    rewrite E. exact (finished_no_cleanup _ _ F).
  - intros e s1 H. unfold analysis_body, update_session_status in H.
    rewrite Hc in H. unfold bind, raise in H. injection H as _ <-. reflexivity.
  - unfold run_analysis_background. rewrite Hc. constructor.
Qed.

Lemma storage_cleanup_never_runs_witness :
  exists e s1,
    analysis_body MoreRuns.chart_fails "uploads/s1_scan.nii" "multi-disease" initial
    = (Raised e, s1) /\
    uploaded_urls s1 = [].
Proof.
  destruct (analysis_body MoreRuns.chart_fails "uploads/s1_scan.nii" "multi-disease"
              initial) as [[u | e] s1] eqn:E.
  - exfalso. vm_compute in E. discriminate.
  - exists e, s1. split; [reflexivity|].
    exact (proj1 (storage_cleanup_never_runs MoreRuns.chart_fails
                    "uploads/s1_scan.nii" "multi-disease") e s1 E).
Defined.

(** X21.  With the client at hand, [run_analysis_background] returns
    normally and writes the session status exactly twice: [processing]
    first, then one final status, [completed] when a report URL was stored
    and [failed] otherwise.  No run leaves the session in [processing]. *)
Theorem analysis_status_protocol :
  forall (env : Env) (file_path atype : string),
    client_ok env = true ->
    exists s,
      run_analysis_background env file_path atype initial = (Ok tt, s) /\
      statuses (trace s)
      = ["processing";
         if has_any_report (uploaded_urls s) then "completed" else "failed"].
Proof.
  intros env file_path atype Hc.
  destruct (analysis_run_finished env file_path atype Hc) as (s & E & F).
  exists s. split; [exact E | exact (finished_statuses _ _ F)].
Qed.

Lemma analysis_status_protocol_witness :
  exists s,
    run_analysis_background MoreRuns.store_down "uploads/s1_scan.nii" "multi-disease"
                            initial = (Ok tt, s) /\
    statuses (trace s)
    = ["processing"; if has_any_report (uploaded_urls s) then "completed" else "failed"].
Proof.
  apply (analysis_status_protocol MoreRuns.store_down "uploads/s1_scan.nii"
           "multi-disease").
  reflexivity.
Defined.

(** X22.  [_run_pipeline_background] of app.py stops as soon as [run_model]
    has failed, by an exception or by an error response: it writes
    [failed], creates no prediction record, draws no chart, attempts no
    report, and removes the temp file.  When [run_model] has not failed it
    goes on to create the record. *)
Theorem pipeline_stops_on_model_failure :
  forall (env : Env) (filepath atype : string),
    client_ok env = true ->
    (model_failed (snd (MlRunner.run_model (ml env) filepath atype)) ->
     run_pipeline_background env filepath atype initial
     = (Ok tt,
        {| trace := (EvStatus "processing"
                     :: fst (MlRunner.run_model (ml env) filepath atype)
                     ++ [EvStatus "failed"; EvRemoveTemp])%list;
           uploaded_urls := []; report_errors := [];
           temp_file := negb (remove_ok env) |})) /\
    (~ model_failed (snd (MlRunner.run_model (ml env) filepath atype)) ->
     In EvCreateRecord
        (trace (snd (run_pipeline_background env filepath atype initial)))).
Proof.
  intros env filepath atype Hc.
  unfold run_pipeline_background, try_finally, try_except.
  rewrite (pipeline_prefix env filepath atype initial Hc). cbv zeta.
  destruct (MlRunner.run_model (ml env) filepath atype) as [t [ml_results | e]];
    cbn [fst snd model_failed]; split.
  - intros Hf. rewrite Hf. cbn [String.eqb Ascii.eqb Bool.eqb andb].
    rewrite remove_temp_file_spec.
    cbn [traced initial trace uploaded_urls report_errors temp_file app andb].
    rewrite <- app_assoc. reflexivity.
  - intros Hf. apply String.eqb_neq in Hf. rewrite Hf.
    destruct (truthy_opt (snd (create_record env ml_results))).
    + rewrite remove_temp_file_spec.
      cbn [snd traced initial trace uploaded_urls report_errors temp_file app].
      right. apply in_or_app. left. apply in_or_app. right. left. reflexivity.
    + destruct (analysis_and_reports env filepath ml_results
                  (traced initial (EvStatus "processing" :: t ++ [EvCreateRecord])))
        as [r s1] eqn:E.
      assert (Hin : In EvCreateRecord (trace s1)).
      { destruct (analysis_and_reports_cases _ _ _ _ _ _ E)
          as (es & P & [(e & -> & -> & _) | (sm & T & F & _ & Hr)]).
        - cbn [traced initial trace app]. right.
          apply in_or_app. left. apply in_or_app. right. left. reflexivity.
        - destruct (reports_and_status_spec env sm Hc) as (s' & Es & _ & _ & Tr & _).
          rewrite Es in Hr. injection Hr as _ <-. rewrite Tr, T.
          cbn [traced initial trace app]. right.
          apply in_or_app. left. apply in_or_app. left.
          apply in_or_app. right. left. reflexivity. }
      destruct r as [u | e].
      * rewrite remove_temp_file_spec. cbn [snd trace].
        apply in_or_app. left. exact Hin.
      * rewrite (update_status_ok env _ _ Hc), remove_temp_file_spec.
        cbn [snd traced trace]. apply in_or_app. left. apply in_or_app. left. exact Hin.
  - intros _. rewrite (update_status_ok env _ _ Hc), remove_temp_file_spec.
    cbn [traced initial trace uploaded_urls report_errors temp_file app andb].
    rewrite <- app_assoc. reflexivity.
  - intros Hf. exfalso. apply Hf. exact I.
Qed.

Lemma pipeline_stops_on_model_failure_witness :
  run_pipeline_background
    (Examples.orchestrator_env (Examples.ml_env Examples.unreadable)
                               Examples.every_report true)
    "uploads/s1_scan.nii" "multi-disease" initial
  = (Ok tt,
     {| trace := (EvStatus "processing"
                  :: fst (MlRunner.run_model (Examples.ml_env Examples.unreadable)
                            "uploads/s1_scan.nii" "multi-disease")
                  ++ [EvStatus "failed"; EvRemoveTemp])%list;
        uploaded_urls := []; report_errors := []; temp_file := negb true |}).
Proof.
  apply (proj1 (pipeline_stops_on_model_failure
                  (Examples.orchestrator_env (Examples.ml_env Examples.unreadable)
                                             Examples.every_report true)
                  "uploads/s1_scan.nii" "multi-disease" eq_refl)).
  vm_compute. reflexivity.
Defined.

(** X23.  [_run_pipeline_background] of app.py attempts to remove the temp
    file on every run, also without a storage client: the file is gone
    whenever the removal succeeds.  With the client at hand it returns
    normally, writes [processing] and then one final status, [completed]
    when a report URL was stored and [failed] otherwise, and the removal is
    the last thing it does. *)
Theorem pipeline_final_status :
  forall (env : Env) (filepath atype : string),
    temp_file (snd (run_pipeline_background env filepath atype initial))
    = negb (remove_ok env) /\
    (client_ok env = true ->
     exists s t,
       run_pipeline_background env filepath atype initial = (Ok tt, s) /\
       trace s = (t ++ [EvRemoveTemp])%list /\
       statuses (trace s)
       = ["processing";
          if has_any_report (uploaded_urls s) then "completed" else "failed"]).
Proof.
  intros env filepath atype. destruct (client_ok env) eqn:Hc.
  - destruct (pipeline_run_finished env filepath atype Hc) as (s & E & F).
    rewrite E. cbn [snd]. split.
    + destruct F as (es & _ & T & _). exact T.
    + intros _. pose proof (finished_statuses _ _ F) as Hs.
      destruct F as (es & P & _ & [(T & _) | T]).
      * exists s, (EvStatus "processing" :: es ++ [EvStatus "failed"])%list.
        split; [reflexivity|]. split; [| exact Hs].
        rewrite T. cbn [app]. rewrite <- app_assoc. reflexivity.
      * exists s, (EvStatus "processing" :: es ++ report_events
                   ++ [EvUpdateRecord;
                       EvStatus (if has_any_report (uploaded_urls s)
                                 then "completed" else "failed")])%list.
        split; [reflexivity|]. split; [| exact Hs].
        rewrite T. cbn [app]. rewrite <- !app_assoc. reflexivity.
  - split; [| discriminate].
    unfold run_pipeline_background, try_finally, try_except, pipeline_body.
    unfold bind at 1. unfold update_session_status. rewrite Hc. unfold raise.
    rewrite remove_temp_file_spec. reflexivity.
Qed.

Lemma pipeline_final_status_witness :
  exists s t,
    run_pipeline_background MoreRuns.store_down "uploads/s1_scan.nii" "multi-disease"
                            initial = (Ok tt, s) /\
    trace s = (t ++ [EvRemoveTemp])%list /\
    statuses (trace s)
    = ["processing"; if has_any_report (uploaded_urls s) then "completed" else "failed"].
Proof.
  apply (proj2 (pipeline_final_status MoreRuns.store_down "uploads/s1_scan.nii"
                  "multi-disease")).
  reflexivity.
Defined.

(** X24.  A prediction record that cannot be created ends the run in both
    orchestrators: the status becomes [failed], no chart is drawn, no
    report is attempted and nothing is stored; the temp file is removed. *)
Theorem record_failure_is_fatal :
  forall (env : Env) (file_path atype : string) (t : list event)
         (ml_results : MlRunner.MlResults),
    client_ok env = true ->
    MlRunner.run_model (ml env) file_path atype = (t, Ok ml_results) ->
    truthy_opt (snd (create_record env ml_results)) = true ->
    run_analysis_background env file_path atype initial
    = (Ok tt,
       {| trace := (EvStatus "processing" :: t
                    ++ [EvCreateRecord; EvStatus "failed"; EvRemoveTemp])%list;
          uploaded_urls := []; report_errors := [];
          temp_file := negb (remove_ok env) |}) /\
    (MlRunner.prediction ml_results <> "Error" ->
     run_pipeline_background env file_path atype initial
     = (Ok tt,
        {| trace := (EvStatus "processing" :: t
                     ++ [EvCreateRecord; EvStatus "failed"; EvRemoveTemp])%list;
           uploaded_urls := []; report_errors := [];
           temp_file := negb (remove_ok env) |})).
Proof.
  intros env file_path atype t ml_results Hc Hrun Herr. split.
  - unfold run_analysis_background. rewrite Hc. unfold try_finally, try_except.
    rewrite (body_prefix env file_path atype initial Hc). cbv zeta.
    rewrite Hrun. cbn [fst snd]. rewrite Herr.
    rewrite failure_handler_nothing_stored by (exact Hc || reflexivity).
    rewrite remove_temp_file_spec.
    cbn [traced initial trace uploaded_urls report_errors temp_file app andb].
    rewrite <- !app_assoc. reflexivity.
  - intros Hp. apply String.eqb_neq in Hp.
    unfold run_pipeline_background, try_finally, try_except.
    rewrite (pipeline_prefix env file_path atype initial Hc). cbv zeta.
    rewrite Hrun. cbn [fst snd]. rewrite Hp, Herr.
    rewrite remove_temp_file_spec.
    cbn [traced initial trace uploaded_urls report_errors temp_file app andb].
    rewrite <- !app_assoc. reflexivity.
Qed.

Lemma record_failure_is_fatal_witness :
  statuses (trace (snd (run_analysis_background MoreRuns.record_fails
                          "uploads/s1_scan.nii" "multi-disease" initial)))
  = ["processing"; "failed"].
Proof.
  destruct (MlRunner.run_model (ml MoreRuns.record_fails) "uploads/s1_scan.nii"
              "multi-disease") as [t [ml_results | e]] eqn:E.
  - assert (Hr : truthy_opt (snd (create_record MoreRuns.record_fails ml_results))
                 = true) by reflexivity.
    rewrite (proj1 (record_failure_is_fatal MoreRuns.record_fails
                      "uploads/s1_scan.nii" "multi-disease" t ml_results
                      eq_refl E Hr)).
    vm_compute in E. injection E as <- _. reflexivity.
  - exfalso. vm_compute in E. discriminate.
Defined.

(** X25.  Once the prediction record exists, a chart generator that raises
    (the similarity analysis, the volume chart or the confidence chart)
    ends [run_analysis_background] with status [failed], no upload and no
    report attempted; but when the three generators return, the three
    reports are attempted whatever happens to the chart uploads. *)
Theorem chart_generation_is_fatal_upload_is_not :
  forall (env : Env) (file_path atype : string) (t : list event)
         (ml_results : MlRunner.MlResults),
    client_ok env = true ->
    MlRunner.run_model (ml env) file_path atype = (t, Ok ml_results) ->
    truthy_opt (snd (create_record env ml_results)) = false ->
    (generator_fails env ml_results ->
     reports_attempted
       (trace (snd (run_analysis_background env file_path atype initial))) = [] /\
     statuses (trace (snd (run_analysis_background env file_path atype initial)))
     = ["processing"; "failed"] /\
     uploaded_urls (snd (run_analysis_background env file_path atype initial)) = []) /\
    (~ generator_fails env ml_results ->
     reports_attempted
       (trace (snd (run_analysis_background env file_path atype initial)))
     = report_events).
Proof.
  intros env file_path atype t ml_results Hc Hrun Herr.
  pose proof (run_model_plain (ml env) file_path atype) as Pm.
  rewrite Hrun in Pm. cbn [fst] in Pm.
  unfold run_analysis_background. rewrite Hc. unfold try_finally, try_except.
  rewrite (body_prefix env file_path atype initial Hc). cbv zeta.
  rewrite Hrun. cbn [fst snd]. rewrite Herr.
  destruct (analysis_and_reports env file_path ml_results
              (traced initial (EvStatus "processing" :: t ++ [EvCreateRecord])))
    as [r s1] eqn:E.
  destruct (analysis_and_reports_cases _ _ _ _ _ _ E)
    as (es & P & [(e & -> & -> & G) | (sm & T & F & G & Hr)]).
  - rewrite failure_handler_nothing_stored by (exact Hc || reflexivity).
    rewrite remove_temp_file_spec.
    cbn [snd traced initial trace uploaded_urls report_errors temp_file app].
    split; [intros _ | intros N; contradiction].
    split; [| split; [| reflexivity]].
    + unfold reports_attempted. cbn [filter is_report]. rewrite !filter_app.
      rewrite (plain_no_report _ Pm), (plain_no_report _ P). reflexivity.
    + cbn [statuses]. rewrite !statuses_app.
      rewrite (plain_statuses _ Pm), (plain_statuses _ P). reflexivity.
  - destruct (reports_and_status_spec env sm Hc) as (s' & Es & Ts & _ & Tr & _).
    rewrite Es in Hr. injection Hr as <- <-. rewrite remove_temp_file_spec.
    cbn [snd trace].
    split; [intros Hg; contradiction | intros _].
    rewrite Tr, T. cbn [traced initial trace app].
    unfold reports_attempted. cbn [filter is_report]. rewrite !filter_app.
    rewrite (plain_no_report _ Pm), (plain_no_report _ P).
    destruct (temp_file s'); reflexivity.
Qed.

Lemma chart_generation_is_fatal_upload_is_not_witness :
  reports_attempted
    (trace (snd (run_analysis_background MoreRuns.store_down "uploads/s1_scan.nii"
                   "multi-disease" initial)))
  = report_events.
Proof.
  destruct (MlRunner.run_model (ml MoreRuns.store_down) "uploads/s1_scan.nii"
              "multi-disease") as [t [ml_results | e]] eqn:E.
  - assert (Hr : truthy_opt (snd (create_record MoreRuns.store_down ml_results))
                 = false) by reflexivity.
    apply (proj2 (chart_generation_is_fatal_upload_is_not MoreRuns.store_down
                    "uploads/s1_scan.nii" "multi-disease" t ml_results
                    eq_refl E Hr)).
    intros G. exact G.
  - exfalso. vm_compute in E. discriminate.
Defined.

End WholeRuns.
